(** * Synthetic food-delivery OLTP generator: a shallow embedding

    This development embeds the generator of [oltp/populate_oltp.py] and
    proves the properties its documentation promises about the generated
    rows: arithmetic consistency of order totals, ordering of lifecycle
    timestamps, refund bounds, the default-address flag and outlet key
    uniqueness.  It goes on to the rows of an order in detail, the
    batches and the exceptions of a run, the generators of the reference
    tables, the address lookup, the FX rows and the chunks of the bulk
    loader.

    Modelling conventions.
    - A [datetime] is the integer number of microseconds since the epoch
      ([Z]); a [timedelta] is a number of microseconds.
    - A Python [float] is modelled by an exact rational ([Q]): the
      arithmetic of the generator is read over the rationals, and
      [round(x, nd)] is rounding to [nd] decimals, ties to even.  Binary
      representation error is outside this model.
    - [random.Random] is an abstract source of draws (class
      [RandomSource]) of which only the ranges of [random()] and
      [_randbelow(n)] are known; every theorem holds for every source.
    - Code that can raise is a function into [result]; the generators
      run in the state-and-error monad [gen].
    - The database is outside the model: what a run reads from it (the
      address lookup, the id ranges, the largest order id) is an input,
      and what it writes is the log of the batches handed to the
      loader.  For [copy_rows] it is the texts written to the COPY
      stream, [csv.writer] being a parameter of the model. *)

From Stdlib Require Import ZArith QArith Qround Lia Lqa Ascii String.
From stdpp Require Import base option list gmap strings pretty.

Open Scope Z_scope.

(** ** Time *)

Module Time.

Definition microsecond : Z := 1.
Definition second : Z := 1000000.

(** [timedelta(seconds=k)], [timedelta(minutes=k)], ... *)
Definition seconds (k : Z) : Z := k * second.
Definition minutes (k : Z) : Z := k * (60 * second).
Definition hours (k : Z) : Z := k * (3600 * second).
Definition days (k : Z) : Z := k * (86400 * second).

(** [int(td.total_seconds())]: conversion to whole seconds truncates
    toward zero. *)
Definition int_total_seconds (td : Z) : Z := Z.quot td second.

End Time.

(** ** Money: rounding of idealised floats *)

Module Money.

#[local] Open Scope Q_scope.

Definition Qltb (a b : Q) : bool := negb (Qle_bool b a).

(** Python's [max(a, b)] and [min(a, b)] return the first argument
    unless the second is strictly better. *)
Definition py_max (a b : Q) : Q := if Qltb a b then b else a.
Definition py_min (a b : Q) : Q := if Qltb b a then b else a.

(** Nearest integer, ties to the even neighbour. *)
Definition round_half_even (q : Q) : Z :=
  let f := Qfloor q in
  match Qcompare (q - inject_Z f) (1 # 2) with
  | Lt => f
  | Gt => (f + 1)%Z
  | Eq => if Z.even f then f else (f + 1)%Z
  end.

(** [10 ** nd] *)
Fixpoint scale (nd : nat) : positive :=
  match nd with
  | O => 1%positive
  | S n => (10 * scale n)%positive
  end.

(** [round(x, nd)] *)
Definition py_round (x : Q) (nd : nat) : Q :=
  Qmake (round_half_even (x * inject_Z (Z.pos (scale nd)))) (scale nd).

Definition epsilon : Q := 1 # 1000000000000.

(** [qround(x, nd) = float(round(x + 1e-12, nd))] *)
Definition qround (x : Q) (nd : nat) : Q := py_round (x + epsilon) nd.

(** A value with at most [nd] decimals. *)
Definition on_grid (nd : nat) (q : Q) : Prop :=
  exists z : Z, q == Qmake z (scale nd).

End Money.

(** ** Exceptions and the generator monad *)

Inductive exn : Type :=
| ValueError (msg : string)
| KeyError (key : Z)
| IndexError (msg : string).

Inductive result (A : Type) : Type :=
| Ok (a : A)
| Raise (e : exn).
Arguments Ok {A} a.
Arguments Raise {A} e.

(** The message of the window check of [populate_orders_related]. *)
Definition invalid_window_msg : string :=
  "Invalid time window: end_ts must be > start_ts.".

(** The message of [randrange] on an empty range. *)
Definition empty_range_msg : string := "empty range for randrange()".

Definition empty_seq_msg : string := "Cannot choose from an empty sequence".

(** ** The random source

    [random.Random] is used through [random], [uniform], [randint],
    [randrange] and [choice].  In CPython all of them are built from two
    primitives: [random()], a float in [0, 1), and [_randbelow(n)], an
    integer in [0, n) for [n > 0]. *)

Class RandomSource (rng : Type) : Type := {
  rs_random : rng -> Q * rng;
  rs_randbelow : Z -> rng -> Z * rng;
  rs_random_range : forall g, (0 <= fst (rs_random g))%Q /\ (fst (rs_random g) < 1)%Q;
  rs_randbelow_range :
    forall n g, 0 < n -> 0 <= fst (rs_randbelow n g) < n
}.

(** A source that replays a finite tape of raw draws: [random()] reads
    the next draw as a number of millionths, [_randbelow(n)] reduces it
    modulo [n]; an exhausted tape keeps answering 0. *)
Definition tape : Type := list Z.

Definition tape_next (t : tape) : Z * tape :=
  match t with
  | [] => (0, [])
  | z :: t' => (z, t')
  end.

Definition tape_random (t : tape) : Q * tape :=
  let '(z, t') := tape_next t in (Qmake (z mod 1000000) 1000000, t').

Definition tape_randbelow (n : Z) (t : tape) : Z * tape :=
  let '(z, t') := tape_next t in (z mod n, t').

#[export] Program Instance tape_source : RandomSource tape := {|
  rs_random := tape_random;
  rs_randbelow := tape_randbelow
|}.
Next Obligation.
  intros g. unfold tape_random. destruct (tape_next g) as [z t']. simpl.
  pose proof (Z.mod_pos_bound z 1000000 eq_refl) as Hb.
  unfold Qle, Qlt. simpl. lia.
Qed.
Next Obligation.
  intros n g Hn. unfold tape_randbelow. destruct (tape_next g) as [z t'].
  simpl. apply Z.mod_pos_bound. exact Hn.
Qed.

Section Gen.

Context {rng : Type} `{RandomSource rng}.

Definition gen (A : Type) : Type := rng -> result (A * rng).

Definition gret {A} (a : A) : gen A := fun g => Ok (a, g).

Definition gbind {A B} (m : gen A) (f : A -> gen B) : gen B :=
  fun g =>
    match m g with
    | Ok (a, g') => f a g'
    | Raise e => Raise e
    end.

Definition raise {A} (e : exn) : gen A := fun _ => Raise e.

(** [rng.random()] *)
Definition random : gen Q := fun g => Ok (rs_random g).

(** [rng._randbelow(n)] *)
Definition randbelow (n : Z) : gen Z := fun g => Ok (rs_randbelow n g).

(** [rng.uniform(a, b) = a + (b - a) * random()] *)
Definition uniform (a b : Q) : gen Q :=
  gbind random (fun r => gret (a + (b - a) * r)%Q).

(** [rng.randrange(n)] *)
Definition randrange (n : Z) : gen Z :=
  if 0 <? n then randbelow n else raise (ValueError empty_range_msg).

(** [rng.randint(a, b) = randrange(a, b + 1)] *)
Definition randint (a b : Z) : gen Z :=
  let width := b + 1 - a in
  if 0 <? width then gbind (randbelow width) (fun k => gret (a + k))
  else raise (ValueError empty_range_msg).

(** [rng.choice(seq)] *)
Definition choice {A} (seq : list A) : gen A :=
  match seq with
  | [] => raise (IndexError empty_seq_msg)
  | _ =>
      gbind (randbelow (Z.of_nat (length seq)))
        (fun k =>
           match seq !! Z.to_nat k with
           | Some x => gret x
           | None => raise (IndexError empty_seq_msg)
           end)
  end.

End Gen.

Notation "'let*' x := m 'in' k" := (gbind m (fun x => k))
  (at level 10, x pattern, m at level 100, k at level 200, only parsing).

(** ** String formatting *)

Module Fmt.

Fixpoint zeros (n : nat) : string :=
  match n with
  | O => EmptyString
  | S k => String "0"%char (zeros k)
  end.

(** [str(n)] and [f"{n}"] *)
Definition d (n : Z) : string := pretty n.

(** [f"{n:0wd}"]: zero padding to width [w], the sign first. *)
Definition d0 (w : nat) (n : Z) : string :=
  if n <? 0 then
    let digits := pretty (- n) in
    "-" +:+ zeros (w - 1 - String.length digits) +:+ digits
  else
    let digits := pretty n in
    zeros (w - String.length digits) +:+ digits.

End Fmt.

(** ** Module constants *)

Definition N_CUSTOMERS : Z := 10000.
Definition N_BRANDS : Z := 60.
Definition N_OUTLETS : Z := 450.
Definition N_ORDERS : Z := 200000.
Definition CHUNK_ROWS : Z := 50000.
Definition ORDERS_DAYS : Z := 90.
Definition SAFETY_BUFFER_HOURS : Z := 8.

Definition AU_CITIES : list (string * string * string) :=
  [("Sydney", "NSW", "Australia"); ("Melbourne", "VIC", "Australia");
   ("Brisbane", "QLD", "Australia"); ("Perth", "WA", "Australia");
   ("Adelaide", "SA", "Australia")].

Definition IN_CITIES : list (string * string * string) :=
  [("Hyderabad", "TS", "India"); ("Bengaluru", "KA", "India");
   ("Mumbai", "MH", "India"); ("Delhi", "DL", "India");
   ("Chennai", "TN", "India")].

Definition PAYMENT_METHODS : list string :=
  ["CARD"; "DIGITAL_WALLET"; "CONTACTLESS_NFC"; "CASH"; "PAYPAL"; "BANK_TRANSFER"].

Definition REFUND_REASONS : list string :=
  ["LATE_DELIVERY"; "MISSING_ITEM"; "WRONG_ITEM"; "QUALITY_ISSUE"; "OTHER"].

(** ** Generator loops

    [for i in range(count): <body yields rows>], the index starting at
    [i]; the rows of the iterations are yielded in order. *)
Fixpoint for_yield {rng A} (count : nat) (i : Z) (body : Z -> @gen rng (list A))
  : @gen rng (list A) :=
  match count with
  | O => gret []
  | S c =>
      let* xs := body i in
      let* ys := for_yield c (i + 1) body in
      gret (xs ++ ys)
  end.

(** ** Customer addresses *)

Record address_row : Type := {
  a_customer_id : Z;
  a_label : string;
  a_line_1 : string;
  a_line_2 : option string;
  a_city : string;
  a_state : string;
  a_country : string;
  a_postal_code : string;
  a_latitude : Q;
  a_longitude : Q;
  a_is_default : bool;
  a_created_at : Z
}.

Section Addresses.

Context {rng : Type} `{RandomSource rng}.
Import Money.

Definition AU_CITY_CODES : list string :=
  (fun i => "AU_CITY_" +:+ Fmt.d0 3 i) <$> seqZ 1 50.
Definition AU_STATE_CODES : list string :=
  (fun i => "AU_STATE_" +:+ Fmt.d0 2 i) <$> seqZ 1 10.
Definition IN_CITY_CODES : list string :=
  (fun i => "IN_CITY_" +:+ Fmt.d0 3 i) <$> seqZ 1 50.
Definition IN_STATE_CODES : list string :=
  (fun i => "IN_STATE_" +:+ Fmt.d0 2 i) <$> seqZ 1 10.
Definition LABELS : list string := ["HOME"; "WORK"; "OTHER"].

(** The body of [for j in range(n_addr)]. *)
Definition address_body (addr_base_ts customer_id : Z) (is_au : bool)
    (country : string) (default_idx : Z) (j : Z) : gen (list address_row) :=
  let city_pool := if is_au then AU_CITY_CODES else IN_CITY_CODES in
  let state_pool := if is_au then AU_STATE_CODES else IN_STATE_CODES in
  let postal_code_fn : gen string :=
    if is_au then (let* n := randint 1000 9999 in gret (Fmt.d n))
    else (let* n := randint 100000 999999 in gret (Fmt.d n)) in
  let* city := choice city_pool in
  let* state := choice state_pool in
  let* label := choice LABELS in
  let line_1 := "ADDR_" +:+ Fmt.d0 5 customer_id +:+ "_" +:+ Fmt.d0 2 (j + 1) in
  let* r2 := random in
  let* line_2 :=
    (if Qltb r2 (25 # 100)
     then (let* u := randint 1 999 in gret (Some ("UNIT_" +:+ Fmt.d0 3 u)))
     else gret None) in
  let* postal_code := postal_code_fn in
  let* lat0 := uniform (- (10 # 1)) (10 # 1) in
  let lat := qround lat0 6 in
  let* lon0 := uniform (- (10 # 1)) (10 # 1) in
  let lon := qround lon0 6 in
  let is_default := (j =? default_idx) in
  let* m := randint 0 (365 * 2 * 24 * 60) in
  let created_at := addr_base_ts + Time.minutes m in
  gret [ {| a_customer_id := customer_id; a_label := label;
            a_line_1 := line_1; a_line_2 := line_2; a_city := city;
            a_state := state; a_country := country;
            a_postal_code := postal_code; a_latitude := lat;
            a_longitude := lon; a_is_default := is_default;
            a_created_at := created_at |} ].

(** The body of [for customer_id in range(start, end + 1)]. *)
Definition customer_body (addr_base_ts customer_id : Z) : gen (list address_row) :=
  let* r := random in
  let n_addr :=
    if Qltb r (70 # 100) then 1
    else if Qltb r (95 # 100) then 2
    else 3 in
  let* r1 := random in
  let is_au := Qltb r1 (55 # 100) in
  let country := if is_au then "Australia" else "India" in
  let* default_idx := randrange n_addr in
  for_yield (Z.to_nat n_addr) 0
    (address_body addr_base_ts customer_id is_au country default_idx).

(** [gen_customer_addresses(seed, customer_id_start, customer_id_end)];
    [g] is [random.Random(seed + 1000)] and [now] the value of
    [utc_now()]. *)
Definition gen_customer_addresses (now customer_id_start customer_id_end : Z)
  : gen (list address_row) :=
  let addr_base_ts := now - Time.days (365 * 2) in
  for_yield (Z.to_nat (customer_id_end + 1 - customer_id_start))
    customer_id_start (customer_body addr_base_ts).

End Addresses.

(** ** Outlets *)

Record outlet_row : Type := {
  t_brand_id : Z;
  t_outlet_name : string;
  t_city : string;
  t_delivery_zone : string;
  t_address_line1 : string;
  t_postal_code : string;
  t_is_active : bool;
  t_created_at : Z
}.

Definition outlet_key (r : outlet_row) : Z * string * string * string :=
  (t_brand_id r, t_outlet_name r, t_city r, t_delivery_zone r).

(** How the run of a generator ends: its loop is exhausted, an exception
    escapes, or the run is still inside a [while] loop when the fuel of
    the model is used up. *)
Inductive ending : Type :=
| Exhausted
| Raised (e : exn)
| Spinning.

Section Outlets.

Context {rng : Type} `{RandomSource rng}.
Import Money.

(** [while key in used_keys: outlet_name = ...; key = ...].  [None]
    when [fuel] iterations did not leave the loop. *)
Fixpoint regenerate (fuel : nat) (used_keys : gset (Z * string * string * string))
    (brand_id : Z) (city delivery_zone outlet_name : string)
  : gen (option string) :=
  if decide ((brand_id, outlet_name, city, delivery_zone) ∈ used_keys) then
    match fuel with
    | O => gret None
    | S fuel' =>
        let* n := randint 1 50000 in
        regenerate fuel' used_keys brand_id city delivery_zone ("Outlet " +:+ Fmt.d n)
    end
  else gret (Some outlet_name).

(** One iteration of [for _ in range(N_OUTLETS)], up to the [yield]. *)
Definition outlet_body (fuel : nat) (base_ts brand_id_start brand_id_end : Z)
    (used_keys : gset (Z * string * string * string))
  : gen (option outlet_row) :=
  let* brand_id := randint brand_id_start brand_id_end in
  let* r := random in
  let is_au := Qltb r (55 # 100) in
  let* c := choice (if is_au then AU_CITIES else IN_CITIES) in
  let '(city, _, _country) := c in
  let* z := randint 1 25 in
  let delivery_zone := "Z" +:+ Fmt.d z in
  let* n := randint 1 50000 in
  let outlet_name := "Outlet " +:+ Fmt.d n in
  let* a := randint 1 999 in
  let address_line1 := Fmt.d a +:+ " Main Rd" in
  let* pc := (if is_au then randint 2000 7999 else randint 100000 999999) in
  let postal_code := Fmt.d pc in
  let* r1 := random in
  let is_active := if Qltb r1 (98 # 100) then true else false in
  let* dd := randint 0 (365 * 3) in
  let created_at := base_ts + Time.days dd in
  let* name := regenerate fuel used_keys brand_id city delivery_zone outlet_name in
  match name with
  | None => gret None
  | Some outlet_name =>
      gret (Some {| t_brand_id := brand_id; t_outlet_name := outlet_name;
                    t_city := city; t_delivery_zone := delivery_zone;
                    t_address_line1 := address_line1;
                    t_postal_code := postal_code; t_is_active := is_active;
                    t_created_at := created_at |})
  end.

(** The loop of [gen_outlets]: the rows yielded so far and how the run
    ends.  A row is yielded after its key joined [used_keys]. *)
Fixpoint outlets_loop (fuel count : nat) (base_ts brand_id_start brand_id_end : Z)
    (used_keys : gset (Z * string * string * string)) (g : rng)
  : list outlet_row * ending :=
  match count with
  | O => ([], Exhausted)
  | S count' =>
      match outlet_body fuel base_ts brand_id_start brand_id_end used_keys g with
      | Raise e => ([], Raised e)
      | Ok (None, _) => ([], Spinning)
      | Ok (Some row, g') =>
          let '(rows, e) :=
            outlets_loop fuel count' base_ts brand_id_start brand_id_end
              ({[outlet_key row]} ∪ used_keys) g' in
          (row :: rows, e)
      end
  end.

(** [gen_outlets(seed, brand_id_start, brand_id_end)], every [while]
    loop running for at most [fuel] iterations; [g] is
    [random.Random(seed + 3000)]. *)
Definition gen_outlets (fuel : nat) (now brand_id_start brand_id_end : Z) (g : rng)
  : list outlet_row * ending :=
  let base_ts := now - Time.days (365 * 3) in
  outlets_loop fuel (Z.to_nat N_OUTLETS) base_ts brand_id_start brand_id_end ∅ g.

End Outlets.

(** ** Order lifecycle timelines *)

Record timeline_delivered : Type := {
  td_events : list (Z * string * string);
  td_assigned_at : Z;
  td_pickup_eta : Z;
  td_dropoff_eta : Z;
  td_delivered_ts : Z
}.

Record timeline_canceled : Type := {
  tc_events : list (Z * string * string);
  tc_canceled_ts : Z
}.

(** [latest_allowed = now - timedelta(minutes=1)] *)
Definition latest_allowed (now : Z) : Z := now - Time.minutes 1.

(** The local [clamp] of [build_order_timeline_delivered]. *)
Definition clamp (now ts : Z) : Z :=
  if ts <=? latest_allowed now then ts else latest_allowed now.

(** The local [ensure_after] of [build_order_timeline_delivered]. *)
Definition ensure_after (now ts prev : Z) : Z :=
  if ts <=? prev then clamp now (prev + Time.minutes 1) else ts.

Section Timelines.

Context {rng : Type} `{RandomSource rng}.

Definition build_order_timeline_delivered (placed_at now : Z)
  : gen timeline_delivered :=
  let placed_ts := placed_at in
  let* d1 := randint 1 6 in
  let accepted_ts := placed_ts + Time.minutes d1 in
  let* d2 := randint 2 10 in
  let prep_start_ts := accepted_ts + Time.minutes d2 in
  let* d3 := randint 5 20 in
  let ready_ts := prep_start_ts + Time.minutes d3 in
  let* d4 := randint 1 8 in
  let assigned_at := ready_ts + Time.minutes d4 in
  let* d5 := randint 10 25 in
  let pickup_eta := assigned_at + Time.minutes d5 in
  let* d6 := randint (-3) 3 in
  let picked_up_ts := pickup_eta + Time.minutes d6 in
  let* d7 := randint 10 35 in
  let dropoff_eta := pickup_eta + Time.minutes d7 in
  let* d8 := randint (-3) 3 in
  let delivered_ts := dropoff_eta + Time.minutes d8 in
  let accepted_ts := clamp now accepted_ts in
  let prep_start_ts := clamp now prep_start_ts in
  let ready_ts := clamp now ready_ts in
  let assigned_at := clamp now assigned_at in
  let pickup_eta := clamp now pickup_eta in
  let picked_up_ts := clamp now picked_up_ts in
  let dropoff_eta := clamp now dropoff_eta in
  let delivered_ts := clamp now delivered_ts in
  let accepted_ts := ensure_after now accepted_ts placed_ts in
  let prep_start_ts := ensure_after now prep_start_ts accepted_ts in
  let ready_ts := ensure_after now ready_ts prep_start_ts in
  let assigned_at := ensure_after now assigned_at ready_ts in
  let pickup_eta := ensure_after now pickup_eta assigned_at in
  let picked_up_ts := ensure_after now picked_up_ts pickup_eta in
  let dropoff_eta := ensure_after now dropoff_eta picked_up_ts in
  let delivered_ts := ensure_after now delivered_ts dropoff_eta in
  let events :=
    [ (placed_ts, "PLACED", "CUSTOMER");
      (accepted_ts, "ACCEPTED", "RESTAURANT");
      (prep_start_ts, "PREP_START", "RESTAURANT");
      (ready_ts, "READY_FOR_PICKUP", "RESTAURANT");
      (picked_up_ts, "PICKED_UP", "COURIER");
      (delivered_ts, "DELIVERED", "SYSTEM") ] in
  gret {| td_events := events; td_assigned_at := assigned_at;
          td_pickup_eta := pickup_eta; td_dropoff_eta := dropoff_eta;
          td_delivered_ts := delivered_ts |}.

Definition build_order_timeline_canceled (placed_at now : Z)
  : gen timeline_canceled :=
  let placed_ts := placed_at in
  let* d1 := randint 2 30 in
  let canceled_ts := placed_ts + Time.minutes d1 in
  let canceled_ts :=
    if latest_allowed now <? canceled_ts then latest_allowed now
    else canceled_ts in
  let canceled_ts :=
    if canceled_ts <=? placed_ts then
      let canceled_ts := placed_ts + Time.minutes 1 in
      if latest_allowed now <? canceled_ts then latest_allowed now
      else canceled_ts
    else canceled_ts in
  let events :=
    [ (placed_ts, "PLACED", "CUSTOMER");
      (canceled_ts, "CANCELED", "SYSTEM") ] in
  gret {| tc_events := events; tc_canceled_ts := canceled_ts |}.

End Timelines.

(** ** Orders and their dependent rows *)

Record order_row : Type := {
  o_order_id : Z;
  o_customer_id : Z;
  o_delivery_address_id : Z;
  o_restaurant_id : Z;
  o_order_placed_at : Z;
  o_scheduled_delivery : option Z;
  o_subtotal : Q;
  o_tax : Q;
  o_delivery_fee : Q;
  o_discount : Q;
  o_total_amount : Q;
  o_payment_method : string;
  o_payment_status : string;
  o_currency_id : Z
}.

Record order_item_row : Type := {
  i_order_id : Z;
  i_menu_item_id : Z;
  i_quantity : Z;
  i_unit_price : Q;
  i_line_total : Q
}.

Record event_row : Type := {
  e_order_id : Z;
  e_event_ts : Z;
  e_status : string;
  e_actor : string;
  e_notes : option string
}.

Record assignment_row : Type := {
  s_order_id : Z;
  s_courier_id : Z;
  s_assigned_at : Z;
  s_pickup_eta : Z;
  s_dropoff_eta : Z
}.

Record refund_row : Type := {
  r_order_id : Z;
  r_refund_ts : Z;
  r_refund_reason : string;
  r_refund_amount : Q;
  r_currency_id : Z
}.

Record rating_row : Type := {
  g_order_id : Z;
  g_customer_id : Z;
  g_restaurant_rating : Z;
  g_courier_rating : option Z;
  g_comment : option string;
  g_created_at : Z
}.

(** The six row buffers of [populate_orders_related]. *)
Record batch : Type := {
  orders_rows : list order_row;
  order_items_rows : list order_item_row;
  events_rows : list event_row;
  assignments_rows : list assignment_row;
  refunds_rows : list refund_row;
  ratings_rows : list rating_row
}.

Definition empty_batch : batch :=
  {| orders_rows := []; order_items_rows := []; events_rows := [];
     assignments_rows := []; refunds_rows := []; ratings_rows := [] |}.

(** Appending the rows of [b2] to the buffers [b1]. *)
Definition batch_app (b1 b2 : batch) : batch :=
  {| orders_rows := orders_rows b1 ++ orders_rows b2;
     order_items_rows := order_items_rows b1 ++ order_items_rows b2;
     events_rows := events_rows b1 ++ events_rows b2;
     assignments_rows := assignments_rows b1 ++ assignments_rows b2;
     refunds_rows := refunds_rows b1 ++ refunds_rows b2;
     ratings_rows := ratings_rows b1 ++ ratings_rows b2 |}.

(** A [{"lo": ..., "hi": ...}] row of [load_reference_ids]. *)
Record id_range : Type := { lo : Z; hi : Z }.

(** The scale and window constants read by [populate_orders_related]. *)
Record config : Type := {
  cfg_n_orders : Z;
  cfg_chunk_rows : Z;
  cfg_orders_days : Z;
  cfg_safety_buffer_hours : Z
}.

Definition module_config : config :=
  {| cfg_n_orders := N_ORDERS; cfg_chunk_rows := CHUNK_ROWS;
     cfg_orders_days := ORDERS_DAYS;
     cfg_safety_buffer_hours := SAFETY_BUFFER_HOURS |}.

(** What a run of [populate_orders_related] leaves behind: the batches
    handed to [_flush_orders_batch], in order, and the exception that
    ended the run, if any. *)
Record outcome : Type := {
  flushed : list batch;
  raised : option exn
}.

Definition start_ts (cfg : config) (now : Z) : Z :=
  now - Time.days (cfg_orders_days cfg).
Definition end_ts (cfg : config) (now : Z) : Z :=
  now - Time.hours (cfg_safety_buffer_hours cfg).

Section Orders.

Context {rng : Type} `{RandomSource rng}.
Import Money.

Variables (cfg : config) (now : Z).
Variable address_map : gmap Z (list (Z * string * string)).
Variables cust_range outlet_range menu_range courier_range : id_range.
Variables aud_id inr_id : Z.

(** The local [currency_for_country]. *)
Definition currency_for_country (country : string) : Z :=
  if decide (country = "Australia") then aud_id else inr_id.

(** [address_map[customer_id]] *)
Definition address_lookup (customer_id : Z)
  : @gen rng (list (Z * string * string)) :=
  match address_map !! customer_id with
  | Some addrs => gret addrs
  | None => raise (KeyError customer_id)
  end.

(** [for _ in range(n_items)]: the items and the running subtotal. *)
Fixpoint items_loop (count : nat) (items : list (Z * Z * Q * Q)) (subtotal : Q)
  : gen (list (Z * Z * Q * Q) * Q) :=
  match count with
  | O => gret (items, subtotal)
  | S count' =>
      let* menu_item_id := randint (lo menu_range) (hi menu_range) in
      let* qty := randint 1 3 in
      let* p := uniform (5 # 1) (35 # 1) in
      let unit_price := qround p 2 in
      let line_total := qround (inject_Z qty * unit_price) 2 in
      items_loop count'
        (items ++ [(menu_item_id, qty, unit_price, line_total)])
        (subtotal + line_total)%Q
  end.

Definition item_rows (order_id : Z) (items : list (Z * Z * Q * Q))
  : list order_item_row :=
  (fun '(menu_item_id, qty, unit_price, line_total) =>
     {| i_order_id := order_id; i_menu_item_id := menu_item_id;
        i_quantity := qty; i_unit_price := unit_price;
        i_line_total := line_total |}) <$> items.

Definition event_rows (order_id : Z) (events : list (Z * string * string))
  : list event_row :=
  (fun '(ts, status, actor) =>
     {| e_order_id := order_id; e_event_ts := ts; e_status := status;
        e_actor := actor; e_notes := None |}) <$> events.

(** The refund subset of a delivered order: the refund rows and the
    payment status after it. *)
Definition refund_part (order_id delivered_ts : Z) (total_amount : Q)
    (addr_country payment_status : string) : gen (list refund_row * string) :=
  let* r := random in
  if Qltb r (35 # 1000) then
    let* m := randint 5 180 in
    let refund_ts := delivered_ts + Time.minutes m in
    let* u := uniform (5 # 100) (80 # 100) in
    let refund_amount := qround (total_amount * u) 2 in
    let* refund_reason := choice REFUND_REASONS in
    let currency_id := currency_for_country addr_country in
    let row := {| r_order_id := order_id; r_refund_ts := refund_ts;
                  r_refund_reason := refund_reason;
                  r_refund_amount := refund_amount;
                  r_currency_id := currency_id |} in
    let* r1 := random in
    gret ([row], if Qltb r1 (75 # 100) then "REFUNDED" else payment_status)
  else gret ([], payment_status).

(** The ratings subset of a delivered order. *)
Definition rating_part (order_id customer_id delivered_ts : Z)
  : gen (list rating_row) :=
  let* r := random in
  if Qltb r (55 # 100) then
    let* m := randint 2 240 in
    let rating_created := delivered_ts + Time.minutes m in
    let* restaurant_rating := randint 1 5 in
    let* r1 := random in
    let* courier_rating :=
      (if Qltb r1 (85 # 100) then (let* c := randint 1 5 in gret (Some c))
       else gret None) in
    let* r2 := random in
    let comment :=
      if Qltb r2 (75 # 100) then None else Some "Tasty and fast delivery." in
    gret [ {| g_order_id := order_id; g_customer_id := customer_id;
              g_restaurant_rating := restaurant_rating;
              g_courier_rating := courier_rating; g_comment := comment;
              g_created_at := rating_created |} ]
  else gret [].

(** One iteration of [for i in range(N_ORDERS)], before the batch
    flush: the rows it appends to the six buffers. *)
Definition order_body (order_id : Z) : gen batch :=
  let* customer_id := randint (lo cust_range) (hi cust_range) in
  let* addrs := address_lookup customer_id in
  let* a := choice addrs in
  let '(address_id, _addr_city, addr_country) := a in
  let* restaurant_id := randint (lo outlet_range) (hi outlet_range) in
  let* secs :=
    randint 0 (Time.int_total_seconds (end_ts cfg now - start_ts cfg now)) in
  let placed_at := start_ts cfg now + Time.seconds secs in
  let scheduled_delivery : option Z := None in
  let* n_items := randint 1 5 in
  let* it := items_loop (Z.to_nat n_items) [] 0%Q in
  let '(items, subtotal) := it in
  let subtotal := qround subtotal 2 in
  let* tr := uniform (5 # 100) (12 # 100) in
  let tax := qround (subtotal * tr) 2 in
  let* df := uniform (1 # 1) (8 # 1) in
  let delivery_fee := qround df 2 in
  let discount_cap := py_max 0%Q (subtotal + tax + delivery_fee)%Q in
  let* du := uniform 0%Q (subtotal * (20 # 100))%Q in
  let discount := qround (py_min discount_cap du) 2 in
  let total_amount := qround (subtotal + tax + delivery_fee - discount)%Q 2 in
  let* payment_method := choice PAYMENT_METHODS in
  let* dr := random in
  let delivered := Qltb dr (92 # 100) in
  let* rest :=
    (if delivered then
       let payment_status := "PAID" in
       let* timeline := build_order_timeline_delivered placed_at now in
       let* courier_id := randint (lo courier_range) (hi courier_range) in
       let assignment :=
         {| s_order_id := order_id; s_courier_id := courier_id;
            s_assigned_at := td_assigned_at timeline;
            s_pickup_eta := td_pickup_eta timeline;
            s_dropoff_eta := td_dropoff_eta timeline |} in
       let* rf := refund_part order_id (td_delivered_ts timeline) total_amount
                    addr_country payment_status in
       let '(refunds, payment_status) := rf in
       let* ratings := rating_part order_id customer_id (td_delivered_ts timeline) in
       gret (payment_status,
             {| orders_rows := [];
                order_items_rows := item_rows order_id items;
                events_rows := event_rows order_id (td_events timeline);
                assignments_rows := [assignment];
                refunds_rows := refunds;
                ratings_rows := ratings |})
     else
       let* payment_status := choice ["FAILED"; "PENDING"] in
       let* timeline := build_order_timeline_canceled placed_at now in
       gret (payment_status,
             {| orders_rows := [];
                order_items_rows := item_rows order_id items;
                events_rows := event_rows order_id (tc_events timeline);
                assignments_rows := [];
                refunds_rows := [];
                ratings_rows := [] |})) in
  let '(payment_status, dependents) := rest in
  let currency_id := currency_for_country addr_country in
  let order :=
    {| o_order_id := order_id; o_customer_id := customer_id;
       o_delivery_address_id := address_id;
       o_restaurant_id := restaurant_id; o_order_placed_at := placed_at;
       o_scheduled_delivery := scheduled_delivery; o_subtotal := subtotal;
       o_tax := tax; o_delivery_fee := delivery_fee;
       o_discount := discount; o_total_amount := total_amount;
       o_payment_method := payment_method;
       o_payment_status := payment_status; o_currency_id := currency_id |} in
  gret (batch_app dependents
          {| orders_rows := [order]; order_items_rows := [];
             events_rows := []; assignments_rows := [];
             refunds_rows := []; ratings_rows := [] |}).

(** [for i in range(N_ORDERS)] with the batch flush; [count]
    iterations remain, the next index is [i]. *)
Fixpoint orders_loop (base_order_id : Z) (count : nat) (i : Z) (buf : batch)
    (log : list batch) (g : rng) : outcome :=
  match count with
  | O =>
      {| flushed := match orders_rows buf with
                    | [] => log
                    | _ => log ++ [buf]
                    end;
         raised := None |}
  | S count' =>
      match order_body (base_order_id + i + 1) g with
      | Raise e => {| flushed := log; raised := Some e |}
      | Ok (rows, g') =>
          let buf' := batch_app buf rows in
          if cfg_chunk_rows cfg <=? Z.of_nat (length (orders_rows buf')) then
            orders_loop base_order_id count' (i + 1) empty_batch (log ++ [buf']) g'
          else
            orders_loop base_order_id count' (i + 1) buf' log g'
      end
  end.

(** [populate_orders_related]; [g] is [random.Random(seed)],
    [address_map] the result of [build_address_lookup] and
    [base_order_id] the largest stored order id. *)
Definition populate_orders_related (base_order_id : Z) (g : rng) : outcome :=
  if end_ts cfg now <=? start_ts cfg now then
    {| flushed := []; raised := Some (ValueError invalid_window_msg) |}
  else
    orders_loop base_order_id (Z.to_nat (cfg_n_orders cfg)) 0 empty_batch [] g.

End Orders.

(** All rows handed to the loader by a run, batch after batch. *)
Definition emitted (o : outcome) : batch :=
  foldr batch_app empty_batch (flushed o).

(** ** Vocabulary of the properties *)

(** Each element is strictly smaller than its successor. *)
Fixpoint strictly_increasing (l : list Z) : Prop :=
  match l with
  | [] => True
  | x :: l' =>
      match l' with
      | [] => True
      | y :: _ => x < y /\ strictly_increasing l'
      end
  end.

(** The timestamps and the statuses of a list of [(ts, status, actor)]. *)
Definition event_times (events : list (Z * string * string)) : list Z :=
  (fun e => fst (fst e)) <$> events.
Definition event_statuses (events : list (Z * string * string)) : list string :=
  (fun e => snd (fst e)) <$> events.

(** The stored total is the rounded sum of its parts, with [qround] as
    with the plain [round], and is not negative. *)
Definition totals_consistent (o : order_row) : Prop :=
  o_total_amount o
  = Money.qround (o_subtotal o + o_tax o + o_delivery_fee o - o_discount o)%Q 2
  /\ (Money.py_round
        (o_subtotal o + o_tax o + o_delivery_fee o - o_discount o)%Q 2
      == o_total_amount o)%Q
  /\ (0 <= o_total_amount o)%Q.

(** The discount stays below the sum of the charges and below a fifth
    of the subtotal rounded to cents. *)
Definition discount_capped (o : order_row) : Prop :=
  (o_discount o <= o_subtotal o + o_tax o + o_delivery_fee o)%Q
  /\ (o_discount o <= Money.qround (o_subtotal o * (20 # 100)) 2)%Q.

(** The refund rows of an order: none, or one that follows the delivery,
    does not exceed the total and is in the currency of the order. *)
Definition refunds_ok (o : order_row) (delivered_ts : Z) (refunds : list refund_row)
  : Prop :=
  refunds = []
  \/ exists r, refunds = [r]
       /\ r_order_id r = o_order_id o
       /\ delivered_ts < r_refund_ts r
       /\ (r_refund_amount r <= o_total_amount o)%Q
       /\ r_currency_id r = o_currency_id o.

(** What one iteration of the order loop appends to the buffers: one
    order row with consistent totals, placed inside the window, and the
    rows of a delivered or of a canceled lifecycle. *)
Section Bundles.

Context {rng : Type} `{RandomSource rng}.
Variables (cfg : config) (now : Z).

Definition lifecycle (o : order_row) (evs : list (Z * string * string))
    (b : batch) : Prop :=
  (exists tl (g1 g2 : rng),
      build_order_timeline_delivered (o_order_placed_at o) now g1 = Ok (tl, g2)
      /\ evs = td_events tl
      /\ refunds_ok o (td_delivered_ts tl) (refunds_rows b)
      /\ (o_payment_status o = "PAID"
          \/ (o_payment_status o = "REFUNDED" /\ refunds_rows b <> [])))
  \/ (exists tl (g1 g2 : rng),
      build_order_timeline_canceled (o_order_placed_at o) now g1 = Ok (tl, g2)
      /\ evs = tc_events tl
      /\ refunds_rows b = []
      /\ (o_payment_status o = "FAILED" \/ o_payment_status o = "PENDING")).

Definition bundle_ok (order_id : Z) (b : batch) : Prop :=
  exists o evs,
    orders_rows b = [o]
    /\ o_order_id o = order_id
    /\ events_rows b = event_rows order_id evs
    /\ totals_consistent o
    /\ discount_capped o
    /\ start_ts cfg now <= o_order_placed_at o <= end_ts cfg now
    /\ lifecycle o evs b.

(** The timestamp of the closing event of a bundle, DELIVERED or
    CANCELED. *)
Definition closing (b : batch) (status : string) (ts : Z) : Prop :=
  (exists d, d ∈ events_rows b /\ e_status d = status /\ e_event_ts d = ts)
  /\ (forall e, e ∈ events_rows b -> e_status e = status -> e_event_ts e = ts)
  /\ ts <= latest_allowed now.

(** The bundle at position [k] belongs to the order [base + k + 1]. *)
Definition indexed_bundles (base_order_id : Z) (bs : list batch) : Prop :=
  forall (k : nat) b, bs !! k = Some b ->
                      bundle_ok (base_order_id + Z.of_nat k + 1) b.

End Bundles.

Section RunBundles.

Context {rng : Type} `{RandomSource rng}.
Variables (cfg : config) (now : Z).
Variable address_map : gmap Z (list (Z * string * string)).
Variables cust_range outlet_range menu_range courier_range : id_range.
Variables aud_id inr_id : Z.
Variable base_order_id : Z.

#[local] Abbreviation run :=
  (populate_orders_related cfg now address_map cust_range outlet_range
     menu_range courier_range aud_id inr_id base_order_id).

(** The bundles of a run: every emitted row lies in the bundle of its
    order, and the rows of every bundle are emitted. *)
Definition bundles_of (g : rng) (bs : list batch) : Prop :=
  indexed_bundles cfg now base_order_id bs
  /\ (forall o, o ∈ orders_rows (emitted (run g)) <->
                exists k b, bs !! k = Some b /\ o ∈ orders_rows b)
  /\ (forall e, e ∈ events_rows (emitted (run g)) <->
                exists k b, bs !! k = Some b /\ e ∈ events_rows b)
  /\ (forall r, r ∈ refunds_rows (emitted (run g)) <->
                exists k b, bs !! k = Some b /\ r ∈ refunds_rows b).

End RunBundles.

(** An exception other than the one of the window check. *)
Definition not_window_error (e : exn) : Prop :=
  e <> ValueError invalid_window_msg.

(** The address rows of one customer, and the rows flagged default. *)
Definition addresses_of (customer_id : Z) (rows : list address_row)
  : list address_row :=
  filter (fun a => a_customer_id a = customer_id) rows.

Definition default_flagged (rows : list address_row) : list address_row :=
  filter (fun a => a_is_default a = true) rows.

(** Reference data as [main] leaves it: no id range is empty and every
    customer of the range has an address. *)
Definition reference_data_ok (address_map : gmap Z (list (Z * string * string)))
    (cust_range outlet_range menu_range courier_range : id_range) : Prop :=
  lo cust_range <= hi cust_range
  /\ lo outlet_range <= hi outlet_range
  /\ lo menu_range <= hi menu_range
  /\ lo courier_range <= hi courier_range
  /\ forall c, lo cust_range <= c <= hi cust_range ->
               exists addrs, address_map !! c = Some addrs /\ addrs <> [].

(** ** Sample runs *)

(** A value of [utc_now()], an address lookup with one customer and the
    id ranges of a small database. *)
Definition sample_now : Z := 1000000000000000.

Definition sample_addresses : gmap Z (list (Z * string * string)) :=
  {[ 1 := [(10, "AU_CITY_001", "Australia")] ]}.

(** The module constants, the run cut after its first order. *)
Definition one_order_config : config :=
  {| cfg_n_orders := 1; cfg_chunk_rows := CHUNK_ROWS;
     cfg_orders_days := ORDERS_DAYS;
     cfg_safety_buffer_hours := SAFETY_BUFFER_HOURS |}.

Definition sample_run (cfg : config) (t : tape) : outcome :=
  populate_orders_related cfg sample_now sample_addresses
    {| lo := 1; hi := 1 |} {| lo := 1; hi := 5 |} {| lo := 1; hi := 50 |}
    {| lo := 1; hi := 9 |} 1 2 0 t.

(** The first iteration of the order loop on the same inputs. *)
Definition sample_body (cfg : config) (t : tape) : result (batch * tape) :=
  order_body cfg sample_now sample_addresses
    {| lo := 1; hi := 1 |} {| lo := 1; hi := 5 |} {| lo := 1; hi := 50 |}
    {| lo := 1; hi := 9 |} 1 2 (0 + 0 + 1) t.

(** Draws that place the order at the very end of the window: the
    fourth draw is the largest offset in seconds. *)
Definition tape_late : tape :=
  [0; 0; 0; 7747200; 0; 3; 1; 30000; 500000; 500000; 999999].

(** Draws with one item of price 5.03 and a discount draw just below a
    fifth of the subtotal. *)
Definition tape_rounding : tape := [0; 0; 0; 0; 0; 0; 0; 1000; 0; 0; 999500].

(** Draws of a canceled order. *)
Definition tape_canceled : tape :=
  [0; 0; 0; 0; 0; 0; 0; 1000; 0; 0; 0; 0; 950000; 1; 0].

Definition late_order : order_row :=
  {| o_order_id := 1; o_customer_id := 1; o_delivery_address_id := 10;
     o_restaurant_id := 1; o_order_placed_at := 999971200000000;
     o_scheduled_delivery := None; o_subtotal := 11.80%Q; o_tax := 1.00%Q;
     o_delivery_fee := 4.50%Q; o_discount := 2.36%Q;
     o_total_amount := 14.94%Q; o_payment_method := "CARD";
     o_payment_status := "REFUNDED"; o_currency_id := 1 |}.

Definition late_delivered : event_row :=
  {| e_order_id := 1; e_event_ts := 999973000000000; e_status := "DELIVERED";
     e_actor := "SYSTEM"; e_notes := None |}.

Definition late_refund : refund_row :=
  {| r_order_id := 1; r_refund_ts := 999973300000000;
     r_refund_reason := "LATE_DELIVERY"; r_refund_amount := 0.75%Q;
     r_currency_id := 1 |}.

Definition rounding_order : order_row :=
  {| o_order_id := 1; o_customer_id := 1; o_delivery_address_id := 10;
     o_restaurant_id := 1; o_order_placed_at := 992224000000000;
     o_scheduled_delivery := None; o_subtotal := 5.03%Q; o_tax := 0.25%Q;
     o_delivery_fee := 1.00%Q; o_discount := 1.01%Q;
     o_total_amount := 5.27%Q; o_payment_method := "CARD";
     o_payment_status := "REFUNDED"; o_currency_id := 1 |}.

Definition canceled_order : order_row :=
  {| o_order_id := 1; o_customer_id := 1; o_delivery_address_id := 10;
     o_restaurant_id := 1; o_order_placed_at := 992224000000000;
     o_scheduled_delivery := None; o_subtotal := 5.03%Q; o_tax := 0.25%Q;
     o_delivery_fee := 1.00%Q; o_discount := 0.00%Q;
     o_total_amount := 6.28%Q; o_payment_method := "CARD";
     o_payment_status := "PENDING"; o_currency_id := 1 |}.

(** Consecutive elements increase strictly, or coincide at [bound]. *)
Fixpoint increasing_or_pinned (bound : Z) (l : list Z) : Prop :=
  match l with
  | [] => True
  | x :: l' =>
      match l' with
      | [] => True
      | y :: _ => (x < y \/ (x = y /\ y = bound)) /\ increasing_or_pinned bound l'
      end
  end.

(** The sum of the line totals as the order loop accumulates it. *)
Definition sum_line_totals (items : list (Z * Z * Q * Q)) (start : Q) : Q :=
  fold_left (fun acc it => (acc + snd it)%Q) items start.

(** An item as the order loop draws it. *)
Definition item_ok (menu_range : id_range) (it : Z * Z * Q * Q) : Prop :=
  lo menu_range <= fst (fst (fst it)) <= hi menu_range
  /\ 1 <= snd (fst (fst it)) <= 3
  /\ (5 # 1 <= snd (fst it))%Q /\ (snd (fst it) <= 35 # 1)%Q
  /\ Money.on_grid 2 (snd (fst it))
  /\ snd it = Money.qround (inject_Z (snd (fst (fst it))) * snd (fst it)) 2.

(** The refund rows of a delivered order in detail. *)
Definition refund_detail (order_id delivered_ts : Z) (total : Q)
    (refunds : list refund_row) : Prop :=
  refunds = []
  \/ exists r, refunds = [r]
       /\ r_order_id r = order_id
       /\ delivered_ts + Time.minutes 5 <= r_refund_ts r
          <= delivered_ts + Time.minutes 180
       /\ r_refund_reason r ∈ REFUND_REASONS
       /\ (Money.qround (total * (5 # 100)) 2 <= r_refund_amount r)%Q
       /\ (r_refund_amount r <= Money.qround (total * (80 # 100)) 2)%Q.

(** The rating rows of a delivered order in detail. *)
Definition rating_detail (order_id customer_id delivered_ts : Z)
    (ratings : list rating_row) : Prop :=
  ratings = []
  \/ exists x, ratings = [x]
       /\ g_order_id x = order_id
       /\ g_customer_id x = customer_id
       /\ 1 <= g_restaurant_rating x <= 5
       /\ (g_courier_rating x = None
           \/ exists c, g_courier_rating x = Some c /\ 1 <= c <= 5)
       /\ (g_comment x = None \/ g_comment x = Some "Tasty and fast delivery.")
       /\ delivered_ts + Time.minutes 2 <= g_created_at x
          <= delivered_ts + Time.minutes 240.

(** What one iteration of the order loop appends to the buffers, in
    detail: the references of the order row, its items and amounts, and
    the dependent rows of its lifecycle. *)
Section BundleDetail.

Context {rng : Type} `{RandomSource rng}.
Variables (cfg : config) (now : Z).
Variable address_map : gmap Z (list (Z * string * string)).
Variables cust_range outlet_range menu_range courier_range : id_range.
Variables aud_id inr_id : Z.

Definition delivered_detail (o : order_row) (evs : list (Z * string * string))
    (b : batch) : Prop :=
  exists tl (g1 g2 : rng) a,
    build_order_timeline_delivered (o_order_placed_at o) now g1 = Ok (tl, g2)
    /\ evs = td_events tl
    /\ assignments_rows b = [a]
    /\ s_order_id a = o_order_id o
    /\ lo courier_range <= s_courier_id a <= hi courier_range
    /\ s_assigned_at a = td_assigned_at tl
    /\ s_pickup_eta a = td_pickup_eta tl
    /\ s_dropoff_eta a = td_dropoff_eta tl
    /\ refund_detail (o_order_id o) (td_delivered_ts tl) (o_total_amount o)
         (refunds_rows b)
    /\ rating_detail (o_order_id o) (o_customer_id o) (td_delivered_ts tl)
         (ratings_rows b).

Definition canceled_detail (o : order_row) (evs : list (Z * string * string))
    (b : batch) : Prop :=
  exists tl (g1 g2 : rng),
    build_order_timeline_canceled (o_order_placed_at o) now g1 = Ok (tl, g2)
    /\ evs = tc_events tl
    /\ assignments_rows b = []
    /\ refunds_rows b = []
    /\ ratings_rows b = [].

Definition bundle_detail (order_id : Z) (b : batch) : Prop :=
  exists o items evs addrs city country,
    orders_rows b = [o]
    /\ order_items_rows b = item_rows order_id items
    /\ events_rows b = event_rows order_id evs
    /\ o_order_id o = order_id
    /\ lo cust_range <= o_customer_id o <= hi cust_range
    /\ address_map !! o_customer_id o = Some addrs
    /\ (o_delivery_address_id o, city, country) ∈ addrs
    /\ o_currency_id o = (if decide (country = "Australia") then aud_id else inr_id)
    /\ lo outlet_range <= o_restaurant_id o <= hi outlet_range
    /\ (exists secs,
           0 <= secs
           <= Time.int_total_seconds (end_ts cfg now - start_ts cfg now)
           /\ o_order_placed_at o = start_ts cfg now + Time.seconds secs)
    /\ o_scheduled_delivery o = None
    /\ o_payment_method o ∈ PAYMENT_METHODS
    /\ (1 <= length items <= 5)%nat
    /\ Forall (item_ok menu_range) items
    /\ o_subtotal o = Money.qround (sum_line_totals items 0%Q) 2
    /\ (Money.qround (o_subtotal o * (5 # 100)) 2 <= o_tax o)%Q
    /\ (o_tax o <= Money.qround (o_subtotal o * (12 # 100)) 2)%Q
    /\ (1 # 1 <= o_delivery_fee o)%Q /\ (o_delivery_fee o <= 8 # 1)%Q
    /\ (0 <= o_discount o)%Q
    /\ Money.on_grid 2 (o_tax o) /\ Money.on_grid 2 (o_delivery_fee o)
    /\ Money.on_grid 2 (o_discount o)
    /\ (delivered_detail o evs b \/ canceled_detail o evs b).

End BundleDetail.

(** The rows of a list of batches, batch after batch. *)
Definition bconcat (bs : list batch) : batch := foldr batch_app empty_batch bs.

(** The size of a flushed batch that is not the last one. *)
Definition full_batch (cfg : config) : Z := Z.max 1 (cfg_chunk_rows cfg).

(** The bundle at position [k] satisfies [P] for the order [base + k + 1]. *)
Definition indexed_by (P : Z -> batch -> Prop) (base_order_id : Z)
    (bs : list batch) : Prop :=
  forall (k : nat) b, bs !! k = Some b ->
                      P (base_order_id + Z.of_nat k + 1) b.

(** Everything known about the bundle of one order. *)
Definition bundle_full {rng : Type} `{RandomSource rng} (cfg : config) (now : Z)
    (address_map : gmap Z (list (Z * string * string)))
    (cust_range outlet_range menu_range courier_range : id_range)
    (aud_id inr_id : Z) (order_id : Z) (b : batch) : Prop :=
  bundle_ok cfg now order_id b
  /\ bundle_detail cfg now address_map cust_range outlet_range menu_range
       courier_range aud_id inr_id order_id b.

(** Every dependent row of a batch belongs to an order row of the same
    batch. *)
Definition self_contained (b : batch) : Prop :=
  let ids := o_order_id <$> orders_rows b in
  Forall (fun x => i_order_id x ∈ ids) (order_items_rows b)
  /\ Forall (fun x => e_order_id x ∈ ids) (events_rows b)
  /\ Forall (fun x => s_order_id x ∈ ids) (assignments_rows b)
  /\ Forall (fun x => r_order_id x ∈ ids) (refunds_rows b)
  /\ Forall (fun x => g_order_id x ∈ ids) (ratings_rows b).

(** The rows of one order among the rows of a batch. *)
Definition items_of (order_id : Z) (b : batch) : list order_item_row :=
  filter (fun x => i_order_id x = order_id) (order_items_rows b).
Definition events_of (order_id : Z) (b : batch) : list event_row :=
  filter (fun x => e_order_id x = order_id) (events_rows b).
Definition assignments_of (order_id : Z) (b : batch) : list assignment_row :=
  filter (fun x => s_order_id x = order_id) (assignments_rows b).
Definition refunds_of (order_id : Z) (b : batch) : list refund_row :=
  filter (fun x => r_order_id x = order_id) (refunds_rows b).
Definition ratings_of (order_id : Z) (b : batch) : list rating_row :=
  filter (fun x => g_order_id x = order_id) (ratings_rows b).

(** [subtotal += line_total] over the item rows of an order. *)
Definition line_totals (rows : list order_item_row) : Q :=
  fold_left (fun acc x => (acc + i_line_total x)%Q) rows 0%Q.

(** An item row as the order loop draws it. *)
Definition item_row_ok (menu_range : id_range) (x : order_item_row) : Prop :=
  lo menu_range <= i_menu_item_id x <= hi menu_range
  /\ 1 <= i_quantity x <= 3
  /\ (5 # 1 <= i_unit_price x)%Q /\ (i_unit_price x <= 35 # 1)%Q
  /\ Money.on_grid 2 (i_unit_price x)
  /\ i_line_total x
     = Money.qround (inject_Z (i_quantity x) * i_unit_price x) 2.

(** ** Customers, brands, menu items and couriers *)

Definition N_COURIERS : Z := 3000.
Definition MENU_ITEMS_PER_OUTLET : Z := 50.

Definition VEHICLES : list string := ["BIKE"; "SCOOTER"; "CAR"].

Definition CATEGORIES : list string :=
  ["Burgers"; "Pizza"; "Indian"; "Chinese"; "Desserts"; "Beverages"; "Salads";
   "Snacks"].

Record customer_row : Type := {
  c_full_name : string;
  c_email : string;
  c_phone : option string;
  c_created_at : Z
}.

Record brand_row : Type := {
  br_brand_name : string;
  br_is_active : bool;
  br_created_at : Z
}.

Record menu_item_row : Type := {
  m_restaurant_id : Z;
  m_item_name : string;
  m_category : string;
  m_price : Q;
  m_is_available : bool;
  m_created_at : Z
}.

Record courier_row : Type := {
  k_city : string;
  k_vehicle : string;
  k_is_active : bool;
  k_created_at : Z
}.

Section Catalogue.

Context {rng : Type} `{RandomSource rng}.
Import Money.

(** ["".join(str(rng.randint(0, 9)) for _ in range(count))] *)
Fixpoint digits (count : nat) : gen string :=
  match count with
  | O => gret EmptyString
  | S c =>
      let* k := randint 0 9 in
      let* rest := digits c in
      gret (Fmt.d k +:+ rest)
  end.

(** The body of [for i in range(N_CUSTOMERS)]. *)
Definition gen_customers_body (base_ts i : Z) : gen (list customer_row) :=
  let* m := randint 0 (365 * 2 * 24 * 60) in
  let created_at := base_ts + Time.minutes m in
  let full_name := "Customer " +:+ Fmt.d (i + 1) in
  let email := "customer" +:+ Fmt.d (i + 1) +:+ "@example.com" in
  let* r := random in
  let* phone :=
    (if Qltb r (65 # 100)
     then (let* ds := digits 10 in gret (Some ("DUMMY-" +:+ ds)))
     else gret None) in
  gret [ {| c_full_name := full_name; c_email := email; c_phone := phone;
            c_created_at := created_at |} ].

(** [gen_customers(seed)]; [g] is [random.Random(seed)]. *)
Definition gen_customers (now : Z) : gen (list customer_row) :=
  let base_ts := now - Time.days (365 * 2) in
  for_yield (Z.to_nat N_CUSTOMERS) 0 (gen_customers_body base_ts).

(** The body of [for i in range(N_BRANDS)]. *)
Definition gen_brands_body (base_ts i : Z) : gen (list brand_row) :=
  let* dd := randint 0 (365 * 3) in
  let created_at := base_ts + Time.days dd in
  let name := "Brand " +:+ Fmt.d (i + 1) in
  let* r := random in
  let is_active := if Qltb r (97 # 100) then true else false in
  gret [ {| br_brand_name := name; br_is_active := is_active;
            br_created_at := created_at |} ].

(** [gen_brands(seed)]; [g] is [random.Random(seed + 2000)]. *)
Definition gen_brands (now : Z) : gen (list brand_row) :=
  let base_ts := now - Time.days (365 * 3) in
  for_yield (Z.to_nat N_BRANDS) 0 (gen_brands_body base_ts).

(** The body of [for j in range(MENU_ITEMS_PER_OUTLET)]. *)
Definition gen_menu_items_body (base_ts restaurant_id j : Z)
  : gen (list menu_item_row) :=
  let item_name :=
    "Item " +:+ Fmt.d restaurant_id +:+ "-" +:+ Fmt.d (j + 1) in
  let* category := choice CATEGORIES in
  let* p := uniform (35 # 10) (32 # 1) in
  let price := qround p 2 in
  let* r := random in
  let is_available := if Qltb r (95 # 100) then true else false in
  let* dd := randint 0 (365 * 2) in
  let created_at := base_ts + Time.days dd in
  gret [ {| m_restaurant_id := restaurant_id; m_item_name := item_name;
            m_category := category; m_price := price;
            m_is_available := is_available; m_created_at := created_at |} ].

(** [gen_menu_items(seed, restaurant_id_start, restaurant_id_end)]; [g]
    is [random.Random(seed + 4000)]. *)
Definition gen_menu_items (now restaurant_id_start restaurant_id_end : Z)
  : gen (list menu_item_row) :=
  let base_ts := now - Time.days (365 * 2) in
  for_yield (Z.to_nat (restaurant_id_end + 1 - restaurant_id_start))
    restaurant_id_start
    (fun restaurant_id =>
       for_yield (Z.to_nat MENU_ITEMS_PER_OUTLET) 0
         (gen_menu_items_body base_ts restaurant_id)).

(** The body of [for _ in range(N_COURIERS)]. *)
Definition gen_couriers_body (base_ts : Z) (cities : list string) (_ : Z)
  : gen (list courier_row) :=
  let* city := choice cities in
  let* vehicle := choice VEHICLES in
  let* r := random in
  let is_active := if Qltb r (97 # 100) then true else false in
  let* dd := randint 0 (365 * 2) in
  let created_at := base_ts + Time.days dd in
  gret [ {| k_city := city; k_vehicle := vehicle; k_is_active := is_active;
            k_created_at := created_at |} ].

(** [gen_couriers(seed)]; [g] is [random.Random(seed + 5000)]. *)
Definition gen_couriers (now : Z) : gen (list courier_row) :=
  let base_ts := now - Time.days (365 * 2) in
  let cities :=
    ((fun c : string * string * string => fst (fst c)) <$> AU_CITIES)
    ++ ((fun c : string * string * string => fst (fst c)) <$> IN_CITIES) in
  for_yield (Z.to_nat N_COURIERS) 0 (gen_couriers_body base_ts cities).

End Catalogue.

(** A string of decimal digits. *)
Fixpoint all_digits (s : string) : bool :=
  match s with
  | EmptyString => true
  | String c s' =>
      match Ascii.is_nat c with
      | Some _ => all_digits s'
      | None => false
      end
  end.

(** A phone number of [gen_customers]: absent, or [DUMMY-] and ten
    digits. *)
Definition phone_ok (phone : option string) : Prop :=
  match phone with
  | None => True
  | Some s =>
      exists ds, s = "DUMMY-" +:+ ds /\ String.length ds = 10%nat
                 /\ all_digits ds = true
  end.

(** ** The address lookup *)

(** [build_address_lookup]: [rows] are the rows [(address_id,
    customer_id, city, country)] fetched by its query, in the order of
    the query; [m.setdefault(customer_id, []).append(...)] row after
    row. *)
Definition build_address_lookup (rows : list (Z * Z * string * string))
  : gmap Z (list (Z * string * string)) :=
  fold_left
    (fun m r =>
       let '(address_id, customer_id, city, country) := r in
       <[customer_id :=
           default [] (m !! customer_id) ++ [(address_id, city, country)]]> m)
    rows ∅.

(** The addresses of a customer among the fetched rows, in their
    order. *)
Definition stored_addresses (customer_id : Z)
    (rows : list (Z * Z * string * string)) : list (Z * string * string) :=
  (fun r : Z * Z * string * string =>
     let '(address_id, _, city, country) := r in (address_id, city, country))
    <$> filter (fun r : Z * Z * string * string =>
                  snd (fst (fst r)) = customer_id) rows.

(** The entry of a customer after more rows were folded in. *)
Definition extend_entry (entry : option (list (Z * string * string)))
    (more : list (Z * string * string)) : option (list (Z * string * string)) :=
  match more with
  | [] => entry
  | _ => Some (default [] entry ++ more)
  end.


(** ** Vocabulary of the address and outlet rows *)

(** An address row as [gen_customer_addresses] draws it: the codes and
    the postal code follow the country. *)
Definition address_row_ok (now : Z) (a : address_row) : Prop :=
  ((a_country a = "Australia" /\ a_city a ∈ AU_CITY_CODES
    /\ a_state a ∈ AU_STATE_CODES
    /\ exists n, 1000 <= n <= 9999 /\ a_postal_code a = Fmt.d n)
   \/ (a_country a = "India" /\ a_city a ∈ IN_CITY_CODES
       /\ a_state a ∈ IN_STATE_CODES
       /\ exists n, 100000 <= n <= 999999 /\ a_postal_code a = Fmt.d n))
  /\ a_label a ∈ LABELS
  /\ (a_line_2 a = None
      \/ exists u, 1 <= u <= 999 /\ a_line_2 a = Some ("UNIT_" +:+ Fmt.d0 3 u))
  /\ (- (10 # 1) <= a_latitude a)%Q /\ (a_latitude a <= 10 # 1)%Q
  /\ (- (10 # 1) <= a_longitude a)%Q /\ (a_longitude a <= 10 # 1)%Q
  /\ Money.on_grid 6 (a_latitude a) /\ Money.on_grid 6 (a_longitude a)
  /\ now - Time.days 730 <= a_created_at a <= now.

(** An outlet row as [gen_outlets] draws it. *)
Definition outlet_row_ok (now brand_id_start brand_id_end : Z)
    (r : outlet_row) : Prop :=
  brand_id_start <= t_brand_id r <= brand_id_end
  /\ ((exists c n, c ∈ AU_CITIES /\ t_city r = fst (fst c)
                   /\ 2000 <= n <= 7999 /\ t_postal_code r = Fmt.d n)
      \/ (exists c n, c ∈ IN_CITIES /\ t_city r = fst (fst c)
                      /\ 100000 <= n <= 999999 /\ t_postal_code r = Fmt.d n))
  /\ (exists z, 1 <= z <= 25 /\ t_delivery_zone r = "Z" +:+ Fmt.d z)
  /\ (exists n, 1 <= n <= 50000 /\ t_outlet_name r = "Outlet " +:+ Fmt.d n)
  /\ (exists a, 1 <= a <= 999 /\ t_address_line1 r = Fmt.d a +:+ " Main Rd")
  /\ (exists dd, 0 <= dd <= 1095 /\ t_created_at r = now - Time.days dd).

(** ** FX rates *)

Definition FX_DAYS : Z := 120.

Record fx_row : Type := {
  f_base_currency_id : Z;
  f_quote_currency_id : Z;
  f_rate_ts : Z;
  f_rate : Q;
  f_source : string
}.

Section Fx.

Context {rng : Type} `{RandomSource rng}.
Import Money.

(** [for d in range(FX_DAYS)] of [insert_currencies_and_fx]: [count]
    iterations remain, the next day is [d], [rate] is the running rate
    and [rows] the rows appended so far. *)
Fixpoint fx_loop (aud_id inr_id start : Z) (count : nat) (d : Z) (rate : Q)
    (rows : list fx_row) : gen (list fx_row) :=
  match count with
  | O => gret rows
  | S count' =>
      let ts := start + Time.days d in
      let* u := uniform (- (2 # 1000)) (2 # 1000) in
      let rate := (rate * (1 + u))%Q in
      let aud_to_inr := qround rate 6 in
      let inr_to_aud := qround (1 / rate) 8 in
      fx_loop aud_id inr_id start count' (d + 1) rate
        (rows
         ++ [ {| f_base_currency_id := aud_id; f_quote_currency_id := inr_id;
                 f_rate_ts := ts; f_rate := aud_to_inr;
                 f_source := "SIMULATED" |} ]
         ++ [ {| f_base_currency_id := inr_id; f_quote_currency_id := aud_id;
                 f_rate_ts := ts; f_rate := inr_to_aud;
                 f_source := "SIMULATED" |} ])
  end.

(** The rows that [insert_currencies_and_fx] hands to [copy_rows];
    [now] is the value of [utc_now()], [g] is [random.Random(seed)],
    and the two currency ids are those read from or inserted into the
    currencies table. *)
Definition fx_rows (now aud_id inr_id : Z) : gen (list fx_row) :=
  let end_ := now - now mod Time.days 1 in
  let start := end_ - Time.days FX_DAYS in
  fx_loop aud_id inr_id start (Z.to_nat FX_DAYS) 0 (55 # 1) [].

End Fx.

(** [x ** n] *)
Fixpoint qpow (x : Q) (n : nat) : Q :=
  match n with
  | O => 1%Q
  | S m => (x * qpow x m)%Q
  end.

(** ** Bulk loading *)

(** The writes of [copy_rows] on the COPY stream.  A row is a list of
    cells, [None] standing for Python's [None]; [writerow] is the text
    [csv.writer] appends for a row of cells and [null] the cell
    [\N].  The statement text and the connection are outside the
    model. *)
Section CopyRows.

Variable cell : Type.
Variable null : cell.
Variable writerow : list cell -> string.

(** [for row in rows_iterable] and the final flush: [buf] is the text
    buffered so far, [buffered] the number of rows in it and [written]
    the texts written so far. *)
Fixpoint copy_loop (chunk_rows : Z) (rows : list (list (option cell)))
    (buf : string) (buffered : Z) (written : list string) : list string :=
  match rows with
  | [] =>
      match buf with
      | EmptyString => written
      | _ => written ++ [buf]
      end
  | row :: rows' =>
      let buf := buf +:+ writerow (default null <$> row) in
      let buffered := buffered + 1 in
      if chunk_rows <=? buffered then
        copy_loop chunk_rows rows' EmptyString 0 (written ++ [buf])
      else copy_loop chunk_rows rows' buf buffered written
  end.

Definition copy_rows (rows : list (list (option cell))) : list string :=
  copy_loop CHUNK_ROWS rows EmptyString 0 [].

(** The text of a list of rows. *)
Definition rows_text (rows : list (list (option cell))) : string :=
  foldr (fun row s => writerow (default null <$> row) +:+ s) EmptyString rows.

End CopyRows.
(** The two rows of the day [k] of a list of FX rows that starts at
    the day [d]. *)
Definition fx_day (aud_id inr_id start d : Z) (rows : list fx_row) (k : nat)
  : Prop :=
  exists a b,
    rows !! (2 * k)%nat = Some a /\ rows !! (2 * k + 1)%nat = Some b
    /\ f_rate_ts a = start + Time.days (d + Z.of_nat k)
    /\ f_rate_ts b = f_rate_ts a
    /\ f_base_currency_id a = aud_id /\ f_quote_currency_id a = inr_id
    /\ f_base_currency_id b = inr_id /\ f_quote_currency_id b = aud_id
    /\ (43 # 1 <= f_rate a)%Q /\ (f_rate a <= 70 # 1)%Q
    /\ (14 # 1000 <= f_rate b)%Q /\ (f_rate b <= 24 # 1000)%Q
    /\ Money.on_grid 6 (f_rate a) /\ Money.on_grid 8 (f_rate b)
    /\ f_source a = "SIMULATED" /\ f_source b = "SIMULATED".

(** ** Further sample runs *)

(** The rows of the run of [tape_late], cut after its first order. *)
Definition late_rows : batch :=
  emitted (sample_run one_order_config tape_late).


(** One stored address row and the run on the lookup built from it. *)
Definition sample_stored : list (Z * Z * string * string) :=
  [(10, 1, "AU_CITY_001", "Australia")].

Definition run_on_stored : outcome :=
  populate_orders_related one_order_config sample_now
    (build_address_lookup sample_stored)
    {| lo := 1; hi := 1 |} {| lo := 1; hi := 5 |} {| lo := 1; hi := 50 |}
    {| lo := 1; hi := 9 |} 1 2 0 tape_late.

(** * Properties *)

(** ** Rounding *)

Module MoneyFacts.

Import Money.
#[local] Open Scope Q_scope.

Lemma Qltb_lt a b : Qltb a b = true <-> a < b.
Proof.
  unfold Qltb. rewrite negb_true_iff, <- not_true_iff_false, Qle_bool_iff.
  split; [apply Qnot_le_lt | apply Qlt_not_le].
Qed.

Lemma Qltb_ge a b : Qltb a b = false <-> b <= a.
Proof.
  unfold Qltb. rewrite negb_false_iff. apply Qle_bool_iff.
Qed.

Lemma py_min_le_l a b : py_min a b <= a.
Proof.
  unfold py_min. destruct (Qltb b a) eqn:E.
  - apply Qltb_lt in E. lra.
  - lra.
Qed.

Lemma py_min_le_r a b : py_min a b <= b.
Proof.
  unfold py_min. destruct (Qltb b a) eqn:E.
  - lra.
  - apply Qltb_ge in E. lra.
Qed.

Lemma py_max_nonneg b : 0 <= b -> py_max 0 b == b.
Proof.
  intros Hb. unfold py_max. destruct (Qltb 0 b) eqn:E.
  - reflexivity.
  - apply Qltb_ge in E. lra.
Qed.

#[export] Instance round_half_even_comp : Proper (Qeq ==> eq) round_half_even.
Proof.
  intros q1 q2 Hq. unfold round_half_even.
  rewrite (Qfloor_comp _ _ Hq).
  assert (Hc : Qcompare (q1 - inject_Z (Qfloor q2)) (1 # 2)
               = Qcompare (q2 - inject_Z (Qfloor q2)) (1 # 2)).
  { apply Qcompare_comp; [rewrite Hq|]; reflexivity. }
  rewrite Hc. reflexivity.
Qed.

(** The rounded value is within one half of the argument. *)
Lemma round_half_even_near q :
  inject_Z (round_half_even q) - (1 # 2) <= q
  /\ q <= inject_Z (round_half_even q) + (1 # 2).
Proof.
  unfold round_half_even.
  pose proof (Qfloor_le q) as Hlo. pose proof (Qlt_floor q) as Hhi.
  rewrite inject_Z_plus in Hhi. change (inject_Z 1) with 1 in Hhi.
  destruct (Qcompare_spec (q - inject_Z (Qfloor q)) (1 # 2)) as [E|E|E].
  - destruct (Z.even (Qfloor q)).
    + lra.
    + rewrite inject_Z_plus. change (inject_Z 1) with 1. lra.
  - lra.
  - rewrite inject_Z_plus. change (inject_Z 1) with 1. lra.
Qed.

Lemma inject_Z_succ_le (a b : Z) : (a < b)%Z -> inject_Z a + 1 <= inject_Z b.
Proof.
  intros Hab. change 1 with (inject_Z 1). rewrite <- inject_Z_plus.
  rewrite <- Zle_Qle. lia.
Qed.

Lemma round_half_even_mono q1 q2 :
  q1 <= q2 -> (round_half_even q1 <= round_half_even q2)%Z.
Proof.
  intros Hle.
  destruct (Z_le_gt_dec (round_half_even q1) (round_half_even q2)) as [|Hgt];
    [assumption|].
  pose proof (round_half_even_near q1) as [H1 _].
  pose proof (round_half_even_near q2) as [_ H2].
  pose proof (inject_Z_succ_le (round_half_even q2) (round_half_even q1)
                ltac:(lia)) as Hs.
  assert (Heq : q1 == q2) by lra.
  rewrite (round_half_even_comp _ _ Heq) in Hgt. lia.
Qed.

(** An argument strictly within one half of an integer rounds to it. *)
Lemma round_half_even_unique q (n : Z) :
  inject_Z n - (1 # 2) < q -> q < inject_Z n + (1 # 2) ->
  round_half_even q = n.
Proof.
  intros Hlo Hhi.
  pose proof (round_half_even_near q) as [H1 H2].
  destruct (Z.lt_trichotomy (round_half_even q) n) as [Hlt|[Heq|Hgt]];
    [|assumption|].
  - pose proof (inject_Z_succ_le _ _ Hlt). lra.
  - pose proof (inject_Z_succ_le _ _ Hgt). lra.
Qed.

Lemma scale_mul (z : Z) (s : positive) :
  (z # s) * inject_Z (Z.pos s) == inject_Z z.
Proof.
  rewrite Qmult_inject_Z_r. apply Qreduce_den_inject_Z_r.
Qed.

Lemma Qmake_le (a b : Z) (s : positive) : (a <= b)%Z <-> a # s <= b # s.
Proof.
  unfold Qle. simpl. split; intros Hab; nia.
Qed.

Lemma py_round_mono x y nd : x <= y -> py_round x nd <= py_round y nd.
Proof.
  intros Hxy. unfold py_round. apply Qmake_le, round_half_even_mono.
  apply Qmult_le_compat_r; [assumption|].
  change 0 with (inject_Z 0). rewrite <- Zle_Qle. lia.
Qed.

Lemma qround_mono x y nd : x <= y -> qround x nd <= qround y nd.
Proof.
  intros Hxy. unfold qround. apply py_round_mono. lra.
Qed.

Lemma qround_on_grid x nd : on_grid nd (qround x nd).
Proof.
  unfold on_grid, qround, py_round. eexists. reflexivity.
Qed.

(** A value with two decimals is a fixed point of [qround(_, 2)]: the
    epsilon is far below half a cent. *)
Lemma qround2_fix x : on_grid 2 x -> qround x 2 == x.
Proof.
  intros [z Hz]. unfold qround, py_round.
  assert (Hr : round_half_even ((x + epsilon) * inject_Z (Z.pos (scale 2))) = z).
  { assert (Hlo : 0 < epsilon * inject_Z (Z.pos (scale 2))) by reflexivity.
    assert (Hhi : epsilon * inject_Z (Z.pos (scale 2)) < 1 # 2) by reflexivity.
    apply round_half_even_unique;
      rewrite Hz, Qmult_plus_distr_l, scale_mul; lra. }
  rewrite Hr. symmetry. exact Hz.
Qed.

Lemma py_round2_fix x : on_grid 2 x -> py_round x 2 == x.
Proof.
  intros [z Hz]. unfold py_round.
  assert (Hr : round_half_even (x * inject_Z (Z.pos (scale 2))) = z).
  { apply round_half_even_unique; rewrite Hz, scale_mul; lra. }
  rewrite Hr. symmetry. exact Hz.
Qed.

Lemma qround2_le_grid x t : on_grid 2 t -> x <= t -> qround x 2 <= t.
Proof.
  intros Ht Hx. rewrite <- (qround2_fix t Ht). apply qround_mono, Hx.
Qed.

Lemma qround2_ge_grid x t : on_grid 2 t -> t <= x -> t <= qround x 2.
Proof.
  intros Ht Hx. rewrite <- (qround2_fix t Ht). apply qround_mono, Hx.
Qed.

Lemma on_grid_0 nd : on_grid nd 0.
Proof. exists 0%Z. reflexivity. Qed.

Lemma on_grid_plus nd a b : on_grid nd a -> on_grid nd b -> on_grid nd (a + b).
Proof.
  intros [x Hx] [y Hy]. exists (x + y)%Z. rewrite Hx, Hy.
  unfold Qeq, Qplus. simpl. nia.
Qed.

Lemma on_grid_minus nd a b : on_grid nd a -> on_grid nd b -> on_grid nd (a - b).
Proof.
  intros [x Hx] [y Hy]. exists (x - y)%Z. rewrite Hx, Hy.
  unfold Qeq, Qminus, Qplus, Qopp. simpl. nia.
Qed.

Lemma on_grid_inject nd (z : Z) : on_grid nd (inject_Z z).
Proof.
  exists (z * Z.pos (scale nd))%Z. symmetry. apply Qreduce_den_inject_Z_r.
Qed.

Lemma qround2_nonneg x : 0 <= x -> 0 <= qround x 2.
Proof. intros Hx. apply qround2_ge_grid; [apply on_grid_0 | exact Hx]. Qed.

End MoneyFacts.

(** ** The generator monad and the draws *)

Section GenFacts.

Context {rng : Type} `{RandomSource rng}.

Lemma gbind_Ok {A B} (m : gen A) (f : A -> gen B) (g : rng) r :
  gbind m f g = Ok r ->
  exists a g1, m g = Ok (a, g1) /\ f a g1 = Ok r.
Proof.
  unfold gbind. destruct (m g) as [[a g1]|e]; [|discriminate].
  intros Hf. exists a, g1. split; [reflexivity | exact Hf].
Qed.

Lemma gbind_run {A B} (m : gen A) (f : A -> gen B) (g g1 : rng) a :
  m g = Ok (a, g1) -> gbind m f g = f a g1.
Proof. intros Hm. unfold gbind. rewrite Hm. reflexivity. Qed.

Lemma gret_Ok {A} (a b : A) (g g' : rng) :
  gret a g = Ok (b, g') -> b = a /\ g' = g.
Proof. unfold gret. intros Hr. injection Hr as <- <-. split; reflexivity. Qed.

Lemma random_Ok (g g' : rng) r :
  random g = Ok (r, g') -> (0 <= r)%Q /\ (r < 1)%Q.
Proof.
  unfold random. intros Hr. pose proof (rs_random_range g) as Hg.
  destruct (rs_random g) as [r0 g0]. injection Hr as <- <-. exact Hg.
Qed.

Lemma random_total (g : rng) : exists r g', random g = Ok (r, g').
Proof.
  unfold random. destruct (rs_random g) as [r g']. exists r, g'. reflexivity.
Qed.

Lemma uniform_Ok (a b : Q) (g g' : rng) v :
  uniform a b g = Ok (v, g') ->
  exists r, (0 <= r)%Q /\ (r < 1)%Q /\ v = (a + (b - a) * r)%Q.
Proof.
  unfold uniform. intros Hu.
  apply gbind_Ok in Hu as (r & g1 & Hr & Hu).
  apply gret_Ok in Hu as [-> _]. apply random_Ok in Hr as [Hlo Hhi].
  exists r. repeat split; assumption.
Qed.

Lemma uniform_total (a b : Q) (g : rng) : exists v g', uniform a b g = Ok (v, g').
Proof.
  unfold uniform. destruct (random_total g) as (r & g' & Hr).
  rewrite (gbind_run _ _ _ _ _ Hr). eexists _, _. reflexivity.
Qed.

Lemma randbelow_Ok (n : Z) (g g' : rng) k :
  0 < n -> randbelow n g = Ok (k, g') -> 0 <= k < n.
Proof.
  unfold randbelow. intros Hn Hr. pose proof (rs_randbelow_range n g Hn) as Hg.
  destruct (rs_randbelow n g) as [k0 g0]. injection Hr as <- <-. exact Hg.
Qed.

Lemma randbelow_total (n : Z) (g : rng) : exists k g', randbelow n g = Ok (k, g').
Proof.
  unfold randbelow. destruct (rs_randbelow n g) as [k g']. exists k, g'.
  reflexivity.
Qed.

Lemma randint_Ok (a b : Z) (g g' : rng) v :
  randint a b g = Ok (v, g') -> a <= v <= b.
Proof.
  unfold randint. destruct (Z.ltb_spec 0 (b + 1 - a)) as [Hw|Hw];
    [|discriminate].
  intros Hr. apply gbind_Ok in Hr as (k & g1 & Hk & Hr).
  apply gret_Ok in Hr as [-> _]. apply (randbelow_Ok _ _ _ _ Hw) in Hk. lia.
Qed.

Lemma randint_total (a b : Z) (g : rng) :
  a <= b -> exists v g', randint a b g = Ok (v, g').
Proof.
  intros Hab. unfold randint.
  destruct (Z.ltb_spec 0 (b + 1 - a)) as [Hw|Hw]; [|lia].
  destruct (randbelow_total (b + 1 - a) g) as (k & g' & Hk).
  rewrite (gbind_run _ _ _ _ _ Hk). eexists _, _. reflexivity.
Qed.

Lemma randrange_Ok (n : Z) (g g' : rng) k :
  randrange n g = Ok (k, g') -> 0 <= k < n.
Proof.
  unfold randrange. destruct (Z.ltb_spec 0 n) as [Hn|Hn]; [|discriminate].
  apply randbelow_Ok, Hn.
Qed.

Lemma randrange_total (n : Z) (g : rng) :
  0 < n -> exists k g', randrange n g = Ok (k, g').
Proof.
  intros Hn. unfold randrange. destruct (Z.ltb_spec 0 n) as [_|Hn']; [|lia].
  apply randbelow_total.
Qed.

Lemma choice_Ok {A} (seq : list A) (g g' : rng) x :
  choice seq g = Ok (x, g') -> x ∈ seq.
Proof.
  unfold choice. destruct seq as [|y seq']; [discriminate|].
  intros Hc. apply gbind_Ok in Hc as (k & g1 & _ & Hc).
  destruct ((y :: seq') !! Z.to_nat k) as [x0|] eqn:Hl; [|discriminate].
  apply gret_Ok in Hc as [-> _]. eapply list_elem_of_lookup_2, Hl.
Qed.

Lemma choice_total {A} (seq : list A) (g : rng) :
  seq <> [] -> exists x g', choice seq g = Ok (x, g').
Proof.
  intros Hne. unfold choice. destruct seq as [|y seq']; [congruence|].
  destruct (randbelow_total (Z.of_nat (length (y :: seq'))) g) as (k & g' & Hk).
  rewrite (gbind_run _ _ _ _ _ Hk).
  assert (Hpos : 0 < Z.of_nat (length (y :: seq'))) by (simpl; lia).
  pose proof (randbelow_Ok _ _ _ _ Hpos Hk) as Hr.
  assert (Hlt : (Z.to_nat k < length (y :: seq'))%nat) by lia.
  destruct (lookup_lt_is_Some_2 _ _ Hlt) as [x Hx].
  rewrite Hx. eexists _, _. reflexivity.
Qed.

End GenFacts.

(** Splitting a successful run of [let* x := m in k] into the run of
    [m] and the run of [k]. *)
Ltac bind_inv Hrun a g1 E :=
  apply gbind_Ok in Hrun as (a & g1 & E & Hrun); cbv beta in Hrun.


(** ** Lifecycle timelines *)

Section TimelineFacts.

Context {rng : Type} `{RandomSource rng}.

Lemma clamp_le (now ts : Z) : clamp now ts <= ts.
Proof. unfold clamp. destruct (Z.leb_spec ts (latest_allowed now)); lia. Qed.

Lemma clamp_le_latest (now ts : Z) : clamp now ts <= latest_allowed now.
Proof. unfold clamp. destruct (Z.leb_spec ts (latest_allowed now)); lia. Qed.

Lemma clamp_noop (now ts : Z) : ts <= latest_allowed now -> clamp now ts = ts.
Proof. unfold clamp. destruct (Z.leb_spec ts (latest_allowed now)); lia. Qed.

(** What the repair pass guarantees for one timestamp: it ends
    strictly after its predecessor whenever the predecessor is below
    the clamp bound, it is not moved beyond one minute after the
    predecessor, and it stays below the bound if it was. *)
Lemma ensure_after_spec (now ts prev : Z) :
  (prev < latest_allowed now -> prev < ensure_after now ts prev)
  /\ ensure_after now ts prev <= Z.max ts (prev + Time.minutes 1)
  /\ (ts <= latest_allowed now -> ensure_after now ts prev <= latest_allowed now).
Proof.
  unfold ensure_after, clamp, Time.minutes, Time.second.
  destruct (Z.leb_spec ts prev);
    destruct (Z.leb_spec (prev + 1 * (60 * 1000000)) (latest_allowed now)); lia.
Qed.

Lemma ensure_after_keep (now ts prev : Z) :
  prev < ts -> ensure_after now ts prev = ts.
Proof.
  intros Hlt. unfold ensure_after. destruct (Z.leb_spec ts prev); [lia|reflexivity].
Qed.

End TimelineFacts.

(** One step of the repair pass, innermost first: a timestamp already
    after its predecessor is kept; any other is replaced by a variable
    that carries the facts of [ensure_after_spec]. *)
Ltac repair_step now :=
  match goal with
  | |- context [ensure_after now ?ts ?prev] =>
      lazymatch prev with
      | context [ensure_after] => fail
      | _ => idtac
      end;
      first
        [ rewrite (ensure_after_keep now ts prev)
            by (unfold latest_allowed, Time.minutes, Time.second in *; lia)
        | let e := fresh "e" in
          pose proof (ensure_after_spec now ts prev);
          set (e := ensure_after now ts prev) in *; clearbody e ]
  end.

Section TimelineRuns.

Context {rng : Type} `{RandomSource rng}.

(** A run of [build_order_timeline_delivered] never raises, and its
    result is determined by eight draws within their ranges. *)
Lemma delivered_total (placed_at now : Z) (g : rng) :
  exists tl g', build_order_timeline_delivered placed_at now g = Ok (tl, g').
Proof.
  unfold build_order_timeline_delivered.
  destruct (randint_total 1 6 g ltac:(lia)) as (d1 & g1 & E1).
  rewrite (gbind_run _ _ _ _ _ E1).
  destruct (randint_total 2 10 g1 ltac:(lia)) as (d2 & g2 & E2).
  rewrite (gbind_run _ _ _ _ _ E2).
  destruct (randint_total 5 20 g2 ltac:(lia)) as (d3 & g3 & E3).
  rewrite (gbind_run _ _ _ _ _ E3).
  destruct (randint_total 1 8 g3 ltac:(lia)) as (d4 & g4 & E4).
  rewrite (gbind_run _ _ _ _ _ E4).
  destruct (randint_total 10 25 g4 ltac:(lia)) as (d5 & g5 & E5).
  rewrite (gbind_run _ _ _ _ _ E5).
  destruct (randint_total (-3) 3 g5 ltac:(lia)) as (d6 & g6 & E6).
  rewrite (gbind_run _ _ _ _ _ E6).
  destruct (randint_total 10 35 g6 ltac:(lia)) as (d7 & g7 & E7).
  rewrite (gbind_run _ _ _ _ _ E7).
  destruct (randint_total (-3) 3 g7 ltac:(lia)) as (d8 & g8 & E8).
  rewrite (gbind_run _ _ _ _ _ E8).
  eexists _, _. reflexivity.
Qed.

Lemma canceled_total (placed_at now : Z) (g : rng) :
  exists tl g', build_order_timeline_canceled placed_at now g = Ok (tl, g').
Proof.
  unfold build_order_timeline_canceled.
  destruct (randint_total 2 30 g ltac:(lia)) as (d1 & g1 & E1).
  rewrite (gbind_run _ _ _ _ _ E1).
  eexists _, _. reflexivity.
Qed.

(** The six events of a delivered order, the last one carrying
    [delivered_ts]. *)
Lemma delivered_shape (placed_at now : Z) (g g' : rng) tl :
  build_order_timeline_delivered placed_at now g = Ok (tl, g') ->
  exists t1 t2 t3 t4,
    td_events tl
    = [ (placed_at, "PLACED", "CUSTOMER"); (t1, "ACCEPTED", "RESTAURANT");
        (t2, "PREP_START", "RESTAURANT");
        (t3, "READY_FOR_PICKUP", "RESTAURANT"); (t4, "PICKED_UP", "COURIER");
        (td_delivered_ts tl, "DELIVERED", "SYSTEM") ].
Proof.
  unfold build_order_timeline_delivered. intros Hrun.
  bind_inv Hrun d1 g1 E1. bind_inv Hrun d2 g2 E2. bind_inv Hrun d3 g3 E3.
  bind_inv Hrun d4 g4 E4. bind_inv Hrun d5 g5 E5. bind_inv Hrun d6 g6 E6.
  bind_inv Hrun d7 g7 E7. bind_inv Hrun d8 g8 E8.
  apply gret_Ok in Hrun as [-> _]. eexists _, _, _, _. reflexivity.
Qed.

(** The two events of a canceled order. *)
Lemma canceled_shape (placed_at now : Z) (g g' : rng) tl :
  build_order_timeline_canceled placed_at now g = Ok (tl, g') ->
  tc_events tl
  = [ (placed_at, "PLACED", "CUSTOMER");
      (tc_canceled_ts tl, "CANCELED", "SYSTEM") ].
Proof.
  unfold build_order_timeline_canceled. intros Hrun.
  bind_inv Hrun d1 g1 E1. apply gret_Ok in Hrun as [-> _]. reflexivity.
Qed.

(** With the order placed at least [SAFETY_BUFFER_HOURS] before [now]
    the six timestamps of a delivered order increase strictly. *)
Lemma delivered_increasing (placed_at now : Z) (g g' : rng) tl :
  placed_at <= now - Time.hours SAFETY_BUFFER_HOURS ->
  build_order_timeline_delivered placed_at now g = Ok (tl, g') ->
  strictly_increasing (event_times (td_events tl)).
Proof.
  unfold build_order_timeline_delivered. intros Hplaced Hrun.
  bind_inv Hrun d1 g1 E1. bind_inv Hrun d2 g2 E2. bind_inv Hrun d3 g3 E3.
  bind_inv Hrun d4 g4 E4. bind_inv Hrun d5 g5 E5. bind_inv Hrun d6 g6 E6.
  bind_inv Hrun d7 g7 E7. bind_inv Hrun d8 g8 E8.
  apply gret_Ok in Hrun as [-> _].
  apply randint_Ok in E1, E2, E3, E4, E5, E6, E7, E8.
  cbn [td_events event_times fmap list_fmap fst strictly_increasing].
  unfold SAFETY_BUFFER_HOURS, Time.hours in Hplaced.
  rewrite !clamp_noop
    by (unfold latest_allowed, Time.minutes, Time.second in *; lia).
  do 8 repair_step now.
  unfold latest_allowed, Time.minutes, Time.second in *. lia.
Qed.

End TimelineRuns.

Section TimelineBounds.

Context {rng : Type} `{RandomSource rng}.

Lemma canceled_increasing (placed_at now : Z) (g g' : rng) tl :
  placed_at <= now - Time.hours SAFETY_BUFFER_HOURS ->
  build_order_timeline_canceled placed_at now g = Ok (tl, g') ->
  strictly_increasing (event_times (tc_events tl)).
Proof.
  unfold build_order_timeline_canceled. intros Hplaced Hrun.
  bind_inv Hrun d1 g1 E1. apply gret_Ok in Hrun as [-> _].
  apply randint_Ok in E1.
  cbn [tc_events event_times fmap list_fmap fst strictly_increasing].
  unfold SAFETY_BUFFER_HOURS, Time.hours in Hplaced.
  unfold latest_allowed, Time.minutes, Time.second in *.
  repeat match goal with
         | |- context [Z.ltb ?a ?b] => destruct (Z.ltb_spec a b)
         | |- context [Z.leb ?a ?b] => destruct (Z.leb_spec a b)
         end; lia.
Qed.

(** The last timestamp of a delivered order never exceeds the clamp
    bound, wherever the order was placed. *)
Lemma delivered_final_le (placed_at now : Z) (g g' : rng) tl :
  build_order_timeline_delivered placed_at now g = Ok (tl, g') ->
  td_delivered_ts tl <= latest_allowed now.
Proof.
  unfold build_order_timeline_delivered. intros Hrun.
  bind_inv Hrun d1 g1 E1. bind_inv Hrun d2 g2 E2. bind_inv Hrun d3 g3 E3.
  bind_inv Hrun d4 g4 E4. bind_inv Hrun d5 g5 E5. bind_inv Hrun d6 g6 E6.
  bind_inv Hrun d7 g7 E7. bind_inv Hrun d8 g8 E8.
  apply gret_Ok in Hrun as [-> _]. cbn [td_delivered_ts].
  apply ensure_after_spec, clamp_le_latest.
Qed.

Lemma canceled_final_le (placed_at now : Z) (g g' : rng) tl :
  build_order_timeline_canceled placed_at now g = Ok (tl, g') ->
  tc_canceled_ts tl <= latest_allowed now.
Proof.
  unfold build_order_timeline_canceled. intros Hrun.
  bind_inv Hrun d1 g1 E1. apply gret_Ok in Hrun as [-> _].
  cbn [tc_canceled_ts].
  repeat match goal with
         | |- context [Z.ltb ?a ?b] => destruct (Z.ltb_spec a b)
         | |- context [Z.leb ?a ?b] => destruct (Z.leb_spec a b)
         end; lia.
Qed.

End TimelineBounds.

(** ** One order *)

Section OrderFacts.

Import Money MoneyFacts.
Context {rng : Type} `{RandomSource rng}.
Variables (cfg : config) (now : Z).
Variable address_map : gmap Z (list (Z * string * string)).
Variables cust_range outlet_range menu_range courier_range : id_range.
Variables aud_id inr_id : Z.

Lemma items_loop_nonneg count : forall items subtotal (g g' : rng) items' subtotal',
  items_loop menu_range count items subtotal g = Ok ((items', subtotal'), g') ->
  (0 <= subtotal)%Q -> (0 <= subtotal')%Q.
Proof.
  induction count as [|count IH]; intros items subtotal g g' items' subtotal' Hrun Hs.
  - apply gret_Ok in Hrun as [Heq _]. injection Heq as -> ->. exact Hs.
  - cbn [items_loop] in Hrun.
    bind_inv Hrun m g1 E1. bind_inv Hrun qty g2 E2. bind_inv Hrun p g3 E3.
    apply randint_Ok in E2. apply uniform_Ok in E3 as (r & Hr0 & Hr1 & ->).
    eapply IH; [exact Hrun|].
    assert (Hp : (0 <= qround ((5 # 1) + ((35 # 1) - (5 # 1)) * r) 2)%Q).
    { apply qround2_nonneg. nra. }
    assert (Hq : (0 <= inject_Z qty)%Q).
    { change 0%Q with (inject_Z 0). rewrite <- Zle_Qle. lia. }
    pose proof (qround2_nonneg _ (Qmult_le_0_compat _ _ Hq Hp)). lra.
Qed.

Lemma refund_part_inv (o : order_row) (delivered_ts : Z) (country status : string)
    (g g' : rng) refunds status' :
  on_grid 2 (o_total_amount o) -> (0 <= o_total_amount o)%Q ->
  o_currency_id o = currency_for_country aud_id inr_id country ->
  refund_part aud_id inr_id (o_order_id o) delivered_ts (o_total_amount o)
    country status g = Ok ((refunds, status'), g') ->
  refunds_ok o delivered_ts refunds
  /\ (status' = status \/ (status' = "REFUNDED" /\ refunds <> [])).
Proof.
  intros Hgrid Hnn Hcur Hrun. unfold refund_part in Hrun.
  bind_inv Hrun r g1 E1.
  destruct (Qltb r (35 # 1000)).
  - bind_inv Hrun m g2 E2. bind_inv Hrun u g3 E3. bind_inv Hrun reason g4 E4.
    bind_inv Hrun r1 g5 E5.
    apply gret_Ok in Hrun as [Heq _]. injection Heq as -> ->.
    apply randint_Ok in E2. apply uniform_Ok in E3 as (r2 & Hr0 & Hr1 & ->).
    split.
    + right. eexists. split; [reflexivity|]. cbn.
      repeat split.
      * unfold Time.minutes, Time.second. lia.
      * apply qround2_le_grid; [exact Hgrid|]. nra.
      * symmetry. exact Hcur.
    + destruct (Qltb r1 (75 # 100)); [right|left]; [split|]; [reflexivity|discriminate|reflexivity].
  - apply gret_Ok in Hrun as [Heq _]. injection Heq as -> ->.
    split; [left; reflexivity | left; reflexivity].
Qed.

Lemma rating_part_ids (order_id customer_id delivered_ts : Z) (g g' : rng) ratings :
  rating_part order_id customer_id delivered_ts g = Ok (ratings, g') ->
  Forall (fun x => g_order_id x = order_id) ratings.
Proof.
  unfold rating_part. intros Hrun. bind_inv Hrun r g1 E1.
  destruct (Qltb r (55 # 100)).
  - bind_inv Hrun m g2 E2. bind_inv Hrun rr g3 E3. bind_inv Hrun r1 g4 E4.
    bind_inv Hrun cr g5 E5. bind_inv Hrun r2 g6 E6.
    apply gret_Ok in Hrun as [-> _]. repeat constructor.
  - apply gret_Ok in Hrun as [-> _]. constructor.
Qed.


Lemma money_facts (s0 rt rf rd : Q) :
  (0 <= s0)%Q -> (0 <= rt)%Q -> (0 <= rf)%Q -> (0 <= rd)%Q -> (rd < 1)%Q ->
  let s := qround s0 2 in
  let t := qround (s * ((5 # 100) + ((12 # 100) - (5 # 100)) * rt)) 2 in
  let f := qround ((1 # 1) + ((8 # 1) - (1 # 1)) * rf) 2 in
  let d := qround (py_min (py_max 0 (s + t + f)) (0 + (s * (20 # 100) - 0) * rd)) 2 in
  (d <= s + t + f)%Q /\ (d <= qround (s * (20 # 100)) 2)%Q
  /\ (0 <= qround (s + t + f - d) 2)%Q
  /\ (py_round (s + t + f - d) 2 == qround (s + t + f - d) 2)%Q.
Proof.
  intros Hs0 Hrt Hrf Hrd0 Hrd1 s t f d.
  assert (Hs : (0 <= s)%Q) by (apply qround2_nonneg; exact Hs0).
  assert (Ht : (0 <= t)%Q) by (apply qround2_nonneg; nra).
  assert (Hf : (0 <= f)%Q) by (apply qround2_nonneg; nra).
  assert (Hg : on_grid 2 (s + t + f)).
  { repeat apply on_grid_plus; apply qround_on_grid. }
  assert (Hd1 : (d <= s + t + f)%Q).
  { apply qround2_le_grid; [exact Hg|].
    eapply Qle_trans; [apply py_min_le_l|]. rewrite py_max_nonneg; lra. }
  assert (Hd2 : (d <= qround (s * (20 # 100)) 2)%Q).
  { apply qround_mono. eapply Qle_trans; [apply py_min_le_r|]. nra. }
  assert (Hg' : on_grid 2 (s + t + f - d)).
  { apply on_grid_minus; [exact Hg | apply qround_on_grid]. }
  split; [exact Hd1|]. split; [exact Hd2|].
  split; [apply qround2_nonneg; lra|].
  rewrite (py_round2_fix _ Hg'), (qround2_fix _ Hg'). reflexivity.
Qed.

Lemma order_body_inv (order_id : Z) (g g' : rng) (b : batch) :
  order_body cfg now address_map cust_range outlet_range menu_range
    courier_range aud_id inr_id order_id g = Ok (b, g') ->
  start_ts cfg now < end_ts cfg now ->
  bundle_ok cfg now order_id b.
Proof.
  unfold order_body. intros Hrun Hwin.
  bind_inv Hrun customer_id g1 E1. bind_inv Hrun addrs g2 E2.
  bind_inv Hrun a g3 E3. destruct a as [[address_id addr_city] addr_country].
  bind_inv Hrun restaurant_id g4 E4. bind_inv Hrun secs g5 E5.
  bind_inv Hrun n_items g6 E6. bind_inv Hrun it g7 E7.
  destruct it as [items subtotal0].
  bind_inv Hrun tr g8 E8. bind_inv Hrun df g9 E9. bind_inv Hrun du g10 E10.
  bind_inv Hrun payment_method g11 E11. bind_inv Hrun dr g12 E12.
  bind_inv Hrun rest g13 E13. destruct rest as [payment_status dependents].
  apply gret_Ok in Hrun as [-> _].
  apply randint_Ok in E5.
  apply items_loop_nonneg in E7; [|lra].
  apply uniform_Ok in E8 as (rt & Hrt0 & Hrt1 & ->).
  apply uniform_Ok in E9 as (rf & Hrf0 & Hrf1 & ->).
  apply uniform_Ok in E10 as (rd & Hrd0 & Hrd1 & ->).
  pose proof (money_facts subtotal0 rt rf rd E7 Hrt0 Hrf0 Hrd0 Hrd1)
    as (Hd1 & Hd2 & Htot & Hpy).
  cbv zeta in Hd1, Hd2, Htot, Hpy.
  assert (Hplaced : start_ts cfg now <= start_ts cfg now + Time.seconds secs
                    <= end_ts cfg now).
  { unfold Time.int_total_seconds in E5.
    rewrite Z.quot_div_nonneg in E5 by (unfold Time.second; lia).
    pose proof (Z.mul_div_le (end_ts cfg now - start_ts cfg now) Time.second
                  ltac:(reflexivity)) as Hdiv.
    unfold Time.seconds. unfold Time.second in *. nia. }
  destruct (Qltb dr (92 # 100)).
  - bind_inv E13 timeline g14 E14. bind_inv E13 courier_id g15 E15.
    bind_inv E13 rf0 g16 E16. destruct rf0 as [refunds status'].
    bind_inv E13 ratings g17 E17.
    apply gret_Ok in E13 as [Heq _]. injection Heq as -> ->.
    match goal with
    | |- bundle_ok _ _ _ (batch_app _ {| orders_rows := [?r] |}) => set (o := r)
    end.
    assert (Hgrid : on_grid 2 (o_total_amount o)) by apply qround_on_grid.
    destruct (refund_part_inv o _ _ _ _ _ _ _ Hgrid Htot eq_refl E16)
      as [Hrf Hst].
    exists o, (td_events timeline).
    unfold batch_app, totals_consistent, discount_capped, lifecycle.
    cbn [orders_rows events_rows refunds_rows]. rewrite !app_nil_r.
    split; [reflexivity|]. split; [reflexivity|]. split; [reflexivity|].
    split; [split; [reflexivity | split; [exact Hpy | exact Htot]]|].
    split; [split; [exact Hd1 | exact Hd2]|].
    split; [exact Hplaced|].
    left. exists timeline, g12, g14.
    split; [exact E14|]. split; [reflexivity|]. split; [exact Hrf|].
    destruct Hst as [->|[-> Hne]]; [left|right]; [reflexivity|].
    split; [reflexivity | exact Hne].
  - bind_inv E13 status' g14 E14. bind_inv E13 timeline g15 E15.
    apply gret_Ok in E13 as [Heq _]. injection Heq as -> ->.
    match goal with
    | |- bundle_ok _ _ _ (batch_app _ {| orders_rows := [?r] |}) => set (o := r)
    end.
    exists o, (tc_events timeline).
    unfold batch_app, totals_consistent, discount_capped, lifecycle.
    cbn [orders_rows events_rows refunds_rows]. rewrite !app_nil_r.
    split; [reflexivity|]. split; [reflexivity|]. split; [reflexivity|].
    split; [split; [reflexivity | split; [exact Hpy | exact Htot]]|].
    split; [split; [exact Hd1 | exact Hd2]|].
    split; [exact Hplaced|].
    right. exists timeline, g14, g15.
    split; [exact E15|]. split; [reflexivity|]. split; [reflexivity|].
    apply choice_Ok in E14. cbn [o_payment_status o].
    apply elem_of_cons in E14 as [->|E14]; [left; reflexivity|].
    apply elem_of_cons in E14 as [->|E14]; [right; reflexivity|].
    apply elem_of_nil in E14. contradiction.
Qed.
End OrderFacts.

(** ** The order loop and its batches *)

Lemma batch_app_assoc (a b c : batch) :
  batch_app a (batch_app b c) = batch_app (batch_app a b) c.
Proof.
  unfold batch_app. cbn. f_equal; apply app_assoc.
Qed.

Lemma batch_app_empty_l (a : batch) : batch_app empty_batch a = a.
Proof. destruct a. reflexivity. Qed.

Lemma batch_app_empty_r (a : batch) : batch_app a empty_batch = a.
Proof. destruct a. unfold batch_app. cbn. f_equal; apply app_nil_r. Qed.

Lemma bconcat_app (bs1 bs2 : list batch) :
  foldr batch_app empty_batch (bs1 ++ bs2)
  = batch_app (foldr batch_app empty_batch bs1) (foldr batch_app empty_batch bs2).
Proof.
  induction bs1 as [|b bs1 IH]; cbn.
  - symmetry. apply batch_app_empty_l.
  - rewrite IH. apply batch_app_assoc.
Qed.

(** A row of the concatenated batches comes from one of them. *)
Lemma in_bconcat {A} (f : batch -> list A) :
  (forall a b, f (batch_app a b) = f a ++ f b) -> f empty_batch = [] ->
  forall bs x, x ∈ f (foldr batch_app empty_batch bs) ->
               exists k b, bs !! k = Some b /\ x ∈ f b.
Proof.
  intros Happ Hnil bs x. induction bs as [|b bs IH]; cbn.
  - rewrite Hnil. intros Hx. apply elem_of_nil in Hx. contradiction.
  - rewrite Happ, elem_of_app. intros [Hx|Hx].
    + exists 0%nat, b. split; [reflexivity | exact Hx].
    + destruct (IH Hx) as (k & b' & Hk & Hb). exists (S k), b'.
      split; [exact Hk | exact Hb].
Qed.

Lemma bconcat_in {A} (f : batch -> list A) :
  (forall a b, f (batch_app a b) = f a ++ f b) ->
  forall bs k b x, bs !! k = Some b -> x ∈ f b ->
                   x ∈ f (foldr batch_app empty_batch bs).
Proof.
  intros Happ bs. induction bs as [|b0 bs IH]; intros k b x Hk Hx.
  - discriminate.
  - cbn. rewrite Happ, elem_of_app. destruct k as [|k]; cbn in Hk.
    + injection Hk as ->. left. exact Hx.
    + right. eapply IH; eassumption.
Qed.

Section LoopFacts.

Context {rng : Type} `{RandomSource rng}.
Variables (cfg : config) (now : Z).
Variable address_map : gmap Z (list (Z * string * string)).
Variables cust_range outlet_range menu_range courier_range : id_range.
Variables aud_id inr_id : Z.
Variable base_order_id : Z.

#[local] Abbreviation indexed_bundles :=
  (indexed_bundles cfg now base_order_id).

Lemma indexed_bundles_snoc bs b :
  indexed_bundles bs ->
  bundle_ok cfg now (base_order_id + Z.of_nat (length bs) + 1) b ->
  indexed_bundles (bs ++ [b]).
Proof.
  intros Hbs Hb k b' Hk. apply lookup_app_Some in Hk as [Hk|[Hlen Hk]].
  - apply Hbs, Hk.
  - apply list_lookup_singleton_Some in Hk as [Hk ->].
    replace k with (length bs) by lia. exact Hb.
Qed.

#[local] Abbreviation loop := (orders_loop cfg now address_map cust_range outlet_range
                    menu_range courier_range aud_id inr_id base_order_id).

Lemma orders_loop_bundles (count : nat) :
  start_ts cfg now < end_ts cfg now ->
  forall i buf log g done pend,
    i = Z.of_nat (length (done ++ pend)) ->
    foldr batch_app empty_batch log = foldr batch_app empty_batch done ->
    buf = foldr batch_app empty_batch pend ->
    indexed_bundles (done ++ pend) ->
    exists bs, emitted (loop count i buf log g) = foldr batch_app empty_batch bs
               /\ indexed_bundles bs.
Proof.
  intros Hwin. induction count as [|count IH];
    intros i buf log g done pend Hi Hlog Hbuf Hbs.
  - cbn [orders_loop]. unfold emitted. cbn [flushed].
    destruct (orders_rows buf) eqn:Hrows.
    + exists done. split; [exact Hlog|].
      intros k b Hk. apply Hbs, lookup_app_l_Some, Hk.
    + exists (done ++ pend). split; [|exact Hbs].
      rewrite !bconcat_app, Hlog, <- Hbuf. cbn.
      rewrite batch_app_empty_r. reflexivity.
  - cbn [orders_loop].
    destruct (order_body _ _ _ _ _ _ _ _ _ _ g) as [[rows g']|e] eqn:Ebody.
    + apply order_body_inv in Ebody; [|exact Hwin].
      assert (Hbs' : indexed_bundles ((done ++ pend) ++ [rows])).
      { apply indexed_bundles_snoc; [exact Hbs|]. rewrite <- Hi. exact Ebody. }
      assert (Hbuf' : batch_app buf rows
                      = foldr batch_app empty_batch (pend ++ [rows])).
      { rewrite bconcat_app, <- Hbuf. cbn. rewrite batch_app_empty_r.
        reflexivity. }
      destruct (cfg_chunk_rows cfg <=? _).
      * apply (IH _ _ _ _ ((done ++ pend) ++ [rows]) []).
        -- rewrite app_nil_r, !length_app in *. cbn. lia.
        -- rewrite !bconcat_app, Hlog, Hbuf'. cbn.
           rewrite batch_app_empty_r, !bconcat_app. cbn.
           rewrite batch_app_empty_r, batch_app_assoc. reflexivity.
        -- reflexivity.
        -- rewrite app_nil_r. exact Hbs'.
      * apply (IH _ _ _ _ done (pend ++ [rows])).
        -- rewrite !length_app in *. cbn. lia.
        -- exact Hlog.
        -- exact Hbuf'.
        -- rewrite app_assoc. exact Hbs'.
    + unfold emitted. cbn [flushed]. exists done. split; [exact Hlog|].
      intros k b Hk. apply Hbs, lookup_app_l_Some, Hk.
Qed.

#[local] Abbreviation run := (populate_orders_related cfg now address_map cust_range
                   outlet_range menu_range courier_range aud_id inr_id
                   base_order_id).

(** The rows given to the loader are the bundles of the orders
    [base + 1], [base + 2], ... in this order. *)
Lemma populate_bundles (g : rng) :
  exists bs, emitted (run g) = foldr batch_app empty_batch bs
             /\ indexed_bundles bs.
Proof.
  unfold populate_orders_related.
  destruct (Z.leb_spec (end_ts cfg now) (start_ts cfg now)) as [Hbad|Hwin].
  - exists []. split; [reflexivity|]. intros k b Hk. discriminate.
  - apply (orders_loop_bundles _ Hwin _ _ _ _ [] []); try reflexivity.
    intros k b Hk. discriminate.
Qed.

End LoopFacts.

(** ** The rows of a run *)

(** Case analysis on the event behind a row, given its status. *)
Ltac event_cases He Hs :=
  repeat (apply elem_of_cons in He as [He|He];
          [ let Hts := fresh "Hts" in
            let Hst := fresh "Hst" in
            let Hac := fresh "Hac" in
            injection He as Hts Hst Hac; rewrite Hs in Hst;
            first [discriminate Hst | exact Hts] |]);
  apply elem_of_nil in He; contradiction.

Section RunFacts.

Context {rng : Type} `{RandomSource rng}.
Variables (cfg : config) (now : Z).

Lemma event_rows_elem (order_id : Z) (evs : list (Z * string * string)) e :
  e ∈ event_rows order_id evs ->
  e_order_id e = order_id
  /\ (e_event_ts e, e_status e, e_actor e) ∈ evs.
Proof.
  unfold event_rows. intros He.
  apply list_elem_of_fmap in He as ([[ts st] ac] & -> & Hev).
  split; [reflexivity | exact Hev].
Qed.

Lemma event_rows_intro (order_id ts : Z) (st ac : string)
    (evs : list (Z * string * string)) :
  (ts, st, ac) ∈ evs ->
  {| e_order_id := order_id; e_event_ts := ts; e_status := st;
     e_actor := ac; e_notes := None |} ∈ event_rows order_id evs.
Proof.
  intros Hev. unfold event_rows. apply list_elem_of_fmap.
  exists (ts, st, ac). split; [reflexivity | exact Hev].
Qed.

Lemma bundle_orders order_id b o :
  bundle_ok cfg now order_id b -> o ∈ orders_rows b ->
  orders_rows b = [o] /\ o_order_id o = order_id
  /\ totals_consistent o /\ discount_capped o
  /\ start_ts cfg now <= o_order_placed_at o <= end_ts cfg now.
Proof.
  intros (o' & evs & Hrows & Hid & _ & Htot & Hdis & Hpl & _) Ho.
  rewrite Hrows in Ho. apply list_elem_of_singleton in Ho as ->.
  split; [exact Hrows|]. split; [exact Hid|]. split; [exact Htot|].
  split; [exact Hdis | exact Hpl].
Qed.

Lemma bundle_events order_id b e :
  bundle_ok cfg now order_id b -> e ∈ events_rows b -> e_order_id e = order_id.
Proof.
  intros (o' & evs & _ & _ & Hev & _) He. rewrite Hev in He.
  apply event_rows_elem in He as [Hid _]. exact Hid.
Qed.

(** A bundle is the bundle of a delivered order or of a canceled one. *)
Lemma bundle_lifecycle order_id b o :
  bundle_ok cfg now order_id b -> o ∈ orders_rows b ->
  (exists ts, closing now b "DELIVERED" ts
              /\ (forall e, e ∈ events_rows b -> e_status e <> "CANCELED")
              /\ refunds_ok o ts (refunds_rows b)
              /\ (o_payment_status o = "PAID"
                  \/ (o_payment_status o = "REFUNDED" /\ refunds_rows b <> [])))
  \/ (exists ts, closing now b "CANCELED" ts
                 /\ (forall e, e ∈ events_rows b -> e_status e <> "DELIVERED")
                 /\ refunds_rows b = []
                 /\ (o_payment_status o = "FAILED"
                     \/ o_payment_status o = "PENDING")).
Proof.
  intros (o' & evs & Hrows & Hid & Hev & _ & _ & _ & Hlife) Ho.
  rewrite Hrows in Ho. apply list_elem_of_singleton in Ho as ->.
  destruct Hlife as [(tl & g1 & g2 & Hrun & -> & Hrf & Hst)
                    |(tl & g1 & g2 & Hrun & -> & Hrf & Hst)].
  - left. exists (td_delivered_ts tl).
    destruct (delivered_shape _ _ _ _ _ Hrun) as (t1 & t2 & t3 & t4 & Hshape).
    pose proof (delivered_final_le _ _ _ _ _ Hrun) as Hle.
    unfold closing. rewrite Hev, Hshape. split; [split; [|split]|split; [|split]];
      try assumption.
    + eexists.
      split; [apply (event_rows_intro _ (td_delivered_ts tl) "DELIVERED" "SYSTEM");
              do 5 apply list_elem_of_further; apply list_elem_of_here|].
      split; reflexivity.
    + intros e He Hs. apply event_rows_elem in He as [_ He].
      event_cases He Hs.
    + intros e He Hs. apply event_rows_elem in He as [_ He].
      event_cases He Hs.
  - right. exists (tc_canceled_ts tl).
    pose proof (canceled_shape _ _ _ _ _ Hrun) as Hshape.
    pose proof (canceled_final_le _ _ _ _ _ Hrun) as Hle.
    unfold closing. rewrite Hev, Hshape. split; [split; [|split]|split; [|split]];
      try assumption.
    + eexists.
      split; [apply (event_rows_intro _ (tc_canceled_ts tl) "CANCELED" "SYSTEM");
              apply list_elem_of_further, list_elem_of_here|].
      split; reflexivity.
    + intros e He Hs. apply event_rows_elem in He as [_ He].
      event_cases He Hs.
    + intros e He Hs. apply event_rows_elem in He as [_ He].
      event_cases He Hs.
Qed.

End RunFacts.

Section Runs.

Context {rng : Type} `{RandomSource rng}.
Variables (cfg : config) (now : Z).
Variable address_map : gmap Z (list (Z * string * string)).
Variables cust_range outlet_range menu_range courier_range : id_range.
Variables aud_id inr_id : Z.
Variable base_order_id : Z.

#[local] Abbreviation run :=
  (populate_orders_related cfg now address_map cust_range outlet_range
     menu_range courier_range aud_id inr_id base_order_id).

Lemma run_bundles (g : rng) : exists bs, bundles_of cfg now address_map cust_range outlet_range
    menu_range courier_range aud_id inr_id base_order_id g bs.
Proof.
  destruct (populate_bundles cfg now address_map cust_range outlet_range
              menu_range courier_range aud_id inr_id base_order_id g)
    as (bs & HE & Hbs).
  exists bs. unfold bundles_of. rewrite HE.
  split; [exact Hbs|].
  split; [|split]; intros x; split.
  - apply in_bconcat; reflexivity.
  - intros (k & b & Hk & Hx). eapply bconcat_in; [reflexivity|exact Hk|exact Hx].
  - apply in_bconcat; reflexivity.
  - intros (k & b & Hk & Hx). eapply bconcat_in; [reflexivity|exact Hk|exact Hx].
  - apply in_bconcat; reflexivity.
  - intros (k & b & Hk & Hx). eapply bconcat_in; [reflexivity|exact Hk|exact Hx].
Qed.

Lemma same_bundle (bs : list batch) (k k' : nat) b b' :
  bs !! k = Some b -> bs !! k' = Some b' ->
  base_order_id + Z.of_nat k + 1 = base_order_id + Z.of_nat k' + 1 ->
  b = b'.
Proof.
  intros Hk Hk' Heq. assert (k = k') as -> by lia. congruence.
Qed.

(** The order row of the bundle at position [k]. *)
Lemma bundle_order_row (g : rng) bs (k : nat) b :
  bundles_of cfg now address_map cust_range outlet_range
    menu_range courier_range aud_id inr_id base_order_id g bs -> bs !! k = Some b ->
  exists o, orders_rows b = [o]
            /\ o_order_id o = base_order_id + Z.of_nat k + 1
            /\ o ∈ orders_rows (emitted (run g)).
Proof.
  intros (Hbs & Ho & _) Hk.
  destruct (Hbs k b Hk) as (o & evs & Hrows & Hid & _).
  exists o. split; [exact Hrows|]. split; [exact Hid|].
  apply Ho. exists k, b. split; [exact Hk|]. rewrite Hrows.
  apply list_elem_of_here.
Qed.

Lemma order_in_bundle (g : rng) bs (k : nat) b o :
  bundles_of cfg now address_map cust_range outlet_range
    menu_range courier_range aud_id inr_id base_order_id g bs -> bs !! k = Some b ->
  o ∈ orders_rows (emitted (run g)) ->
  o_order_id o = base_order_id + Z.of_nat k + 1 ->
  o ∈ orders_rows b.
Proof.
  intros (Hbs & Ho & _) Hk Hin Hid.
  apply Ho in Hin as (k' & b' & Hk' & Hin).
  destruct (bundle_orders cfg now _ _ _ (Hbs k' b' Hk') Hin) as (_ & Hid' & _).
  rewrite (same_bundle bs k k' b b' Hk Hk'); [exact Hin | congruence].
Qed.

Lemma event_in_bundle (g : rng) bs (k : nat) b e :
  bundles_of cfg now address_map cust_range outlet_range
    menu_range courier_range aud_id inr_id base_order_id g bs -> bs !! k = Some b ->
  e ∈ events_rows (emitted (run g)) ->
  e_order_id e = base_order_id + Z.of_nat k + 1 ->
  e ∈ events_rows b.
Proof.
  intros (Hbs & _ & He & _) Hk Hin Hid.
  apply He in Hin as (k' & b' & Hk' & Hin).
  pose proof (bundle_events cfg now _ _ _ (Hbs k' b' Hk') Hin) as Hid'.
  rewrite (same_bundle bs k k' b b' Hk Hk'); [exact Hin | congruence].
Qed.

(** The bundle of an emitted order row. *)
Lemma order_bundle (g : rng) bs o :
  bundles_of cfg now address_map cust_range outlet_range
    menu_range courier_range aud_id inr_id base_order_id g bs -> o ∈ orders_rows (emitted (run g)) ->
  exists (k : nat) b,
    bs !! k = Some b /\ o ∈ orders_rows b
    /\ o_order_id o = base_order_id + Z.of_nat k + 1
    /\ bundle_ok cfg now (o_order_id o) b.
Proof.
  intros Hall Hin. pose proof Hall as (Hbs & Ho & _).
  apply Ho in Hin as (k & b & Hk & Hin).
  destruct (bundle_orders cfg now _ _ _ (Hbs k b Hk) Hin) as (_ & Hid & _).
  exists k, b. split; [exact Hk|]. split; [exact Hin|]. split; [exact Hid|].
  rewrite Hid. apply Hbs, Hk.
Qed.

(** The bundle of an emitted refund row: a delivered order, closed
    before the refund. *)
Lemma refund_bundle (g : rng) bs r :
  bundles_of cfg now address_map cust_range outlet_range
    menu_range courier_range aud_id inr_id base_order_id g bs -> r ∈ refunds_rows (emitted (run g)) ->
  exists (k : nat) b o ts,
    bs !! k = Some b /\ orders_rows b = [o]
    /\ r_order_id r = base_order_id + Z.of_nat k + 1
    /\ o_order_id o = r_order_id r
    /\ closing now b "DELIVERED" ts
    /\ (forall e, e ∈ events_rows b -> e_status e <> "CANCELED")
    /\ ts < r_refund_ts r
    /\ (r_refund_amount r <= o_total_amount o)%Q
    /\ r_currency_id r = o_currency_id o.
Proof.
  intros Hall Hin. pose proof Hall as (Hbs & _ & _ & Hr).
  apply Hr in Hin as (k & b & Hk & Hin).
  destruct (bundle_order_row g bs k b Hall Hk) as (o & Hrows & Hid & _).
  assert (Ho : o ∈ orders_rows b) by (rewrite Hrows; apply list_elem_of_here).
  destruct (bundle_lifecycle cfg now _ _ _ (Hbs k b Hk) Ho)
    as [(ts & Hcl & Hnc & Hrf & _)|(ts & _ & _ & Hrf & _)].
  - destruct Hrf as [Hrf|(r' & Hrf & Hrid & Hts & Ham & Hcur)].
    + rewrite Hrf in Hin. apply elem_of_nil in Hin. contradiction.
    + rewrite Hrf in Hin. apply list_elem_of_singleton in Hin as ->.
      exists k, b, o, ts. repeat split; try assumption; try congruence.
      * apply Hcl.
      * apply Hcl.
      * apply Hcl.
  - rewrite Hrf in Hin. apply elem_of_nil in Hin. contradiction.
Qed.

End Runs.

(** ** Exceptions of a run *)

Section RaiseFacts.

Context {rng : Type} `{RandomSource rng}.

Lemma gbind_Raise {A B} (m : gen A) (f : A -> gen B) (g : rng) e :
  gbind m f g = Raise e ->
  m g = Raise e \/ exists a g1, m g = Ok (a, g1) /\ f a g1 = Raise e.
Proof.
  unfold gbind. destruct (m g) as [[a g1]|e0].
  - intros Hf. right. exists a, g1. split; [reflexivity | exact Hf].
  - intros Hf. left. injection Hf as ->. reflexivity.
Qed.

Lemma random_Raise (g : rng) e : random g = Raise e -> False.
Proof. unfold random. discriminate. Qed.

Lemma randbelow_Raise n (g : rng) e : randbelow n g = Raise e -> False.
Proof. unfold randbelow. discriminate. Qed.

Lemma uniform_Raise a b (g : rng) e : uniform a b g = Raise e -> False.
Proof.
  unfold uniform. intros Hu.
  apply gbind_Raise in Hu as [Hu|(r & g1 & _ & Hu)]; [|discriminate].
  apply random_Raise in Hu. exact Hu.
Qed.

Lemma randint_Raise a b (g : rng) e :
  randint a b g = Raise e -> not_window_error e.
Proof.
  unfold randint. destruct (0 <? b + 1 - a).
  - intros Hr. apply gbind_Raise in Hr as [Hr|(k & g1 & _ & Hr)];
      [|discriminate].
    apply randbelow_Raise in Hr. contradiction.
  - intros Hr. injection Hr as <-. discriminate.
Qed.

Lemma choice_Raise {A} (seq : list A) (g : rng) e :
  choice seq g = Raise e -> not_window_error e.
Proof.
  unfold choice. destruct seq as [|x seq'].
  - intros Hr. injection Hr as <-. discriminate.
  - intros Hr. apply gbind_Raise in Hr as [Hr|(k & g1 & _ & Hr)].
    + apply randbelow_Raise in Hr. contradiction.
    + destruct ((x :: seq') !! Z.to_nat k); [discriminate|].
      injection Hr as <-. discriminate.
Qed.

End RaiseFacts.

(** One step through a run that raised: the exception comes from the
    first computation, a draw, or from the rest. *)
Ltac raise_step_as Hrun a :=
  let g1 := fresh "g" in
  apply gbind_Raise in Hrun as [Hrun | (a & g1 & _ & Hrun)];
  [ first [ exact (randint_Raise _ _ _ _ Hrun)
          | exact (choice_Raise _ _ _ Hrun)
          | destruct (random_Raise _ _ Hrun)
          | destruct (uniform_Raise _ _ _ _ Hrun)
          | idtac ]
  | cbv beta in Hrun ].

Ltac raise_step Hrun := let a := fresh "a" in raise_step_as Hrun a.

Section BodyRaise.

Context {rng : Type} `{RandomSource rng}.
Variables (cfg : config) (now : Z).
Variable address_map : gmap Z (list (Z * string * string)).
Variables cust_range outlet_range menu_range courier_range : id_range.
Variables aud_id inr_id : Z.
Variable base_order_id : Z.

Lemma address_lookup_Raise customer_id (g : rng) e :
  address_lookup address_map customer_id g = Raise e -> not_window_error e.
Proof.
  unfold address_lookup. destruct (address_map !! customer_id).
  - discriminate.
  - intros Hr. injection Hr as <-. discriminate.
Qed.

Lemma items_loop_Raise count : forall items subtotal (g : rng) e,
  items_loop menu_range count items subtotal g = Raise e ->
  not_window_error e.
Proof.
  induction count as [|count IH]; intros items subtotal g e Hrun.
  - discriminate.
  - cbn [items_loop] in Hrun. do 3 raise_step Hrun. eapply IH, Hrun.
Qed.

Lemma delivered_Raise placed_at (g : rng) e :
  build_order_timeline_delivered placed_at now g = Raise e -> False.
Proof.
  intros Hrun. destruct (delivered_total placed_at now g) as (tl & g' & Hok).
  congruence.
Qed.

Lemma canceled_Raise placed_at (g : rng) e :
  build_order_timeline_canceled placed_at now g = Raise e -> False.
Proof.
  intros Hrun. destruct (canceled_total placed_at now g) as (tl & g' & Hok).
  congruence.
Qed.

Lemma refund_part_Raise order_id ts total country status (g : rng) e :
  refund_part aud_id inr_id order_id ts total country status g = Raise e ->
  not_window_error e.
Proof.
  unfold refund_part. intros Hrun. raise_step Hrun.
  destruct (Money.Qltb _ _); [|discriminate].
  do 4 raise_step Hrun. discriminate.
Qed.

Lemma rating_part_Raise order_id customer_id ts (g : rng) e :
  rating_part order_id customer_id ts g = Raise e -> not_window_error e.
Proof.
  unfold rating_part. intros Hrun. raise_step Hrun.
  destruct (Money.Qltb _ _); [|discriminate].
  do 3 raise_step Hrun. raise_step Hrun.
  - destruct (Money.Qltb _ _); [|discriminate].
    raise_step Hrun. discriminate.
  - raise_step Hrun. discriminate.
Qed.

Lemma order_body_Raise order_id (g : rng) e :
  order_body cfg now address_map cust_range outlet_range menu_range
    courier_range aud_id inr_id order_id g = Raise e ->
  not_window_error e.
Proof.
  unfold order_body. intros Hrun.
  raise_step Hrun. raise_step Hrun; [exact (address_lookup_Raise _ _ _ Hrun)|].
  raise_step_as Hrun addr.
  destruct addr as [[address_id addr_city] addr_country].
  do 3 raise_step Hrun.
  raise_step_as Hrun it; [exact (items_loop_Raise _ _ _ _ _ Hrun)|].
  destruct it as [items subtotal]. do 5 raise_step Hrun.
  raise_step_as Hrun rest.
  - destruct (Money.Qltb _ _).
    + raise_step Hrun; [destruct (delivered_Raise _ _ _ Hrun)|].
      raise_step Hrun.
      raise_step_as Hrun rf; [exact (refund_part_Raise _ _ _ _ _ _ _ Hrun)|].
      destruct rf as [refunds status].
      raise_step Hrun; [exact (rating_part_Raise _ _ _ _ _ Hrun)|].
      discriminate.
    + raise_step Hrun.
      raise_step Hrun; [destruct (canceled_Raise _ _ _ Hrun)|].
      discriminate.
  - destruct rest as [status dependents]. discriminate.
Qed.

Lemma orders_loop_raised count : forall i buf log (g : rng) e,
  raised (orders_loop cfg now address_map cust_range outlet_range menu_range
            courier_range aud_id inr_id base_order_id count i buf log g)
  = Some e ->
  not_window_error e.
Proof.
  induction count as [|count IH]; intros i buf log g e Hr.
  - discriminate.
  - cbn [orders_loop] in Hr.
    destruct (order_body _ _ _ _ _ _ _ _ _ _ g) as [[rows g']|e0] eqn:Ebody.
    + destruct (cfg_chunk_rows cfg <=? _); eapply IH, Hr.
    + cbn in Hr. injection Hr as <-. eapply order_body_Raise, Ebody.
Qed.

End BodyRaise.

(** ** Runs on reference data in order *)

(** Running the next computation of a sequence that cannot raise. *)
Ltac run_total Htot v g1 E :=
  destruct Htot as (v & g1 & E); rewrite (gbind_run _ _ _ _ _ E).

Section BodyTotal.

Context {rng : Type} `{RandomSource rng}.
Variables (cfg : config) (now : Z).
Variable address_map : gmap Z (list (Z * string * string)).
Variables cust_range outlet_range menu_range courier_range : id_range.
Variables aud_id inr_id : Z.
Variable base_order_id : Z.

Hypothesis Hdata :
  reference_data_ok address_map cust_range outlet_range menu_range courier_range.

Lemma items_loop_total (count : nat) :
  forall items subtotal (g : rng),
  exists r g', items_loop menu_range count items subtotal g = Ok (r, g').
Proof.
  destruct Hdata as (_ & _ & Hmenu & _).
  induction count as [|count IH]; intros items subtotal g; cbn [items_loop].
  - eexists _, _. reflexivity.
  - run_total (randint_total _ _ g Hmenu) m g1 E1.
    run_total (randint_total 1 3 g1 ltac:(lia)) qty g2 E2.
    run_total (uniform_total (5 # 1) (35 # 1) g2) p g3 E3.
    apply IH.
Qed.

Lemma refund_part_total order_id ts total country status (g : rng) :
  exists r g',
    refund_part aud_id inr_id order_id ts total country status g = Ok (r, g').
Proof.
  unfold refund_part. run_total (random_total g) r g1 E1.
  destruct (Money.Qltb r (35 # 1000)); [|eexists _, _; reflexivity].
  run_total (randint_total 5 180 g1 ltac:(lia)) m g2 E2.
  run_total (uniform_total (5 # 100) (80 # 100) g2) u g3 E3.
  run_total (choice_total REFUND_REASONS g3 ltac:(discriminate)) reason g4 E4.
  run_total (random_total g4) r1 g5 E5.
  eexists _, _. reflexivity.
Qed.

Lemma rating_part_total order_id customer_id ts (g : rng) :
  exists r g', rating_part order_id customer_id ts g = Ok (r, g').
Proof.
  unfold rating_part. run_total (random_total g) r g1 E1.
  destruct (Money.Qltb r (55 # 100)); [|eexists _, _; reflexivity].
  run_total (randint_total 2 240 g1 ltac:(lia)) m g2 E2.
  run_total (randint_total 1 5 g2 ltac:(lia)) rr g3 E3.
  run_total (random_total g3) r1 g4 E4.
  assert (E5 : exists cr g5,
             (if Money.Qltb r1 (85 # 100)
              then gbind (randint 1 5) (fun c => gret (Some c))
              else gret None) g4 = Ok (cr, g5)).
  { destruct (Money.Qltb r1 (85 # 100)); [|eexists _, _; reflexivity].
    run_total (randint_total 1 5 g4 ltac:(lia)) c g5 E5.
    eexists _, _. reflexivity. }
  run_total E5 cr g5 E5'.
  run_total (random_total g5) r2 g6 E6.
  eexists _, _. reflexivity.
Qed.

(** With reference data in order and a valid window one iteration of
    the order loop cannot raise. *)
Lemma order_body_total order_id (g : rng) :
  start_ts cfg now < end_ts cfg now ->
  exists b g',
    order_body cfg now address_map cust_range outlet_range menu_range
      courier_range aud_id inr_id order_id g = Ok (b, g').
Proof.
  intros Hwin. destruct Hdata as (Hcust & Houtlet & Hmenu & Hcourier & Haddr).
  unfold order_body.
  run_total (randint_total _ _ g Hcust) customer_id g1 E1.
  apply randint_Ok in E1. destruct (Haddr _ E1) as (addrs & Hlook & Hne).
  assert (E2 : address_lookup address_map customer_id g1 = Ok (addrs, g1)).
  { unfold address_lookup. rewrite Hlook. reflexivity. }
  rewrite (gbind_run _ _ _ _ _ E2).
  run_total (choice_total addrs g1 Hne) a g3 E3.
  destruct a as [[address_id addr_city] addr_country].
  run_total (randint_total _ _ g3 Houtlet) restaurant_id g4 E4.
  assert (Hsecs : 0 <= Time.int_total_seconds (end_ts cfg now - start_ts cfg now)).
  { unfold Time.int_total_seconds.
    rewrite Z.quot_div_nonneg by (unfold Time.second; lia).
    apply Z.div_pos; unfold Time.second; lia. }
  run_total (randint_total _ _ g4 Hsecs) secs g5 E5.
  run_total (randint_total 1 5 g5 ltac:(lia)) n_items g6 E6.
  run_total (items_loop_total (Z.to_nat n_items) [] 0%Q g6) it g7 E7.
  destruct it as [items subtotal].
  run_total (uniform_total (5 # 100) (12 # 100) g7) tr g8 E8.
  run_total (uniform_total (1 # 1) (8 # 1) g8) df g9 E9.
  match goal with
  | |- context [uniform 0%Q ?b] =>
      run_total (uniform_total 0%Q b g9) du g10 E10
  end.
  run_total (choice_total PAYMENT_METHODS g10 ltac:(discriminate)) pm g11 E11.
  run_total (random_total g11) dr g12 E12.
  match goal with
  | |- context [gbind (if ?c then ?A else ?B) ?k g12] =>
      assert (Erest : exists r g', (if c then A else B) g12 = Ok (r, g'))
  end.
  { destruct (Money.Qltb dr (92 # 100)).
    - run_total (delivered_total (start_ts cfg now + Time.seconds secs) now g12)
        tline g13 E13.
      run_total (randint_total _ _ g13 Hcourier) courier_id g14 E14.
      match goal with
      | |- context [refund_part ?a ?b ?c ?d ?e ?f ?s] =>
          run_total (refund_part_total c d e f s g14) rf g15 E15
      end.
      destruct rf as [refunds status].
      run_total (rating_part_total order_id customer_id (td_delivered_ts tline)
                   g15) ratings g16 E16.
      eexists _, _. reflexivity.
    - run_total (choice_total ["FAILED"; "PENDING"] g12 ltac:(discriminate))
        status g13 E13.
      run_total (canceled_total (start_ts cfg now + Time.seconds secs) now g13)
        tline g14 E14.
      eexists _, _. reflexivity. }
  run_total Erest rest g13 E13. destruct rest as [status dependents].
  eexists _, _. reflexivity.
Qed.

Lemma orders_loop_completes (count : nat) :
  start_ts cfg now < end_ts cfg now ->
  forall i buf log (g : rng),
    raised (orders_loop cfg now address_map cust_range outlet_range menu_range
              courier_range aud_id inr_id base_order_id count i buf log g)
    = None.
Proof.
  intros Hwin. induction count as [|count IH]; intros i buf log g;
    cbn [orders_loop].
  - reflexivity.
  - destruct (order_body_total (base_order_id + i + 1) g Hwin)
      as (rows & g' & Ebody).
    rewrite Ebody. destruct (cfg_chunk_rows cfg <=? _); apply IH.
Qed.

End BodyTotal.

(** ** Customer addresses *)

Section AddressFacts.

Context {rng : Type} `{RandomSource rng}.

Lemma codes_nonempty (f : Z -> string) (len : nat) :
  (0 < len)%nat -> f <$> seqZ 1 (Z.of_nat len) <> [].
Proof.
  intros Hlen Heq. apply (f_equal length) in Heq.
  rewrite length_fmap, length_seqZ in Heq. cbn in Heq. lia.
Qed.

Lemma address_body_total (addr_base_ts customer_id : Z) (is_au : bool)
    (country : string) (default_idx j : Z) (g : rng) :
  exists row g',
    address_body addr_base_ts customer_id is_au country default_idx j g
    = Ok ([row], g')
    /\ a_customer_id row = customer_id
    /\ a_is_default row = (j =? default_idx).
Proof.
  unfold address_body.
  assert (Hcity : (if is_au then AU_CITY_CODES else IN_CITY_CODES) <> []).
  { destruct is_au; apply (codes_nonempty _ 50); lia. }
  assert (Hstate : (if is_au then AU_STATE_CODES else IN_STATE_CODES) <> []).
  { destruct is_au; apply (codes_nonempty _ 10); lia. }
  destruct (choice_total _ g Hcity) as (city & g1 & E1).
  rewrite (gbind_run _ _ _ _ _ E1).
  destruct (choice_total _ g1 Hstate) as (state & g2 & E2).
  rewrite (gbind_run _ _ _ _ _ E2).
  destruct (choice_total LABELS g2 ltac:(discriminate)) as (label & g3 & E3).
  rewrite (gbind_run _ _ _ _ _ E3).
  destruct (random_total g3) as (r2 & g4 & E4).
  rewrite (gbind_run _ _ _ _ _ E4).
  assert (E5 : exists line_2 g5,
             (if Money.Qltb r2 (25 # 100)
              then gbind (randint 1 999)
                     (fun u => gret (Some ("UNIT_" +:+ Fmt.d0 3 u)))
              else gret None) g4 = Ok (line_2, g5)).
  { destruct (Money.Qltb r2 (25 # 100)).
    - destruct (randint_total 1 999 g4 ltac:(lia)) as (u & g5 & E5).
      rewrite (gbind_run _ _ _ _ _ E5). eexists _, _. reflexivity.
    - eexists _, _. reflexivity. }
  destruct E5 as (line_2 & g5 & E5). rewrite (gbind_run _ _ _ _ _ E5).
  assert (E6 : exists pc g6,
             (if is_au
              then gbind (randint 1000 9999) (fun n => gret (Fmt.d n))
              else gbind (randint 100000 999999) (fun n => gret (Fmt.d n)))
               g5 = Ok (pc, g6)).
  { destruct is_au.
    - destruct (randint_total 1000 9999 g5 ltac:(lia)) as (n & g6 & E6).
      rewrite (gbind_run _ _ _ _ _ E6). eexists _, _. reflexivity.
    - destruct (randint_total 100000 999999 g5 ltac:(lia)) as (n & g6 & E6).
      rewrite (gbind_run _ _ _ _ _ E6). eexists _, _. reflexivity. }
  destruct E6 as (pc & g6 & E6). rewrite (gbind_run _ _ _ _ _ E6).
  destruct (uniform_total (- (10 # 1)) (10 # 1) g6) as (lat & g7 & E7).
  rewrite (gbind_run _ _ _ _ _ E7).
  destruct (uniform_total (- (10 # 1)) (10 # 1) g7) as (lon & g8 & E8).
  rewrite (gbind_run _ _ _ _ _ E8).
  destruct (randint_total 0 (365 * 2 * 24 * 60) g8 ltac:(lia))
    as (m & g9 & E9).
  rewrite (gbind_run _ _ _ _ _ E9).
  eexists _, _. split; [reflexivity|]. split; reflexivity.
Qed.


Lemma addresses_of_same (cid : Z) (rows : list address_row) :
  Forall (fun a => a_customer_id a = cid) rows -> addresses_of cid rows = rows.
Proof.
  unfold addresses_of. induction 1 as [|a rows Ha _ IH]; [reflexivity|].
  rewrite filter_cons_True by exact Ha. rewrite IH. reflexivity.
Qed.

Lemma addresses_of_other (cid cid' : Z) (rows : list address_row) :
  cid <> cid' ->
  Forall (fun a => a_customer_id a = cid) rows -> addresses_of cid' rows = [].
Proof.
  unfold addresses_of. intros Hne. induction 1 as [|a rows Ha _ IH];
    [reflexivity|].
  rewrite filter_cons_False by congruence. exact IH.
Qed.

(** The loop over the addresses of one customer: [n] rows of that
    customer, one of them flagged when the drawn index is among the
    indices still to come. *)
Lemma address_loop (addr_base_ts customer_id : Z) (is_au : bool)
    (country : string) (default_idx : Z) (n : nat) :
  forall (j : Z) (g : rng),
  exists rows g',
    for_yield n j
      (address_body addr_base_ts customer_id is_au country default_idx) g
    = Ok (rows, g')
    /\ length rows = n
    /\ Forall (fun a => a_customer_id a = customer_id) rows
    /\ length (default_flagged rows)
       = if decide (j <= default_idx < j + Z.of_nat n) then 1%nat else 0%nat.
Proof.
  induction n as [|n IH]; intros j g.
  - exists [], g. split; [reflexivity|]. split; [reflexivity|].
    split; [constructor|]. case_decide; [lia | reflexivity].
  - cbn [for_yield].
    destruct (address_body_total addr_base_ts customer_id is_au country
                default_idx j g) as (row & g1 & E1 & Hcid & Hdef).
    rewrite (gbind_run _ _ _ _ _ E1).
    destruct (IH (j + 1) g1) as (rows & g2 & E2 & Hlen & Hall & Hcount).
    rewrite (gbind_run _ _ _ _ _ E2).
    exists ([row] ++ rows), g2. split; [reflexivity|].
    split; [cbn; lia|]. split; [constructor; assumption|].
    unfold default_flagged in *. cbn [app].
    destruct (Z.eqb_spec j default_idx) as [Hj|Hj].
    + rewrite filter_cons_True by exact Hdef. cbn [length]. rewrite Hcount.
      repeat case_decide; lia.
    + rewrite filter_cons_False by (rewrite Hdef; discriminate).
      rewrite Hcount. repeat case_decide; lia.
Qed.

(** The rows of one customer: between one and three, exactly one of
    them flagged default. *)
Lemma customer_body_total (addr_base_ts customer_id : Z) (g : rng) :
  exists rows g',
    customer_body addr_base_ts customer_id g = Ok (rows, g')
    /\ (1 <= length rows <= 3)%nat
    /\ Forall (fun a => a_customer_id a = customer_id) rows
    /\ length (default_flagged rows) = 1%nat.
Proof.
  unfold customer_body.
  destruct (random_total g) as (r & g1 & E1).
  rewrite (gbind_run _ _ _ _ _ E1).
  destruct (random_total g1) as (r1 & g2 & E2).
  rewrite (gbind_run _ _ _ _ _ E2).
  set (n_addr := if Money.Qltb r (70 # 100) then 1
                 else if Money.Qltb r (95 # 100) then 2 else 3).
  assert (Hn : 1 <= n_addr <= 3).
  { unfold n_addr. destruct (Money.Qltb r (70 # 100)); [lia|].
    destruct (Money.Qltb r (95 # 100)); lia. }
  destruct (randrange_total n_addr g2 ltac:(lia)) as (idx & g3 & E3).
  rewrite (gbind_run _ _ _ _ _ E3). apply randrange_Ok in E3.
  destruct (address_loop addr_base_ts customer_id (Money.Qltb r1 (55 # 100))
              (if Money.Qltb r1 (55 # 100) then "Australia" else "India")
              idx (Z.to_nat n_addr) 0 g3)
    as (rows & g4 & E4 & Hlen & Hall & Hcount).
  exists rows, g4. split; [exact E4|]. split; [lia|]. split; [exact Hall|].
  rewrite Hcount. case_decide; [reflexivity | lia].
Qed.

(** The loop over the customers [i], ..., [i + n - 1]. *)
Lemma customers_loop (addr_base_ts : Z) (n : nat) :
  forall (i : Z) (g : rng),
  exists rows g',
    for_yield n i (customer_body addr_base_ts) g = Ok (rows, g')
    /\ forall cid,
         (i <= cid < i + Z.of_nat n ->
          (1 <= length (addresses_of cid rows) <= 3)%nat
          /\ length (default_flagged (addresses_of cid rows)) = 1%nat)
         /\ (~ i <= cid < i + Z.of_nat n -> addresses_of cid rows = []).
Proof.
  induction n as [|n IH]; intros i g.
  - exists [], g. split; [reflexivity|]. intros cid.
    split; [lia | reflexivity].
  - cbn [for_yield].
    destruct (customer_body_total addr_base_ts i g)
      as (block & g1 & E1 & Hlen & Hall & Hdef).
    rewrite (gbind_run _ _ _ _ _ E1).
    destruct (IH (i + 1) g1) as (rows & g2 & E2 & Hrows).
    rewrite (gbind_run _ _ _ _ _ E2).
    exists (block ++ rows), g2. split; [reflexivity|]. intros cid.
    unfold addresses_of. rewrite filter_app. fold (addresses_of cid block).
    fold (addresses_of cid rows).
    destruct (Hrows cid) as [Hin Hout].
    destruct (Z.eq_dec i cid) as [<-|Hne].
    + rewrite (addresses_of_same _ _ Hall), Hout by lia. rewrite app_nil_r.
      split; [intros _; split; assumption | lia].
    + rewrite (addresses_of_other _ _ _ Hne Hall). cbn [app].
      split; [intros Hc; apply Hin; lia | intros Hc; apply Hout; lia].
Qed.

End AddressFacts.

(** C6. [gen_customer_addresses] never raises, and for every customer
    id of its range it yields between one and three rows, exactly one
    of them with [is_default] set; it yields no row for any other
    customer id. *)
Theorem one_default_address_per_customer {rng : Type} `{RandomSource rng}
    (now customer_id_start customer_id_end : Z) (g : rng) :
  exists rows g',
    gen_customer_addresses now customer_id_start customer_id_end g
    = Ok (rows, g')
    /\ (forall cid, customer_id_start <= cid <= customer_id_end ->
                    (1 <= length (addresses_of cid rows) <= 3)%nat
                    /\ length (default_flagged (addresses_of cid rows)) = 1%nat)
    /\ (forall a, a ∈ rows ->
                  customer_id_start <= a_customer_id a <= customer_id_end).
Proof.
  unfold gen_customer_addresses.
  destruct (customers_loop (now - Time.days (365 * 2))
              (Z.to_nat (customer_id_end + 1 - customer_id_start))
              customer_id_start g) as (rows & g' & Hrun & Hrows).
  exists rows, g'. split; [exact Hrun|]. split.
  - intros cid Hcid. apply Hrows. lia.
  - intros a Ha.
    destruct (Z_le_dec customer_id_start (a_customer_id a)) as [Hlo|Hlo];
      [destruct (Z_le_dec (a_customer_id a) customer_id_end) as [Hhi|Hhi]|];
      [lia| |].
    + destruct (Hrows (a_customer_id a)) as [_ Hout].
      assert (Hin : a ∈ addresses_of (a_customer_id a) rows).
      { unfold addresses_of. apply list_elem_of_filter. split; [reflexivity|exact Ha]. }
      rewrite Hout in Hin by lia. apply elem_of_nil in Hin. contradiction.
    + destruct (Hrows (a_customer_id a)) as [_ Hout].
      assert (Hin : a ∈ addresses_of (a_customer_id a) rows).
      { unfold addresses_of. apply list_elem_of_filter. split; [reflexivity|exact Ha]. }
      rewrite Hout in Hin by lia. apply elem_of_nil in Hin. contradiction.
Qed.


(** ** Outlets *)

Section OutletFacts.

Context {rng : Type} `{RandomSource rng}.

(** Leaving the retry loop with a name means the key is unused. *)
Lemma regenerate_fresh (fuel : nat) (used : gset (Z * string * string * string))
    (brand_id : Z) (city zone : string) :
  forall (name : string) (g g' : rng) name',
    regenerate fuel used brand_id city zone name g = Ok (Some name', g') ->
    (brand_id, name', city, zone) ∉ used.
Proof.
  induction fuel as [|fuel IH]; intros name g g' name' Hrun; cbn [regenerate] in Hrun.
  - destruct (decide ((brand_id, name, city, zone) ∈ used)) as [Hin|Hout].
    + discriminate.
    + apply gret_Ok in Hrun as [Heq _]. injection Heq as ->. exact Hout.
  - destruct (decide ((brand_id, name, city, zone) ∈ used)) as [Hin|Hout].
    + bind_inv Hrun n g1 E1. eapply IH, Hrun.
    + apply gret_Ok in Hrun as [Heq _]. injection Heq as ->. exact Hout.
Qed.

(** An unused key leaves the retry loop at once, whatever the fuel. *)
Lemma regenerate_unused (fuel : nat) (used : gset (Z * string * string * string))
    (brand_id : Z) (city zone name : string) (g : rng) :
  (brand_id, name, city, zone) ∉ used ->
  regenerate fuel used brand_id city zone name g = Ok (Some name, g).
Proof.
  intros Hout. destruct fuel; cbn [regenerate];
    destruct (decide ((brand_id, name, city, zone) ∈ used));
    try contradiction; reflexivity.
Qed.

Lemma outlet_body_fresh (fuel : nat) (base_ts lo hi : Z)
    (used : gset (Z * string * string * string)) (g g' : rng) row :
  outlet_body fuel base_ts lo hi used g = Ok (Some row, g') ->
  outlet_key row ∉ used.
Proof.
  unfold outlet_body. intros Hrun.
  bind_inv Hrun brand_id g1 E1. bind_inv Hrun r g2 E2. bind_inv Hrun c g3 E3.
  destruct c as [[city st] country].
  bind_inv Hrun z g4 E4. bind_inv Hrun n g5 E5. bind_inv Hrun a g6 E6.
  bind_inv Hrun pc g7 E7. bind_inv Hrun r1 g8 E8. bind_inv Hrun dd g9 E9.
  bind_inv Hrun name g10 E10.
  destruct name as [name|]; [|apply gret_Ok in Hrun as [Heq _]; discriminate].
  apply gret_Ok in Hrun as [Heq _]. injection Heq as ->.
  apply regenerate_fresh in E10. exact E10.
Qed.

(** The keys of the rows yielded by the loop are pairwise different
    and differ from the keys used before. *)
Lemma outlets_loop_keys (fuel count : nat) (base_ts lo hi : Z) :
  forall (used : gset (Z * string * string * string)) (g : rng),
    NoDup (outlet_key <$> (outlets_loop fuel count base_ts lo hi used g).1)
    /\ (forall k, k ∈ outlet_key <$> (outlets_loop fuel count base_ts lo hi used g).1 ->
                  k ∉ used).
Proof.
  induction count as [|count IH]; intros used g; cbn [outlets_loop].
  - split; [constructor|]. intros k Hk. apply elem_of_nil in Hk. contradiction.
  - destruct (outlet_body fuel base_ts lo hi used g) as [[[row|] g']|e] eqn:Ebody.
    + apply outlet_body_fresh in Ebody.
      specialize (IH ({[outlet_key row]} ∪ used) g').
      destruct (outlets_loop fuel count base_ts lo hi _ g') as [rows e].
      cbn [fst] in *. destruct IH as [Hnd Hfresh]. rewrite fmap_cons. split.
      * constructor; [|exact Hnd]. intros Hin. apply Hfresh in Hin.
        set_solver.
      * intros k Hk. apply elem_of_cons in Hk as [->|Hk]; [exact Ebody|].
        apply Hfresh in Hk. set_solver.
    + cbn. split; [constructor|]. intros k Hk. apply elem_of_nil in Hk.
      contradiction.
    + cbn. split; [constructor|]. intros k Hk. apply elem_of_nil in Hk.
      contradiction.
Qed.

(** A run that exhausts the loop yielded one row per iteration. *)
Lemma outlets_loop_exhausted (fuel count : nat) (base_ts lo hi : Z) :
  forall (used : gset (Z * string * string * string)) (g : rng),
    (outlets_loop fuel count base_ts lo hi used g).2 = Exhausted ->
    length (outlets_loop fuel count base_ts lo hi used g).1 = count.
Proof.
  induction count as [|count IH]; intros used g; cbn [outlets_loop].
  - reflexivity.
  - destruct (outlet_body fuel base_ts lo hi used g) as [[[row|] g']|e];
      [|discriminate|discriminate].
    specialize (IH ({[outlet_key row]} ∪ used) g').
    destruct (outlets_loop fuel count base_ts lo hi _ g') as [rows e].
    cbn in *. intros He. rewrite (IH He). reflexivity.
Qed.

End OutletFacts.

(** C7. Whatever the fuel given to the retry loops, two rows yielded by
    [gen_outlets] at different positions differ in their key [(brand_id,
    outlet_name, city, delivery_zone)]; a run that exhausts its loop
    yielded [N_OUTLETS] rows. *)
Theorem outlet_keys_unique {rng : Type} `{RandomSource rng}
    (fuel : nat) (now brand_id_start brand_id_end : Z) (g : rng) :
  (forall (i j : nat) r1 r2,
      (gen_outlets fuel now brand_id_start brand_id_end g).1 !! i = Some r1 ->
      (gen_outlets fuel now brand_id_start brand_id_end g).1 !! j = Some r2 ->
      i <> j -> outlet_key r1 <> outlet_key r2)
  /\ ((gen_outlets fuel now brand_id_start brand_id_end g).2 = Exhausted ->
      Z.of_nat (length (gen_outlets fuel now brand_id_start brand_id_end g).1)
      = N_OUTLETS).
Proof.
  unfold gen_outlets. split.
  - intros i j r1 r2 Hi Hj Hij Hkey.
    destruct (outlets_loop_keys fuel (Z.to_nat N_OUTLETS)
                (now - Time.days (365 * 3)) brand_id_start brand_id_end ∅ g)
      as [Hnd _].
    apply Hij. eapply NoDup_lookup; [exact Hnd| |].
    + rewrite list_lookup_fmap, Hi. reflexivity.
    + rewrite list_lookup_fmap, Hj. cbn. rewrite Hkey. reflexivity.
  - intros He. rewrite (outlets_loop_exhausted _ _ _ _ _ _ _ He). reflexivity.
Qed.

(** * The properties of the specification *)

(** C2. For an order placed at least [SAFETY_BUFFER_HOURS] before [now]
    both timeline builders return, the delivered one with the events
    PLACED, ACCEPTED, PREP_START, READY_FOR_PICKUP, PICKED_UP,
    DELIVERED and the canceled one with PLACED, CANCELED, and the
    timestamps of the events increase strictly. *)
Theorem timelines_strictly_increasing {rng : Type} `{RandomSource rng}
    (placed_at now : Z) (g : rng) :
  placed_at <= now - Time.hours SAFETY_BUFFER_HOURS ->
  (exists tl g',
      build_order_timeline_delivered placed_at now g = Ok (tl, g')
      /\ event_statuses (td_events tl)
         = ["PLACED"; "ACCEPTED"; "PREP_START"; "READY_FOR_PICKUP";
            "PICKED_UP"; "DELIVERED"]
      /\ strictly_increasing (event_times (td_events tl)))
  /\ (exists tl g',
         build_order_timeline_canceled placed_at now g = Ok (tl, g')
         /\ event_statuses (tc_events tl) = ["PLACED"; "CANCELED"]
         /\ strictly_increasing (event_times (tc_events tl))).
Proof.
  intros Hplaced. split.
  - destruct (delivered_total placed_at now g) as (tl & g' & Hrun).
    exists tl, g'. split; [exact Hrun|]. split.
    + destruct (delivered_shape _ _ _ _ _ Hrun) as (t1 & t2 & t3 & t4 & ->).
      reflexivity.
    + eapply delivered_increasing; eassumption.
  - destruct (canceled_total placed_at now g) as (tl & g' & Hrun).
    exists tl, g'. split; [exact Hrun|]. split.
    + rewrite (canceled_shape _ _ _ _ _ Hrun). reflexivity.
    + eapply canceled_increasing; eassumption.
Qed.


Section OrderClaims.

Context {rng : Type} `{RandomSource rng}.
Variables (cfg : config) (now : Z).
Variable address_map : gmap Z (list (Z * string * string)).
Variables cust_range outlet_range menu_range courier_range : id_range.
Variables aud_id inr_id : Z.
Variable base_order_id : Z.

#[local] Abbreviation run :=
  (populate_orders_related cfg now address_map cust_range outlet_range
     menu_range courier_range aud_id inr_id base_order_id).

#[local] Abbreviation all_bundles :=
  (run_bundles cfg now address_map cust_range outlet_range menu_range
     courier_range aud_id inr_id base_order_id).

(** C1. Every order row of a run stores as [total_amount] the value
    [qround(subtotal + tax + delivery_fee - discount, 2)], which is
    also the plain [round] of that sum to two decimals, and the
    total is not negative. *)
Theorem order_total_consistent (g : rng) (o : order_row) :
  o ∈ orders_rows (emitted (run g)) -> totals_consistent o.
Proof.
  intros Ho. destruct (all_bundles g) as (bs & Hall).
  destruct (order_bundle _ _ _ _ _ _ _ _ _ _ g bs o Hall Ho)
    as (k & b & _ & Hin & _ & Hok).
  apply (bundle_orders cfg now _ _ _ Hok Hin).
Qed.

(** C3, as the code has it. The closing event of every order of a
    run, DELIVERED or CANCELED, is timed no later than one minute
    before [now], the bound of the clamp. *)
Theorem final_event_before_latest_allowed (g : rng) (e : event_row) :
  e ∈ events_rows (emitted (run g)) ->
  e_status e = "DELIVERED" \/ e_status e = "CANCELED" ->
  e_event_ts e <= latest_allowed now.
Proof.
  intros He Hst. destruct (all_bundles g) as (bs & Hall).
  pose proof Hall as (Hbs & _ & Hev & _).
  apply Hev in He as (k & b & Hk & He).
  destruct (bundle_order_row _ _ _ _ _ _ _ _ _ _ g bs k b Hall Hk)
    as (o & Hrows & _ & _).
  assert (Ho : o ∈ orders_rows b) by (rewrite Hrows; apply list_elem_of_here).
  destruct (bundle_lifecycle cfg now _ _ _ (Hbs k b Hk) Ho)
    as [(ts & (_ & Hcl & Hle) & Hnc & _)|(ts & (_ & Hcl & Hle) & Hnd & _)];
    destruct Hst as [Hst|Hst].
  - rewrite (Hcl e He Hst). exact Hle.
  - destruct (Hnc e He Hst).
  - destruct (Hnd e He Hst).
  - rewrite (Hcl e He Hst). exact Hle.
Qed.

(** C4, as the code has it. The discount of every order row of a run
    is at most [subtotal + tax + delivery_fee] and at most a fifth
    of the subtotal rounded to cents by [qround]. *)
Theorem order_discount_capped (g : rng) (o : order_row) :
  o ∈ orders_rows (emitted (run g)) -> discount_capped o.
Proof.
  intros Ho. destruct (all_bundles g) as (bs & Hall).
  destruct (order_bundle _ _ _ _ _ _ _ _ _ _ g bs o Hall Ho)
    as (k & b & _ & Hin & _ & Hok).
  apply (bundle_orders cfg now _ _ _ Hok Hin).
Qed.

(** C5. Every refund row of a run belongs to an order of the run that
    has a DELIVERED event and no CANCELED event; the refund is timed
    strictly after that event and its amount is at most the total of
    the order. *)
Theorem refund_after_delivery_within_total (g : rng) (r : refund_row) :
  r ∈ refunds_rows (emitted (run g)) ->
  (exists o d,
      o ∈ orders_rows (emitted (run g)) /\ o_order_id o = r_order_id r
      /\ d ∈ events_rows (emitted (run g)) /\ e_order_id d = r_order_id r
      /\ e_status d = "DELIVERED")
  /\ (forall o, o ∈ orders_rows (emitted (run g)) ->
                o_order_id o = r_order_id r ->
                (r_refund_amount r <= o_total_amount o)%Q)
  /\ (forall e, e ∈ events_rows (emitted (run g)) ->
                e_order_id e = r_order_id r ->
                e_status e <> "CANCELED"
                /\ (e_status e = "DELIVERED" -> e_event_ts e < r_refund_ts r)).
Proof.
  intros Hr. destruct (all_bundles g) as (bs & Hall).
  destruct (refund_bundle _ _ _ _ _ _ _ _ _ _ g bs r Hall Hr)
    as (k & b & o & ts & Hk & Hrows & Hrid & Hoid & Hcl & Hnc & Hts & Ham & _).
  pose proof Hall as (Hbs & Hord & Hev & _).
  destruct Hcl as ((d & Hd & Hds & Hdt) & Hcl & _).
  split; [|split].
  - exists o, d. split; [|split; [exact Hoid|split; [|split; [|exact Hds]]]].
    + apply Hord. exists k, b. split; [exact Hk|]. rewrite Hrows.
      apply list_elem_of_here.
    + apply Hev. exists k, b. split; [exact Hk | exact Hd].
    + rewrite Hrid. apply (bundle_events cfg now _ _ _ (Hbs k b Hk) Hd).
  - intros o' Ho' Hid'.
    pose proof (order_in_bundle _ _ _ _ _ _ _ _ _ _ g bs k b o' Hall Hk Ho'
                  ltac:(congruence)) as Hin.
    rewrite Hrows in Hin. apply list_elem_of_singleton in Hin as ->.
    exact Ham.
  - intros e He Hid.
    pose proof (event_in_bundle _ _ _ _ _ _ _ _ _ _ g bs k b e Hall Hk He
                  ltac:(congruence)) as Hin.
    split; [apply Hnc, Hin|]. intros Hst. rewrite (Hcl e Hin Hst). exact Hts.
Qed.

(** C9. Every refund row of a run carries the currency of the order
    row it refunds, and that order row exists. *)
Theorem refund_currency_matches_order (g : rng) (r : refund_row) :
  r ∈ refunds_rows (emitted (run g)) ->
  (exists o, o ∈ orders_rows (emitted (run g)) /\ o_order_id o = r_order_id r)
  /\ (forall o, o ∈ orders_rows (emitted (run g)) ->
                o_order_id o = r_order_id r ->
                r_currency_id r = o_currency_id o).
Proof.
  intros Hr. destruct (all_bundles g) as (bs & Hall).
  destruct (refund_bundle _ _ _ _ _ _ _ _ _ _ g bs r Hall Hr)
    as (k & b & o & ts & Hk & Hrows & Hrid & Hoid & _ & _ & _ & _ & Hcur).
  pose proof Hall as (Hbs & Hord & _).
  split.
  - exists o. split; [|exact Hoid].
    apply Hord. exists k, b. split; [exact Hk|]. rewrite Hrows.
    apply list_elem_of_here.
  - intros o' Ho' Hid'.
    pose proof (order_in_bundle _ _ _ _ _ _ _ _ _ _ g bs k b o' Hall Hk Ho'
                  ltac:(congruence)) as Hin.
    rewrite Hrows in Hin. apply list_elem_of_singleton in Hin as ->.
    exact Hcur.
Qed.

(** C10. Every order row of a run has a DELIVERED or a CANCELED event.
    With a DELIVERED event its payment status is PAID, or REFUNDED
    and then the run has a refund row for it; with a CANCELED event
    its payment status is FAILED or PENDING. *)
Theorem payment_status_follows_outcome (g : rng) (o : order_row) :
  o ∈ orders_rows (emitted (run g)) ->
  (exists e, e ∈ events_rows (emitted (run g)) /\ e_order_id e = o_order_id o
             /\ (e_status e = "DELIVERED" \/ e_status e = "CANCELED"))
  /\ (forall e, e ∈ events_rows (emitted (run g)) ->
                e_order_id e = o_order_id o -> e_status e = "DELIVERED" ->
                o_payment_status o = "PAID"
                \/ (o_payment_status o = "REFUNDED"
                    /\ exists r, r ∈ refunds_rows (emitted (run g))
                                 /\ r_order_id r = o_order_id o))
  /\ (forall e, e ∈ events_rows (emitted (run g)) ->
                e_order_id e = o_order_id o -> e_status e = "CANCELED" ->
                (o_payment_status o = "FAILED"
                 \/ o_payment_status o = "PENDING")
                /\ o_payment_status o <> "PAID"
                /\ o_payment_status o <> "REFUNDED").
Proof.
  intros Ho. destruct (all_bundles g) as (bs & Hall).
  destruct (order_bundle _ _ _ _ _ _ _ _ _ _ g bs o Hall Ho)
    as (k & b & Hk & Hin & Hid & Hok).
  pose proof Hall as (Hbs & _ & Hev & Hrf).
  assert (Hloc : forall e, e ∈ events_rows (emitted (run g)) ->
                           e_order_id e = o_order_id o -> e ∈ events_rows b).
  { intros e He Heid.
    apply (event_in_bundle _ _ _ _ _ _ _ _ _ _ g bs k b e Hall Hk He).
    congruence. }
  destruct (bundle_lifecycle cfg now _ _ _ Hok Hin)
    as [(ts & ((d & Hd & Hds & _) & _) & Hnc & Hrefs & Hst)
       |(ts & ((d & Hd & Hds & _) & _) & Hnd & _ & Hst)].
  - split; [|split].
    + exists d. split; [apply Hev; exists k, b; split; assumption|].
      split; [apply (bundle_events cfg now _ _ _ Hok Hd) | left; exact Hds].
    + intros e He Heid _. destruct Hst as [Hst|[Hst Hne]]; [left; exact Hst|].
      right. split; [exact Hst|].
      destruct Hrefs as [Hnil|(r & Hr & Hrid & _)]; [contradiction|].
      exists r. split; [|exact Hrid].
      apply Hrf. exists k, b. split; [exact Hk|]. rewrite Hr.
      apply list_elem_of_here.
    + intros e He Heid Hes. destruct (Hnc e (Hloc e He Heid) Hes).
  - split; [|split].
    + exists d. split; [apply Hev; exists k, b; split; assumption|].
      split; [apply (bundle_events cfg now _ _ _ Hok Hd) | right; exact Hds].
    + intros e He Heid Hes. destruct (Hnd e (Hloc e He Heid) Hes).
    + intros e He Heid _. split; [exact Hst|].
      destruct Hst as [-> | ->]; split; discriminate.
Qed.

(** Every order of a run is placed inside the window. *)
Lemma generated_order_within_window (g : rng) (o : order_row) :
  o ∈ orders_rows (emitted (run g)) ->
  start_ts cfg now <= o_order_placed_at o <= end_ts cfg now.
Proof.
  intros Ho. destruct (all_bundles g) as (bs & Hall).
  destruct (order_bundle _ _ _ _ _ _ _ _ _ _ g bs o Hall Ho)
    as (k & b & _ & Hin & _ & Hok).
  apply (bundle_orders cfg now _ _ _ Hok Hin).
Qed.

(** C8, as the code has it. A run ends with the error of the window
    check exactly when the window end is not after the window start,
    and then nothing was given to the loader.  On reference data in
    order this is the only way a run raises; without it a run with a
    valid window can raise as well. *)
Theorem invalid_window_fails_fast (g : rng) :
  (end_ts cfg now <= start_ts cfg now
   <-> raised (run g) = Some (ValueError invalid_window_msg))
  /\ (end_ts cfg now <= start_ts cfg now -> flushed (run g) = [])
  /\ (reference_data_ok address_map cust_range outlet_range menu_range
        courier_range ->
      (raised (run g) <> None <-> end_ts cfg now <= start_ts cfg now)).
Proof.
  unfold populate_orders_related.
  destruct (Z.leb_spec (end_ts cfg now) (start_ts cfg now)) as [Hbad|Hok].
  - split; [split; [reflexivity | intros _; exact Hbad]|].
    split; [reflexivity|]. intros _.
    split; [intros _; exact Hbad | discriminate].
  - split; [split; [lia|]|split; [lia|]].
    + intros Hr. apply orders_loop_raised in Hr. destruct Hr. reflexivity.
    + intros Hdata. split; [|lia]. intros Hr. destruct Hr.
      apply orders_loop_completes; assumption.
Qed.

End OrderClaims.

(** * Sample runs of the properties *)

(** Membership of a sample row in the rows of a sample run. *)
Ltac sample_row :=
  vm_compute; repeat first [apply list_elem_of_here | apply list_elem_of_further].

Lemma order_total_consistent_witness :
  late_order ∈ orders_rows (emitted (sample_run one_order_config tape_late))
  /\ totals_consistent late_order.
Proof.
  split; [sample_row|].
  apply (order_total_consistent one_order_config sample_now sample_addresses
           {| lo := 1; hi := 1 |} {| lo := 1; hi := 5 |} {| lo := 1; hi := 50 |}
           {| lo := 1; hi := 9 |} 1 2 0 tape_late).
  sample_row.
Defined.

Lemma timelines_strictly_increasing_witness :
  992224000000000 <= sample_now - Time.hours SAFETY_BUFFER_HOURS
  /\ (exists tl g',
         build_order_timeline_delivered 992224000000000 sample_now tape_late
         = Ok (tl, g')
         /\ event_statuses (td_events tl)
            = ["PLACED"; "ACCEPTED"; "PREP_START"; "READY_FOR_PICKUP";
               "PICKED_UP"; "DELIVERED"]
         /\ strictly_increasing (event_times (td_events tl)))
  /\ (exists tl g',
         build_order_timeline_canceled 992224000000000 sample_now tape_late
         = Ok (tl, g')
         /\ event_statuses (tc_events tl) = ["PLACED"; "CANCELED"]
         /\ strictly_increasing (event_times (tc_events tl))).
Proof.
  assert (Hplaced : 992224000000000 <= sample_now - Time.hours SAFETY_BUFFER_HOURS)
    by (vm_compute; discriminate).
  split; [exact Hplaced|].
  exact (timelines_strictly_increasing 992224000000000 sample_now tape_late
           Hplaced).
Defined.

(** The order of [tape_late] is placed at the window end, eight hours
    before [now], and delivered thirty minutes later: its DELIVERED
    event lies after [now] minus the safety buffer.  The row comes out
    of the first iteration under the module constants and out of the
    run cut after that iteration. *)
Lemma final_event_after_safety_buffer :
  (exists b g', sample_body module_config tape_late = Ok (b, g')
                /\ late_delivered ∈ events_rows b)
  /\ late_delivered ∈ events_rows (emitted (sample_run one_order_config tape_late))
  /\ e_status late_delivered = "DELIVERED"
  /\ ~ e_event_ts late_delivered
       <= sample_now - Time.hours SAFETY_BUFFER_HOURS.
Proof.
  split; [eexists _, _; split; [vm_compute; reflexivity | sample_row]|].
  split; [sample_row|]. split; [reflexivity|].
  vm_compute. intros Hle. apply Hle. reflexivity.
Qed.

Lemma final_event_before_latest_allowed_witness :
  late_delivered ∈ events_rows (emitted (sample_run one_order_config tape_late))
  /\ (e_status late_delivered = "DELIVERED"
      \/ e_status late_delivered = "CANCELED")
  /\ e_event_ts late_delivered <= latest_allowed sample_now.
Proof.
  assert (Hin : late_delivered
                ∈ events_rows (emitted (sample_run one_order_config tape_late)))
    by sample_row.
  split; [exact Hin|]. split; [left; reflexivity|].
  apply (final_event_before_latest_allowed one_order_config sample_now
           sample_addresses {| lo := 1; hi := 1 |} {| lo := 1; hi := 5 |}
           {| lo := 1; hi := 50 |} {| lo := 1; hi := 9 |} 1 2 0 tape_late
           late_delivered Hin).
  left. reflexivity.
Defined.

(** The order of [tape_rounding] has subtotal 5.03, a fifth of which is
    1.006; the discount draw 1.005497 is rounded up to 1.01. *)
Lemma discount_above_fifth_of_subtotal :
  (exists b g', sample_body module_config tape_rounding = Ok (b, g')
                /\ rounding_order ∈ orders_rows b)
  /\ rounding_order
     ∈ orders_rows (emitted (sample_run one_order_config tape_rounding))
  /\ ~ (o_discount rounding_order
        <= Money.py_min
             (o_subtotal rounding_order + o_tax rounding_order
              + o_delivery_fee rounding_order)
             (o_subtotal rounding_order * (20 # 100)))%Q.
Proof.
  split; [eexists _, _; split; [vm_compute; reflexivity | sample_row]|].
  split; [sample_row|].
  vm_compute. intros Hle. apply Hle. reflexivity.
Qed.

Lemma order_discount_capped_witness :
  rounding_order
  ∈ orders_rows (emitted (sample_run one_order_config tape_rounding))
  /\ discount_capped rounding_order.
Proof.
  split; [sample_row|].
  apply (order_discount_capped one_order_config sample_now sample_addresses
           {| lo := 1; hi := 1 |} {| lo := 1; hi := 5 |} {| lo := 1; hi := 50 |}
           {| lo := 1; hi := 9 |} 1 2 0 tape_rounding).
  sample_row.
Defined.

Lemma refund_after_delivery_within_total_witness :
  late_refund ∈ refunds_rows (emitted (sample_run one_order_config tape_late))
  /\ (exists o d,
         o ∈ orders_rows (emitted (sample_run one_order_config tape_late))
         /\ o_order_id o = r_order_id late_refund
         /\ d ∈ events_rows (emitted (sample_run one_order_config tape_late))
         /\ e_order_id d = r_order_id late_refund
         /\ e_status d = "DELIVERED")
  /\ (forall o,
         o ∈ orders_rows (emitted (sample_run one_order_config tape_late)) ->
         o_order_id o = r_order_id late_refund ->
         (r_refund_amount late_refund <= o_total_amount o)%Q)
  /\ (forall e,
         e ∈ events_rows (emitted (sample_run one_order_config tape_late)) ->
         e_order_id e = r_order_id late_refund ->
         e_status e <> "CANCELED"
         /\ (e_status e = "DELIVERED" ->
             e_event_ts e < r_refund_ts late_refund)).
Proof.
  assert (Hin : late_refund
                ∈ refunds_rows (emitted (sample_run one_order_config tape_late)))
    by sample_row.
  split; [exact Hin|].
  exact (refund_after_delivery_within_total one_order_config sample_now
           sample_addresses {| lo := 1; hi := 1 |} {| lo := 1; hi := 5 |}
           {| lo := 1; hi := 50 |} {| lo := 1; hi := 9 |} 1 2 0 tape_late
           late_refund Hin).
Defined.

Lemma refund_currency_matches_order_witness :
  late_refund ∈ refunds_rows (emitted (sample_run one_order_config tape_late))
  /\ (exists o,
         o ∈ orders_rows (emitted (sample_run one_order_config tape_late))
         /\ o_order_id o = r_order_id late_refund)
  /\ (forall o,
         o ∈ orders_rows (emitted (sample_run one_order_config tape_late)) ->
         o_order_id o = r_order_id late_refund ->
         r_currency_id late_refund = o_currency_id o).
Proof.
  assert (Hin : late_refund
                ∈ refunds_rows (emitted (sample_run one_order_config tape_late)))
    by sample_row.
  split; [exact Hin|].
  exact (refund_currency_matches_order one_order_config sample_now
           sample_addresses {| lo := 1; hi := 1 |} {| lo := 1; hi := 5 |}
           {| lo := 1; hi := 50 |} {| lo := 1; hi := 9 |} 1 2 0 tape_late
           late_refund Hin).
Defined.

Lemma payment_status_follows_outcome_witness :
  canceled_order
  ∈ orders_rows (emitted (sample_run one_order_config tape_canceled))
  /\ (exists e,
         e ∈ events_rows (emitted (sample_run one_order_config tape_canceled))
         /\ e_order_id e = o_order_id canceled_order
         /\ (e_status e = "DELIVERED" \/ e_status e = "CANCELED"))
  /\ (forall e,
         e ∈ events_rows (emitted (sample_run one_order_config tape_canceled)) ->
         e_order_id e = o_order_id canceled_order -> e_status e = "DELIVERED" ->
         o_payment_status canceled_order = "PAID"
         \/ (o_payment_status canceled_order = "REFUNDED"
             /\ exists r,
                 r ∈ refunds_rows
                       (emitted (sample_run one_order_config tape_canceled))
                 /\ r_order_id r = o_order_id canceled_order))
  /\ (forall e,
         e ∈ events_rows (emitted (sample_run one_order_config tape_canceled)) ->
         e_order_id e = o_order_id canceled_order -> e_status e = "CANCELED" ->
         (o_payment_status canceled_order = "FAILED"
          \/ o_payment_status canceled_order = "PENDING")
         /\ o_payment_status canceled_order <> "PAID"
         /\ o_payment_status canceled_order <> "REFUNDED").
Proof.
  assert (Hin : canceled_order
                ∈ orders_rows
                    (emitted (sample_run one_order_config tape_canceled)))
    by sample_row.
  split; [exact Hin|].
  exact (payment_status_follows_outcome one_order_config sample_now
           sample_addresses {| lo := 1; hi := 1 |} {| lo := 1; hi := 5 |}
           {| lo := 1; hi := 50 |} {| lo := 1; hi := 9 |} 1 2 0 tape_canceled
           canceled_order Hin).
Defined.

(** Under the module constants the window is valid, and with no address
    for the drawn customer the run still raises: the [KeyError] of the
    address lookup in the first iteration. *)
Lemma valid_window_run_raises :
  ~ end_ts module_config sample_now <= start_ts module_config sample_now
  /\ raised (populate_orders_related module_config sample_now ∅
               {| lo := 1; hi := 1 |} {| lo := 1; hi := 5 |}
               {| lo := 1; hi := 50 |} {| lo := 1; hi := 9 |} 1 2 0 tape_late)
     = Some (KeyError 1).
Proof.
  split; [vm_compute; intros Hle; apply Hle; reflexivity|].
  vm_compute. reflexivity.
Qed.

(** The sample inputs are reference data in order. *)
Example sample_reference_data_ok :
  reference_data_ok sample_addresses {| lo := 1; hi := 1 |}
    {| lo := 1; hi := 5 |} {| lo := 1; hi := 50 |} {| lo := 1; hi := 9 |}.
Proof.
  repeat (split; [cbn; lia|]). cbn. intros c Hc.
  assert (c = 1) as -> by lia. eexists. split; [reflexivity | discriminate].
Qed.

(** A window that ends where it starts: the run raises at once. *)
Example zero_window_run :
  sample_run {| cfg_n_orders := N_ORDERS; cfg_chunk_rows := CHUNK_ROWS;
                cfg_orders_days := 0; cfg_safety_buffer_hours := 0 |}
    tape_late
  = {| flushed := []; raised := Some (ValueError invalid_window_msg) |}.
Proof. reflexivity. Qed.

(** Three outlets drawn from a tape on which the second and the third
    repeat the key of the first: the names are drawn again until the key
    is new. *)
Example outlets_with_collisions :
  (fun r => (outlet_key <$> r.1, r.2))
    (outlets_loop 5 3 sample_now 1 3 ∅
       [1; 2; 3; 4; 5; 6; 7; 8; 9;
        1; 2; 3; 4; 5; 6; 7; 8; 9; 77;
        1; 2; 3; 4; 5; 6; 7; 8; 9; 5; 77; 78])
  = ([(2, "Outlet 6", "Perth", "Z5"); (2, "Outlet 78", "Perth", "Z5");
      (2, "Outlet 79", "Perth", "Z5")], Exhausted).
Proof. vm_compute. reflexivity. Qed.

(** On a source that repeats itself the retry loop never ends: the run
    of [gen_outlets] yields the first row and spins. *)
Example outlets_spinning :
  (fun r => (outlet_key <$> r.1, r.2)) (gen_outlets 50 sample_now 1 3 [])
  = ([(1, "Outlet 1", "Sydney", "Z1")], Spinning).
Proof. vm_compute. reflexivity. Qed.

(** * Further properties of the timelines *)

Lemma ensure_after_cases (now ts prev : Z) :
  (prev < ts /\ ensure_after now ts prev = ts)
  \/ (ts <= prev /\ ensure_after now ts prev = clamp now (prev + Time.minutes 1)).
Proof.
  unfold ensure_after. destruct (Z.leb_spec ts prev); [right|left]; lia.
Qed.

(** A step of the repair pass on timestamps that are not clamped:
    the timestamp is kept, or it is replaced by a variable known to be
    its predecessor plus one minute. *)
Ltac repair_exact now :=
  match goal with
  | |- context [ensure_after now ?ts ?prev] =>
      lazymatch prev with
      | context [ensure_after] => fail
      | _ => idtac
      end;
      first
        [ rewrite (ensure_after_keep now ts prev)
            by (unfold latest_allowed, Time.minutes, Time.second in *; lia)
        | let e := fresh "e" in
          let He := fresh "He" in
          pose proof (ensure_after_cases now ts prev) as He;
          rewrite (clamp_noop now (prev + Time.minutes 1)) in He
            by (unfold latest_allowed, Time.minutes, Time.second in *; lia);
          set (e := ensure_after now ts prev) in *; clearbody e ]
  end.

Section TimelineExtras.

Context {rng : Type} `{RandomSource rng}.

Lemma ensure_after_pinned (now ts prev : Z) :
  ts <= latest_allowed now -> prev <= latest_allowed now ->
  prev < ensure_after now ts prev
  \/ (prev = ensure_after now ts prev
      /\ ensure_after now ts prev = latest_allowed now).
Proof.
  unfold ensure_after, clamp, Time.minutes, Time.second.
  destruct (Z.leb_spec ts prev);
    destruct (Z.leb_spec (prev + 1 * (60 * 1000000)) (latest_allowed now)); lia.
Qed.

Lemma ensure_after_first (now ts prev : Z) :
  ts <= latest_allowed now ->
  prev < ensure_after now ts prev
  \/ ensure_after now ts prev = latest_allowed now.
Proof.
  unfold ensure_after, clamp, Time.minutes, Time.second.
  destruct (Z.leb_spec ts prev);
    destruct (Z.leb_spec (prev + 1 * (60 * 1000000)) (latest_allowed now)); lia.
Qed.

Lemma ensure_after_le_latest (now ts prev : Z) :
  ts <= latest_allowed now -> ensure_after now ts prev <= latest_allowed now.
Proof. apply ensure_after_spec. Qed.

(** A delivered order placed at least 108 minutes before [now]. *)
Lemma delivered_unclamped_run (placed_at now : Z) (g g' : rng) tl :
  placed_at + Time.minutes 108 <= now ->
  build_order_timeline_delivered placed_at now g = Ok (tl, g') ->
  exists t1 t2 t3 t4,
    td_events tl
    = [ (placed_at, "PLACED", "CUSTOMER"); (t1, "ACCEPTED", "RESTAURANT");
        (t2, "PREP_START", "RESTAURANT");
        (t3, "READY_FOR_PICKUP", "RESTAURANT"); (t4, "PICKED_UP", "COURIER");
        (td_delivered_ts tl, "DELIVERED", "SYSTEM") ]
    /\ strictly_increasing
         [ placed_at; t1; t2; t3; td_assigned_at tl; td_pickup_eta tl; t4;
           td_dropoff_eta tl; td_delivered_ts tl ]
    /\ placed_at + Time.minutes 30 <= td_delivered_ts tl
       <= placed_at + Time.minutes 107.
Proof.
  intros Hplaced Hrun. revert Hrun.
  unfold build_order_timeline_delivered. intros Hrun.
  bind_inv Hrun d1 g1 E1. bind_inv Hrun d2 g2 E2. bind_inv Hrun d3 g3 E3.
  bind_inv Hrun d4 g4 E4. bind_inv Hrun d5 g5 E5. bind_inv Hrun d6 g6 E6.
  bind_inv Hrun d7 g7 E7. bind_inv Hrun d8 g8 E8.
  apply gret_Ok in Hrun as [-> _].
  apply randint_Ok in E1, E2, E3, E4, E5, E6, E7, E8.
  eexists _, _, _, _. split; [reflexivity|].
  cbn [td_events td_assigned_at td_pickup_eta td_dropoff_eta td_delivered_ts
       strictly_increasing].
  rewrite !clamp_noop
    by (unfold latest_allowed, Time.minutes, Time.second in *; lia).
  do 8 repair_exact now.
  unfold latest_allowed, Time.minutes, Time.second in *. lia.
Qed.

(** X1. An order placed at least 108 minutes before [now] is never
    clamped: the nine timestamps of a delivered order, the three of
    the delivery assignment among them, increase strictly, and the
    delivery falls between 30 and 107 minutes after the placement. *)
Theorem delivered_timeline_unclamped (placed_at now : Z) (g : rng) :
  placed_at + Time.minutes 108 <= now ->
  exists tl g' t1 t2 t3 t4,
    build_order_timeline_delivered placed_at now g = Ok (tl, g')
    /\ td_events tl
       = [ (placed_at, "PLACED", "CUSTOMER"); (t1, "ACCEPTED", "RESTAURANT");
           (t2, "PREP_START", "RESTAURANT");
           (t3, "READY_FOR_PICKUP", "RESTAURANT"); (t4, "PICKED_UP", "COURIER");
           (td_delivered_ts tl, "DELIVERED", "SYSTEM") ]
    /\ strictly_increasing
         [ placed_at; t1; t2; t3; td_assigned_at tl; td_pickup_eta tl; t4;
           td_dropoff_eta tl; td_delivered_ts tl ]
    /\ placed_at + Time.minutes 30 <= td_delivered_ts tl
       <= placed_at + Time.minutes 107.
Proof.
  intros Hplaced.
  destruct (delivered_total placed_at now g) as (tl & g' & Hrun).
  destruct (delivered_unclamped_run _ _ _ _ _ Hplaced Hrun)
    as (t1 & t2 & t3 & t4 & Hev & Hinc & Hb).
  exists tl, g', t1, t2, t3, t4.
  split; [exact Hrun|]. split; [exact Hev|]. split; [exact Hinc | exact Hb].
Qed.

Lemma ensure_after_ge (now ts prev : Z) :
  ts <= latest_allowed now -> prev <= latest_allowed now ->
  prev <= ensure_after now ts prev.
Proof.
  intros Hts Hprev. destruct (ensure_after_pinned now ts prev Hts Hprev); lia.
Qed.

(** The assignment timestamps of a delivered order, wherever it was
    placed: in order and not after the delivery or the clamp bound. *)
Lemma delivered_assignment_run (placed_at now : Z) (g g' : rng) tl :
  build_order_timeline_delivered placed_at now g = Ok (tl, g') ->
  td_assigned_at tl <= td_pickup_eta tl
  /\ td_pickup_eta tl <= td_dropoff_eta tl
  /\ td_dropoff_eta tl <= td_delivered_ts tl
  /\ td_delivered_ts tl <= latest_allowed now.
Proof.
  unfold build_order_timeline_delivered. intros Hrun.
  bind_inv Hrun d1 g1 E1. bind_inv Hrun d2 g2 E2. bind_inv Hrun d3 g3 E3.
  bind_inv Hrun d4 g4 E4. bind_inv Hrun d5 g5 E5. bind_inv Hrun d6 g6 E6.
  bind_inv Hrun d7 g7 E7. bind_inv Hrun d8 g8 E8.
  apply gret_Ok in Hrun as [-> _].
  cbn [td_assigned_at td_pickup_eta td_dropoff_eta td_delivered_ts].
  assert (Hle : forall ts prev,
             ensure_after now (clamp now ts) prev <= latest_allowed now)
    by (intros; apply ensure_after_le_latest, clamp_le_latest).
  assert (Hge : forall ts ts' prev,
             ensure_after now (clamp now ts') prev
             <= ensure_after now (clamp now ts)
                  (ensure_after now (clamp now ts') prev))
    by (intros; apply ensure_after_ge; [apply clamp_le_latest | apply Hle]).
  split; [apply Hge|]. split; [|split; [apply Hge | apply Hle]].
  eapply Z.le_trans; [|apply Hge]. apply Hge.
Qed.

(** A canceled order placed before the clamp bound. *)
Lemma canceled_increasing_before (placed_at now : Z) (g g' : rng) tl :
  placed_at < latest_allowed now ->
  build_order_timeline_canceled placed_at now g = Ok (tl, g') ->
  placed_at < tc_canceled_ts tl.
Proof.
  unfold build_order_timeline_canceled. intros Hplaced Hrun.
  bind_inv Hrun d1 g1 E1. apply gret_Ok in Hrun as [-> _].
  apply randint_Ok in E1. cbn [tc_canceled_ts].
  unfold latest_allowed, Time.minutes, Time.second in *.
  repeat match goal with
         | |- context [Z.ltb ?a ?b] => destruct (Z.ltb_spec a b)
         | |- context [Z.leb ?a ?b] => destruct (Z.leb_spec a b)
         end; lia.
Qed.


(** X3. The two timestamps of a canceled order increase strictly
    exactly when the order was placed before [now] minus one minute;
    an order placed later has its CANCELED event at that bound, not
    after its PLACED event. *)
Theorem canceled_timeline_increasing_iff (placed_at now : Z) (g : rng) :
  exists tl g',
    build_order_timeline_canceled placed_at now g = Ok (tl, g')
    /\ (strictly_increasing (event_times (tc_events tl))
        <-> placed_at < latest_allowed now)
    /\ (latest_allowed now <= placed_at ->
        tc_canceled_ts tl = latest_allowed now).
Proof.
  destruct (canceled_total placed_at now g) as (tl & g' & Hrun).
  exists tl, g'. split; [exact Hrun|].
  rewrite (canceled_shape _ _ _ _ _ Hrun).
  cbn [event_times fmap list_fmap fst strictly_increasing].
  revert Hrun. unfold build_order_timeline_canceled. intros Hrun.
  bind_inv Hrun d1 g1 E1. apply gret_Ok in Hrun as [-> _].
  apply randint_Ok in E1. cbn [tc_canceled_ts].
  unfold latest_allowed, Time.minutes, Time.second in *.
  repeat match goal with
         | |- context [Z.ltb ?a ?b] => destruct (Z.ltb_spec a b)
         | |- context [Z.leb ?a ?b] => destruct (Z.leb_spec a b)
         end; lia.
Qed.

(** X4. Whenever the order was placed, the timestamps of a delivered
    order after PLACED never go backwards: two consecutive ones
    increase strictly or coincide at [now] minus one minute, and the
    first of them is after PLACED or at that bound. *)
Theorem delivered_timeline_increasing_or_pinned (placed_at now : Z) (g : rng) :
  exists tl g' t1 t2 t3 t4,
    build_order_timeline_delivered placed_at now g = Ok (tl, g')
    /\ td_events tl
       = [ (placed_at, "PLACED", "CUSTOMER"); (t1, "ACCEPTED", "RESTAURANT");
           (t2, "PREP_START", "RESTAURANT");
           (t3, "READY_FOR_PICKUP", "RESTAURANT"); (t4, "PICKED_UP", "COURIER");
           (td_delivered_ts tl, "DELIVERED", "SYSTEM") ]
    /\ (placed_at < t1 \/ t1 = latest_allowed now)
    /\ increasing_or_pinned (latest_allowed now)
         [ t1; t2; t3; td_assigned_at tl; td_pickup_eta tl; t4;
           td_dropoff_eta tl; td_delivered_ts tl ].
Proof.
  destruct (delivered_total placed_at now g) as (tl & g' & Hrun).
  exists tl, g'. pose proof Hrun as Hrun0. revert Hrun.
  unfold build_order_timeline_delivered. intros Hrun.
  bind_inv Hrun d1 g1 E1. bind_inv Hrun d2 g2 E2. bind_inv Hrun d3 g3 E3.
  bind_inv Hrun d4 g4 E4. bind_inv Hrun d5 g5 E5. bind_inv Hrun d6 g6 E6.
  bind_inv Hrun d7 g7 E7. bind_inv Hrun d8 g8 E8.
  apply gret_Ok in Hrun as [-> _].
  eexists _, _, _, _. split; [exact Hrun0|]. split; [reflexivity|].
  cbn [td_events td_assigned_at td_pickup_eta td_dropoff_eta td_delivered_ts
       increasing_or_pinned].
  split; [apply ensure_after_first, clamp_le_latest|].
  repeat split;
    (apply ensure_after_pinned;
     [apply clamp_le_latest | apply ensure_after_le_latest, clamp_le_latest]).
Qed.

End TimelineExtras.

Section PartFacts.

Context {rng : Type} `{RandomSource rng}.
Import Money MoneyFacts.
Variable menu_range : id_range.
Variables aud_id inr_id : Z.

Lemma on_grid_5 : on_grid 2 (5 # 1).
Proof. exists 500%Z. reflexivity. Qed.

Lemma on_grid_35 : on_grid 2 (35 # 1).
Proof. exists 3500%Z. reflexivity. Qed.

Lemma items_loop_inv (count : nat) :
  forall items subtotal (g g' : rng) items' subtotal',
    items_loop menu_range count items subtotal g = Ok ((items', subtotal'), g') ->
    exists new,
      items' = items ++ new /\ length new = count
      /\ Forall (item_ok menu_range) new
      /\ subtotal' = sum_line_totals new subtotal.
Proof.
  induction count as [|count IH];
    intros items subtotal g g' items' subtotal' Hrun; cbn [items_loop] in Hrun.
  - apply gret_Ok in Hrun as [Heq _]. injection Heq as -> ->.
    exists []. rewrite app_nil_r. repeat split. constructor.
  - bind_inv Hrun m g1 E1. bind_inv Hrun qty g2 E2. bind_inv Hrun p g3 E3.
    apply randint_Ok in E1, E2. apply uniform_Ok in E3 as (r & Hr0 & Hr1 & ->).
    apply IH in Hrun as (new & -> & Hlen & Hall & ->).
    eexists (_ :: new). rewrite <- app_assoc. split; [reflexivity|].
    split; [cbn; lia|]. split; [|reflexivity].
    constructor; [|exact Hall]. unfold item_ok. cbn [fst snd].
    split; [exact E1|]. split; [exact E2|].
    split; [apply qround2_ge_grid; [apply on_grid_5 | nra]|].
    split; [apply qround2_le_grid; [apply on_grid_35 | nra]|].
    split; [apply qround_on_grid | reflexivity].
Qed.

Lemma refund_part_detail (order_id delivered_ts : Z) (total : Q)
    (country status : string) (g g' : rng) refunds status' :
  (0 <= total)%Q ->
  refund_part aud_id inr_id order_id delivered_ts total country status g
  = Ok ((refunds, status'), g') ->
  refund_detail order_id delivered_ts total refunds.
Proof.
  intros Hnn Hrun. unfold refund_part in Hrun.
  bind_inv Hrun r g1 E1.
  destruct (Qltb r (35 # 1000)).
  - bind_inv Hrun m g2 E2. bind_inv Hrun u g3 E3. bind_inv Hrun reason g4 E4.
    bind_inv Hrun r1 g5 E5.
    apply gret_Ok in Hrun as [Heq _]. injection Heq as -> ->.
    apply randint_Ok in E2. apply uniform_Ok in E3 as (r2 & Hr0 & Hr1 & ->).
    apply choice_Ok in E4.
    right. eexists. split; [reflexivity|].
    cbn [r_order_id r_refund_ts r_refund_reason r_refund_amount].
    split; [reflexivity|].
    split; [unfold Time.minutes, Time.second; lia|].
    split; [exact E4|].
    assert (Hp : (0 <= total * r2)%Q) by (apply Qmult_le_0_compat; assumption).
    assert (Hq : (total * r2 <= total)%Q).
    { rewrite <- (Qmult_1_r total) at 2.
      apply Qmult_le_compat_nonneg; split; lra. }
    split; apply qround_mono; lra.
  - apply gret_Ok in Hrun as [Heq _]. injection Heq as -> ->. left. reflexivity.
Qed.

Lemma rating_part_detail (order_id customer_id delivered_ts : Z)
    (g g' : rng) ratings :
  rating_part order_id customer_id delivered_ts g = Ok (ratings, g') ->
  rating_detail order_id customer_id delivered_ts ratings.
Proof.
  unfold rating_part. intros Hrun. bind_inv Hrun r g1 E1.
  destruct (Qltb r (55 # 100)).
  - bind_inv Hrun m g2 E2. bind_inv Hrun rr g3 E3. bind_inv Hrun r1 g4 E4.
    bind_inv Hrun cr g5 E5. bind_inv Hrun r2 g6 E6.
    apply gret_Ok in Hrun as [-> _]. apply randint_Ok in E2, E3.
    right. eexists. split; [reflexivity|].
    cbn [g_order_id g_customer_id g_restaurant_rating g_courier_rating
         g_comment g_created_at].
    split; [reflexivity|]. split; [reflexivity|]. split; [exact E3|].
    split; [|split; [|unfold Time.minutes, Time.second; lia]].
    + destruct (Qltb r1 (85 # 100)).
      * bind_inv E5 c g7 E7. apply gret_Ok in E5 as [-> _].
        apply randint_Ok in E7. right. exists c. split; [reflexivity|exact E7].
      * apply gret_Ok in E5 as [-> _]. left. reflexivity.
    + destruct (Qltb r2 (75 # 100)); [left|right]; reflexivity.
  - apply gret_Ok in Hrun as [-> _]. left. reflexivity.
Qed.

End PartFacts.

Section BodyParts.

Context {rng : Type} `{RandomSource rng}.
Import Money MoneyFacts.
Variables (cfg : config) (now : Z).
Variable address_map : gmap Z (list (Z * string * string)).
Variables cust_range outlet_range menu_range courier_range : id_range.
Variables aud_id inr_id : Z.

Lemma on_grid_1 : on_grid 2 (1 # 1).
Proof. exists 100%Z. reflexivity. Qed.

Lemma on_grid_8 : on_grid 2 (8 # 1).
Proof. exists 800%Z. reflexivity. Qed.

Lemma sum_line_totals_nonneg (items : list (Z * Z * Q * Q)) :
  Forall (item_ok menu_range) items ->
  forall start, (0 <= start)%Q -> (0 <= sum_line_totals items start)%Q.
Proof.
  unfold sum_line_totals. induction 1 as [|it items Hit _ IH]; intros start Hs.
  - exact Hs.
  - cbn [fold_left]. apply IH.
    destruct Hit as (_ & Hq & Hp & _ & _ & Hl). rewrite Hl.
    assert (Hq' : (0 <= inject_Z (snd (fst (fst it))))%Q).
    { change 0%Q with (inject_Z 0). rewrite <- Zle_Qle. lia. }
    assert (Hp' : (0 <= snd (fst it))%Q) by lra.
    pose proof (qround2_nonneg _ (Qmult_le_0_compat _ _ Hq' Hp')). lra.
Qed.

(** One iteration of the order loop, taken apart. *)
Lemma order_body_parts (order_id : Z) (g g' : rng) (b : batch) :
  start_ts cfg now < end_ts cfg now ->
  order_body cfg now address_map cust_range outlet_range menu_range
    courier_range aud_id inr_id order_id g = Ok (b, g') ->
  bundle_detail cfg now address_map cust_range outlet_range menu_range
    courier_range aud_id inr_id order_id b.
Proof.
  unfold order_body. intros Hwin Hrun.
  bind_inv Hrun customer_id g1 E1. bind_inv Hrun addrs g2 E2.
  bind_inv Hrun a g3 E3. destruct a as [[address_id addr_city] addr_country].
  bind_inv Hrun restaurant_id g4 E4. bind_inv Hrun secs g5 E5.
  bind_inv Hrun n_items g6 E6. bind_inv Hrun it g7 E7.
  destruct it as [items subtotal0].
  bind_inv Hrun tr g8 E8. bind_inv Hrun df g9 E9. bind_inv Hrun du g10 E10.
  bind_inv Hrun payment_method g11 E11. bind_inv Hrun dr g12 E12.
  bind_inv Hrun rest g13 E13. destruct rest as [payment_status dependents].
  apply gret_Ok in Hrun as [-> _].
  apply randint_Ok in E1, E4, E5, E6.
  unfold address_lookup in E2.
  destruct (address_map !! customer_id) as [addrs0|] eqn:Hlook; [|discriminate].
  apply gret_Ok in E2 as [-> _]. apply choice_Ok in E3, E11.
  apply items_loop_inv in E7 as (new & Hitems & Hlen & Hall & Hsum).
  cbn [app] in Hitems. subst items subtotal0.
  pose proof (sum_line_totals_nonneg new Hall 0%Q ltac:(lra)) as Hs0.
  apply uniform_Ok in E8 as (rt & Hrt0 & Hrt1 & ->).
  apply uniform_Ok in E9 as (rf & Hrf0 & Hrf1 & ->).
  apply uniform_Ok in E10 as (rd & Hrd0 & Hrd1 & ->).
  pose proof (money_facts _ rt rf rd Hs0 Hrt0 Hrf0 Hrd0 Hrd1)
    as (_ & _ & Htot & _).
  cbv zeta in Htot.
  set (s := qround (sum_line_totals new 0%Q) 2) in *.
  assert (Hs : (0 <= s)%Q) by (apply qround2_nonneg; exact Hs0).
  assert (Hsr : (0 <= s * rt)%Q) by (apply Qmult_le_0_compat; assumption).
  assert (Hsr1 : (s * rt <= s)%Q).
  { rewrite <- (Qmult_1_r s) at 2. apply Qmult_le_compat_nonneg; split; lra. }
  assert (Htax1 : (qround (s * (5 # 100)) 2
                   <= qround (s * ((5 # 100) + ((12 # 100) - (5 # 100)) * rt)) 2)%Q)
    by (apply qround_mono; lra).
  assert (Htax2 : (qround (s * ((5 # 100) + ((12 # 100) - (5 # 100)) * rt)) 2
                   <= qround (s * (12 # 100)) 2)%Q)
    by (apply qround_mono; lra).
  assert (Hfee1 : (1 # 1 <= qround ((1 # 1) + ((8 # 1) - (1 # 1)) * rf) 2)%Q)
    by (apply qround2_ge_grid; [apply on_grid_1 | lra]).
  assert (Hfee2 : (qround ((1 # 1) + ((8 # 1) - (1 # 1)) * rf) 2 <= 8 # 1)%Q)
    by (apply qround2_le_grid; [apply on_grid_8 | lra]).
  assert (Hn : (1 <= length new <= 5)%nat) by lia.
  assert (Hdis : (0 <= qround
                        (py_min (py_max 0 (s + qround
                           (s * ((5 # 100) + ((12 # 100) - (5 # 100)) * rt)) 2
                           + qround ((1 # 1) + ((8 # 1) - (1 # 1)) * rf) 2))
                           (0 + (s * (20 # 100) - 0) * rd)) 2)%Q).
  { apply qround2_nonneg. unfold py_min, py_max.
    assert (Hsd : (0 <= s * rd)%Q) by (apply Qmult_le_0_compat; assumption).
    repeat match goal with
           | |- context [Qltb ?a ?b] =>
               let E := fresh "E" in
               destruct (Qltb a b) eqn:E;
               [apply Qltb_lt in E | apply Qltb_ge in E]
           end; lra. }
  unfold bundle_detail.
  destruct (Qltb dr (92 # 100)).
  - bind_inv E13 timeline g14 E14. bind_inv E13 courier_id g15 E15.
    bind_inv E13 rf0 g16 E16. destruct rf0 as [refunds status'].
    bind_inv E13 ratings g17 E17.
    apply gret_Ok in E13 as [Heq _]. injection Heq as -> ->.
    apply randint_Ok in E15.
    apply refund_part_detail in E16; [|exact Htot].
    apply rating_part_detail in E17.
    eexists _, new, (td_events timeline), addrs0, addr_city, addr_country.
    unfold batch_app.
    cbn [orders_rows order_items_rows events_rows assignments_rows
         refunds_rows ratings_rows app].
    rewrite !app_nil_r.
    do 3 (split; [reflexivity|]).
    cbn [o_order_id o_customer_id o_delivery_address_id o_currency_id
         o_restaurant_id o_scheduled_delivery o_payment_method o_subtotal
         o_tax o_delivery_fee o_discount o_order_placed_at].
    split; [reflexivity|]. split; [exact E1|]. split; [exact Hlook|].
    split; [exact E3|]. split; [reflexivity|]. split; [exact E4|].
    split; [exists secs; split; [exact E5 | reflexivity]|].
    split; [reflexivity|]. split; [exact E11|]. split; [exact Hn|].
    split; [exact Hall|]. split; [reflexivity|]. split; [exact Htax1|].
    split; [exact Htax2|]. split; [exact Hfee1|]. split; [exact Hfee2|].
    split; [exact Hdis|]. do 3 (split; [apply qround_on_grid|]).
    left. unfold delivered_detail.
    cbn [o_order_placed_at o_order_id o_customer_id o_total_amount
         assignments_rows refunds_rows ratings_rows].
    eexists timeline, g12, g14, _.
    split; [exact E14|]. split; [reflexivity|]. split; [reflexivity|].
    cbn [s_order_id s_courier_id s_assigned_at s_pickup_eta s_dropoff_eta].
    split; [reflexivity|]. split; [exact E15|].
    do 3 (split; [reflexivity|]). split; [exact E16 | exact E17].
  - bind_inv E13 status' g14 E14. bind_inv E13 timeline g15 E15.
    apply gret_Ok in E13 as [Heq _]. injection Heq as -> ->.
    eexists _, new, (tc_events timeline), addrs0, addr_city, addr_country.
    unfold batch_app.
    cbn [orders_rows order_items_rows events_rows assignments_rows
         refunds_rows ratings_rows app].
    rewrite !app_nil_r.
    do 3 (split; [reflexivity|]).
    cbn [o_order_id o_customer_id o_delivery_address_id o_currency_id
         o_restaurant_id o_scheduled_delivery o_payment_method o_subtotal
         o_tax o_delivery_fee o_discount o_order_placed_at].
    split; [reflexivity|]. split; [exact E1|]. split; [exact Hlook|].
    split; [exact E3|]. split; [reflexivity|]. split; [exact E4|].
    split; [exists secs; split; [exact E5 | reflexivity]|].
    split; [reflexivity|]. split; [exact E11|]. split; [exact Hn|].
    split; [exact Hall|]. split; [reflexivity|]. split; [exact Htax1|].
    split; [exact Htax2|]. split; [exact Hfee1|]. split; [exact Hfee2|].
    split; [exact Hdis|]. do 3 (split; [apply qround_on_grid|]).
    right. unfold canceled_detail.
    cbn [o_order_placed_at assignments_rows refunds_rows ratings_rows].
    exists timeline, g14, g15.
    split; [exact E15|]. repeat split; reflexivity.
Qed.

End BodyParts.

(** * The batches of a run *)

Lemma bconcat_snoc (bs : list batch) (b : batch) :
  bconcat (bs ++ [b]) = batch_app (bconcat bs) b.
Proof.
  unfold bconcat. rewrite bconcat_app. cbn. rewrite batch_app_empty_r.
  reflexivity.
Qed.

Lemma bconcat_orders_length (bs : list batch) :
  Forall (fun b => length (orders_rows b) = 1%nat) bs ->
  length (orders_rows (bconcat bs)) = length bs.
Proof.
  induction 1 as [|b bs Hb _ IH]; [reflexivity|].
  change (bconcat (b :: bs)) with (batch_app b (bconcat bs)).
  unfold batch_app at 1. cbn [orders_rows].
  rewrite length_app, Hb, IH. reflexivity.
Qed.

Lemma bconcat_concat (groups : list (list batch)) :
  bconcat (bconcat <$> groups) = bconcat (concat groups).
Proof.
  induction groups as [|grp groups IH]; [reflexivity|].
  cbn [fmap list_fmap concat]. unfold bconcat at 1. cbn [foldr].
  fold (bconcat (bconcat <$> groups)). rewrite IH.
  unfold bconcat. rewrite bconcat_app. reflexivity.
Qed.

Section LoopGroups.

Context {rng : Type} `{RandomSource rng}.
Variables (cfg : config) (now : Z).
Variable address_map : gmap Z (list (Z * string * string)).
Variables cust_range outlet_range menu_range courier_range : id_range.
Variables aud_id inr_id : Z.
Variable base_order_id : Z.

Variable P : Z -> batch -> Prop.
Hypothesis P_body :
  forall order_id (g g' : rng) b,
    order_body cfg now address_map cust_range outlet_range menu_range
      courier_range aud_id inr_id order_id g = Ok (b, g') ->
    P order_id b.
Hypothesis P_one : forall order_id b, P order_id b -> length (orders_rows b) = 1%nat.

#[local] Abbreviation indexed := (indexed_by P base_order_id).

Lemma indexed_one (bs : list batch) :
  indexed bs -> Forall (fun b => length (orders_rows b) = 1%nat) bs.
Proof.
  intros Hbs. apply Forall_lookup. intros k b Hk. eapply P_one, Hbs, Hk.
Qed.

Lemma indexed_snoc (bs : list batch) (b : batch) :
  indexed bs -> P (base_order_id + Z.of_nat (length bs) + 1) b ->
  indexed (bs ++ [b]).
Proof.
  intros Hbs Hb k b' Hk. apply lookup_app_Some in Hk as [Hk|[Hlen Hk]].
  - apply Hbs, Hk.
  - apply list_lookup_singleton_Some in Hk as [Hk ->].
    replace k with (length bs) by lia. exact Hb.
Qed.

Lemma indexed_prefix (bs1 bs2 : list batch) : indexed (bs1 ++ bs2) -> indexed bs1.
Proof. intros Hbs k b Hk. apply Hbs, lookup_app_l_Some, Hk. Qed.

#[local] Abbreviation loop :=
  (orders_loop cfg now address_map cust_range outlet_range menu_range
     courier_range aud_id inr_id base_order_id).

Lemma orders_loop_groups (count : nat) :
  forall i buf log (g : rng) (lgroups : list (list batch)) (pend : list batch),
    i = Z.of_nat (length (concat lgroups ++ pend)) ->
    log = bconcat <$> lgroups ->
    buf = bconcat pend ->
    indexed (concat lgroups ++ pend) ->
    Z.of_nat (length pend) < full_batch cfg ->
    Forall (fun grp => Z.of_nat (length grp) = full_batch cfg) lgroups ->
    exists full last,
      flushed (loop count i buf log g) = bconcat <$> (full ++ last)
      /\ indexed (concat (full ++ last))
      /\ Forall (fun grp => Z.of_nat (length grp) = full_batch cfg) full
      /\ (last = []
          \/ exists grp, last = [grp]
                         /\ 1 <= Z.of_nat (length grp) < full_batch cfg)
      /\ (length (concat (full ++ last))
          <= length (concat lgroups ++ pend) + count)%nat
      /\ (raised (loop count i buf log g) = None ->
          length (concat (full ++ last))
          = (length (concat lgroups ++ pend) + count)%nat)
      /\ (raised (loop count i buf log g) <> None -> last = []).
Proof.
  induction count as [|count IH];
    intros i buf log g lgroups pend Hi Hlog Hbuf Hbs Hpend Hfull.
  - cbn [orders_loop flushed raised].
    pose proof (indexed_one _ Hbs) as Hone.
    apply Forall_app in Hone as [_ Hone].
    pose proof (bconcat_orders_length pend Hone) as Hlen.
    rewrite <- Hbuf in Hlen.
    destruct (orders_rows buf) as [|o rows] eqn:Hrows.
    + assert (pend = []) as -> by (destruct pend; [reflexivity | discriminate]).
      exists lgroups, []. rewrite !app_nil_r in *.
      split; [exact Hlog|]. split; [exact Hbs|]. split; [exact Hfull|].
      split; [left; reflexivity|]. split; [lia|].
      split; [intros _; lia | intros Hr; destruct Hr; reflexivity].
    + exists lgroups, [pend].
      split; [rewrite fmap_app, Hlog, Hbuf; reflexivity|].
      rewrite concat_app. cbn [concat]. rewrite app_nil_r.
      split; [exact Hbs|]. split; [exact Hfull|].
      split; [right; exists pend; split; [reflexivity|cbn in Hlen; lia]|].
      split; [lia|].
      split; [intros _; lia | intros Hr; destruct Hr; reflexivity].
  - cbn [orders_loop].
    destruct (order_body _ _ _ _ _ _ _ _ _ _ g) as [[rows g']|e] eqn:Ebody.
    + apply P_body in Ebody.
      assert (Hbs' : indexed ((concat lgroups ++ pend) ++ [rows])).
      { apply indexed_snoc; [exact Hbs|]. rewrite <- Hi. exact Ebody. }
      assert (Hbuf' : batch_app buf rows = bconcat (pend ++ [rows])).
      { rewrite bconcat_snoc, Hbuf. reflexivity. }
      assert (Hlen : length (orders_rows (batch_app buf rows))
                     = S (length pend)).
      { rewrite Hbuf', bconcat_orders_length.
        - rewrite length_app. cbn. lia.
        - pose proof (indexed_one _ Hbs') as Hone.
          rewrite <- app_assoc in Hone.
          apply Forall_app in Hone as [_ Hone]. exact Hone. }
      rewrite Hlen.
      destruct (Z.leb_spec (cfg_chunk_rows cfg) (Z.of_nat (S (length pend))))
        as [Hflush|Hkeep].
      * destruct (IH (i + 1) empty_batch (log ++ [batch_app buf rows]) g'
                    (lgroups ++ [pend ++ [rows]]) [])
          as (full & last & Hfl & Hidx & Hfu & Hla & Hle & Hno & Hra).
        -- rewrite app_nil_r, concat_app. cbn [concat]. rewrite app_nil_r.
           rewrite !length_app in *. cbn. lia.
        -- rewrite fmap_app, Hlog, Hbuf'. reflexivity.
        -- reflexivity.
        -- rewrite app_nil_r, concat_app. cbn [concat]. rewrite app_nil_r.
           rewrite app_assoc. exact Hbs'.
        -- unfold full_batch. cbn. lia.
        -- apply Forall_app. split; [exact Hfull|]. constructor; [|constructor].
           rewrite length_app. cbn. unfold full_batch in *. lia.
        -- exists full, last. split; [exact Hfl|]. split; [exact Hidx|].
           split; [exact Hfu|]. split; [exact Hla|].
           assert (Hl : length (concat (lgroups ++ [pend ++ [rows]]) ++ [])
                        = S (length (concat lgroups ++ pend))).
           { rewrite app_nil_r, concat_app. cbn [concat].
             rewrite app_nil_r, !length_app. cbn. lia. }
           rewrite Hl in Hle, Hno.
           split; [lia|].
           split; [intros Hr; specialize (Hno Hr); lia | exact Hra].
      * destruct (IH (i + 1) (batch_app buf rows) log g' lgroups (pend ++ [rows]))
          as (full & last & Hfl & Hidx & Hfu & Hla & Hle & Hno & Hra).
        -- rewrite !length_app in *. cbn. lia.
        -- exact Hlog.
        -- exact Hbuf'.
        -- rewrite app_assoc. exact Hbs'.
        -- rewrite length_app. cbn. unfold full_batch. lia.
        -- exact Hfull.
        -- exists full, last. split; [exact Hfl|]. split; [exact Hidx|].
           split; [exact Hfu|]. split; [exact Hla|].
           assert (Hl : length (concat lgroups ++ pend ++ [rows])
                        = S (length (concat lgroups ++ pend))).
           { rewrite !length_app. cbn. lia. }
           rewrite Hl in Hle, Hno.
           split; [lia|].
           split; [intros Hr; specialize (Hno Hr); lia | exact Hra].
    + cbn [flushed raised]. exists lgroups, []. rewrite app_nil_r.
      split; [exact Hlog|]. split; [eapply indexed_prefix, Hbs|].
      split; [exact Hfull|]. split; [left; reflexivity|].
      rewrite length_app. split; [lia|].
      split; [discriminate | reflexivity].
Qed.

End LoopGroups.

(** * The rows of a run in detail *)

Lemma filter_id_all {A} (idf : A -> Z) (t : Z) (l : list A) :
  Forall (fun x => idf x = t) l -> filter (fun x => idf x = t) l = l.
Proof.
  induction 1 as [|x l Hx _ IH]; [reflexivity|].
  rewrite filter_cons_True by exact Hx. rewrite IH. reflexivity.
Qed.

Lemma filter_id_none {A} (idf : A -> Z) (t : Z) (l : list A) :
  Forall (fun x => idf x <> t) l -> filter (fun x => idf x = t) l = [].
Proof.
  induction 1 as [|x l Hx _ IH]; [reflexivity|].
  rewrite filter_cons_False by exact Hx. exact IH.
Qed.

(** The rows of one order among the rows of consecutive bundles. *)
Lemma filter_bconcat {A} (f : batch -> list A) (idf : A -> Z) :
  (forall a b, f (batch_app a b) = f a ++ f b) -> f empty_batch = [] ->
  forall (bs : list batch) (base : Z),
    (forall (k : nat) b, bs !! k = Some b ->
                         Forall (fun x => idf x = base + Z.of_nat k + 1) (f b)) ->
    forall (k : nat) b t,
      bs !! k = Some b -> t = base + Z.of_nat k + 1 ->
      filter (fun x => idf x = t) (f (bconcat bs)) = f b.
Proof.
  intros Happ Hnil bs. induction bs as [|b0 bs IH]; intros base Hids k b t Hk Ht.
  - discriminate.
  - change (bconcat (b0 :: bs)) with (batch_app b0 (bconcat bs)).
    rewrite Happ, filter_app. destruct k as [|k]; cbn in Hk.
    + injection Hk as ->. rewrite filter_id_all, filter_id_none.
      * apply app_nil_r.
      * apply Forall_forall. intros x Hx.
        apply (in_bconcat f Happ Hnil) in Hx as (j & b' & Hj & Hx).
        pose proof (Hids (S j) b' Hj) as Hall.
        rewrite Forall_forall in Hall. specialize (Hall x Hx). lia.
      * rewrite Ht. apply (Hids 0%nat b eq_refl).
    + rewrite filter_id_none.
      * cbn [app]. apply (IH (base + 1)) with (k := k); [|exact Hk|lia].
        intros j b' Hj. pose proof (Hids (S j) b' Hj) as Hall.
        eapply Forall_impl; [exact Hall|]. cbn. intros x Hx. lia.
      * pose proof (Hids 0%nat b0 eq_refl) as Hall.
        eapply Forall_impl; [exact Hall|]. cbn. intros x Hx. lia.
Qed.

Section RunDetail.

Context {rng : Type} `{RandomSource rng}.
Variables (cfg : config) (now : Z).
Variable address_map : gmap Z (list (Z * string * string)).
Variables cust_range outlet_range menu_range courier_range : id_range.
Variables aud_id inr_id : Z.
Variable base_order_id : Z.

#[local] Abbreviation run :=
  (populate_orders_related cfg now address_map cust_range outlet_range
     menu_range courier_range aud_id inr_id base_order_id).

#[local] Abbreviation full :=
  (bundle_full cfg now address_map cust_range outlet_range menu_range
     courier_range aud_id inr_id).

Lemma bundle_full_one order_id b : full order_id b -> length (orders_rows b) = 1%nat.
Proof. intros [(o & evs & Hrows & _) _]. rewrite Hrows. reflexivity. Qed.

(** The batches of a run are groups of consecutive bundles: all but the
    last of [full_batch] bundles, the last of fewer. *)
Lemma run_groups (g : rng) :
  exists groups last,
    flushed (run g) = bconcat <$> (groups ++ last)
    /\ indexed_by full base_order_id (concat (groups ++ last))
    /\ Forall (fun grp => Z.of_nat (length grp) = full_batch cfg) groups
    /\ (last = []
        \/ exists grp, last = [grp]
                       /\ 1 <= Z.of_nat (length grp) < full_batch cfg)
    /\ (length (concat (groups ++ last)) <= Z.to_nat (cfg_n_orders cfg))%nat
    /\ (raised (run g) = None ->
        length (concat (groups ++ last)) = Z.to_nat (cfg_n_orders cfg))
    /\ (raised (run g) <> None -> last = []).
Proof.
  unfold populate_orders_related.
  destruct (Z.leb_spec (end_ts cfg now) (start_ts cfg now)) as [Hbad|Hwin].
  - exists [], []. cbn. split; [reflexivity|].
    split; [intros k b Hk; discriminate|]. split; [constructor|].
    split; [left; reflexivity|]. split; [lia|].
    split; [discriminate | reflexivity].
  - destruct (orders_loop_groups cfg now address_map cust_range outlet_range
                menu_range courier_range aud_id inr_id base_order_id full
                (fun id g0 g1 b Hb =>
                   conj (order_body_inv _ _ _ _ _ _ _ _ _ _ _ _ _ Hb Hwin)
                        (order_body_parts _ _ _ _ _ _ _ _ _ _ _ _ _ Hwin Hb))
                bundle_full_one (Z.to_nat (cfg_n_orders cfg)) 0 empty_batch []
                g [] [])
      as (groups & last & Hfl & Hidx & Hfu & Hla & Hle & Hno & Hra);
      try reflexivity.
    + intros k b Hk. discriminate.
    + unfold full_batch. cbn. lia.
    + constructor.
    + exists groups, last. split; [exact Hfl|]. split; [exact Hidx|].
      split; [exact Hfu|]. split; [exact Hla|]. split; [exact Hle|].
      split; [exact Hno | exact Hra].
Qed.

(** The bundles of a run, the rows of each under the id of its order. *)
Lemma run_detail (g : rng) :
  exists bs,
    emitted (run g) = bconcat bs
    /\ indexed_by full base_order_id bs
    /\ (length bs <= Z.to_nat (cfg_n_orders cfg))%nat
    /\ (raised (run g) = None -> length bs = Z.to_nat (cfg_n_orders cfg)).
Proof.
  destruct (run_groups g)
    as (groups & last & Hfl & Hidx & _ & _ & Hle & Hno & _).
  exists (concat (groups ++ last)). unfold emitted. rewrite Hfl.
  split; [apply bconcat_concat|]. split; [exact Hidx|].
  split; [exact Hle | exact Hno].
Qed.

End RunDetail.

(** * The rows of one order *)

Lemma item_rows_ids (order_id : Z) (items : list (Z * Z * Q * Q)) :
  Forall (fun x => i_order_id x = order_id) (item_rows order_id items).
Proof.
  unfold item_rows. apply Forall_fmap, Forall_forall.
  intros [[[m q] p] t] _. reflexivity.
Qed.

Lemma event_rows_ids (order_id : Z) (evs : list (Z * string * string)) :
  Forall (fun x => e_order_id x = order_id) (event_rows order_id evs).
Proof.
  unfold event_rows. apply Forall_fmap, Forall_forall.
  intros [[ts st] ac] _. reflexivity.
Qed.

Lemma item_rows_ok (menu_range : id_range) (order_id : Z)
    (items : list (Z * Z * Q * Q)) :
  Forall (item_ok menu_range) items ->
  Forall (item_row_ok menu_range) (item_rows order_id items).
Proof.
  intros Hall. unfold item_rows. apply Forall_fmap.
  eapply Forall_impl; [exact Hall|]. intros [[[m q] p] t] Hit. exact Hit.
Qed.

Lemma item_rows_totals (order_id : Z) (items : list (Z * Z * Q * Q)) :
  forall start,
    fold_left (fun acc x => (acc + i_line_total x)%Q)
      (item_rows order_id items) start
    = sum_line_totals items start.
Proof.
  unfold sum_line_totals, item_rows.
  induction items as [|[[[m q] p] t] items IH]; intros start; [reflexivity|].
  cbn [fmap list_fmap fold_left]. apply IH.
Qed.

Lemma item_rows_length (order_id : Z) (items : list (Z * Z * Q * Q)) :
  length (item_rows order_id items) = length items.
Proof. unfold item_rows. apply length_fmap. Qed.

(** Naming the parts of a [bundle_detail]. *)
Ltac detail Hdet :=
  destruct Hdet
    as (o' & items & evs & addrs & city & country & Hrows' & Hitems & Hevs
        & Hid & Hcust & Hlook & Haddr & Hcur & Hout & Hsecs & Hsched & Hpm
        & Hlen & Hall & Hsub & Htax1 & Htax2 & Hfee1 & Hfee2 & Hdis
        & Hgtax & Hgfee & Hgdis & Hlife).

Section RunView.

Context {rng : Type} `{RandomSource rng}.
Variables (cfg : config) (now : Z).
Variable address_map : gmap Z (list (Z * string * string)).
Variables cust_range outlet_range menu_range courier_range : id_range.
Variables aud_id inr_id : Z.
Variable base_order_id : Z.

#[local] Abbreviation run :=
  (populate_orders_related cfg now address_map cust_range outlet_range
     menu_range courier_range aud_id inr_id base_order_id).

#[local] Abbreviation full :=
  (bundle_full cfg now address_map cust_range outlet_range menu_range
     courier_range aud_id inr_id).

Lemma bundle_rows_ids (order_id : Z) (b : batch) :
  full order_id b ->
  Forall (fun x => o_order_id x = order_id) (orders_rows b)
  /\ Forall (fun x => i_order_id x = order_id) (order_items_rows b)
  /\ Forall (fun x => e_order_id x = order_id) (events_rows b)
  /\ Forall (fun x => s_order_id x = order_id) (assignments_rows b)
  /\ Forall (fun x => r_order_id x = order_id) (refunds_rows b)
  /\ Forall (fun x => g_order_id x = order_id) (ratings_rows b).
Proof.
  intros [_ Hdet]. detail Hdet.
  split; [rewrite Hrows'; repeat constructor; exact Hid|].
  split; [rewrite Hitems; apply item_rows_ids|].
  split; [rewrite Hevs; apply event_rows_ids|].
  destruct Hlife
    as [(tl & g1 & g2 & a & _ & _ & Has & Haid & _ & _ & _ & _ & Hrf & Hrt)
       |(tl & g1 & g2 & _ & _ & Has & Hrf & Hrt)].
  - split; [rewrite Has; repeat constructor; congruence|].
    split.
    + destruct Hrf as [->|(r & -> & Hr & _)]; repeat constructor; congruence.
    + destruct Hrt as [->|(x & -> & Hx & _)]; repeat constructor; congruence.
  - rewrite Has, Hrf, Hrt. repeat split; constructor.
Qed.

Lemma bundle_self_contained (order_id : Z) (b : batch) :
  full order_id b -> self_contained b.
Proof.
  intros Hfull.
  destruct (bundle_rows_ids _ _ Hfull) as (_ & Hi & He & Hs & Hr & Hg).
  destruct Hfull as [_ Hdet]. detail Hdet.
  unfold self_contained. rewrite Hrows'. cbn [fmap list_fmap].
  rewrite Hid.
  repeat split;
    (eapply Forall_impl; [eassumption|]; cbn; intros x ->;
     apply list_elem_of_here).
Qed.

Lemma self_contained_app (a b : batch) :
  self_contained a -> self_contained b -> self_contained (batch_app a b).
Proof.
  unfold self_contained, batch_app.
  cbn [orders_rows order_items_rows events_rows assignments_rows refunds_rows
       ratings_rows].
  intros (Ha1 & Ha2 & Ha3 & Ha4 & Ha5) (Hb1 & Hb2 & Hb3 & Hb4 & Hb5).
  rewrite fmap_app.
  repeat split; apply Forall_app; split;
    (eapply Forall_impl; [eassumption|]; cbn; intros x Hx;
     apply elem_of_app; auto).
Qed.

Lemma self_contained_bconcat (bs : list batch) :
  Forall self_contained bs -> self_contained (bconcat bs).
Proof.
  induction 1 as [|b bs Hb _ IH].
  - unfold self_contained. cbn. repeat split; constructor.
  - change (bconcat (b :: bs)) with (batch_app b (bconcat bs)).
    apply self_contained_app; assumption.
Qed.

(** The rows of an order of a run are the rows of its bundle. *)
Lemma run_order_view (g : rng) (o : order_row) :
  o ∈ orders_rows (emitted (run g)) ->
  exists b,
    full (o_order_id o) b
    /\ orders_rows b = [o]
    /\ items_of (o_order_id o) (emitted (run g)) = order_items_rows b
    /\ events_of (o_order_id o) (emitted (run g)) = events_rows b
    /\ assignments_of (o_order_id o) (emitted (run g)) = assignments_rows b
    /\ refunds_of (o_order_id o) (emitted (run g)) = refunds_rows b
    /\ ratings_of (o_order_id o) (emitted (run g)) = ratings_rows b.
Proof.
  intros Ho.
  destruct (run_detail cfg now address_map cust_range outlet_range menu_range
              courier_range aud_id inr_id base_order_id g)
    as (bs & Hem & Hidx & _ & _).
  rewrite Hem in Ho |- *.
  apply (in_bconcat orders_rows) in Ho as (k & b & Hk & Ho);
    [|reflexivity|reflexivity].
  pose proof (Hidx k b Hk) as Hfull.
  assert (Hids : forall (j : nat) b', bs !! j = Some b' ->
                   full (base_order_id + Z.of_nat j + 1) b')
    by exact Hidx.
  pose proof Hfull as [_ Hdet]. detail Hdet.
  rewrite Hrows' in Ho. apply list_elem_of_singleton in Ho as ->.
  exists b. rewrite Hid. split; [exact Hfull|]. split; [exact Hrows'|].
  unfold items_of, events_of, assignments_of, refunds_of, ratings_of.
  split; [|split; [|split; [|split]]].
  - apply (filter_bconcat order_items_rows i_order_id)
      with (base := base_order_id) (k := k);
      [reflexivity|reflexivity| |exact Hk|reflexivity].
    intros j b' Hj. apply (bundle_rows_ids _ _ (Hids j b' Hj)).
  - apply (filter_bconcat events_rows e_order_id)
      with (base := base_order_id) (k := k);
      [reflexivity|reflexivity| |exact Hk|reflexivity].
    intros j b' Hj. apply (bundle_rows_ids _ _ (Hids j b' Hj)).
  - apply (filter_bconcat assignments_rows s_order_id)
      with (base := base_order_id) (k := k);
      [reflexivity|reflexivity| |exact Hk|reflexivity].
    intros j b' Hj. apply (bundle_rows_ids _ _ (Hids j b' Hj)).
  - apply (filter_bconcat refunds_rows r_order_id)
      with (base := base_order_id) (k := k);
      [reflexivity|reflexivity| |exact Hk|reflexivity].
    intros j b' Hj. apply (bundle_rows_ids _ _ (Hids j b' Hj)).
  - apply (filter_bconcat ratings_rows g_order_id)
      with (base := base_order_id) (k := k);
      [reflexivity|reflexivity| |exact Hk|reflexivity].
    intros j b' Hj. apply (bundle_rows_ids _ _ (Hids j b' Hj)).
Qed.

(** The closing part of the view: the lifecycle rows of an order of a
    run. *)
Lemma order_lifecycle_view (g : rng) (o : order_row) :
  o ∈ orders_rows (emitted (run g)) ->
  (exists tl (g1 g2 : rng) a t1 t2 t3 t4,
      build_order_timeline_delivered (o_order_placed_at o) now g1 = Ok (tl, g2)
      /\ td_events tl
         = [ (o_order_placed_at o, "PLACED", "CUSTOMER");
             (t1, "ACCEPTED", "RESTAURANT"); (t2, "PREP_START", "RESTAURANT");
             (t3, "READY_FOR_PICKUP", "RESTAURANT");
             (t4, "PICKED_UP", "COURIER");
             (td_delivered_ts tl, "DELIVERED", "SYSTEM") ]
      /\ events_of (o_order_id o) (emitted (run g))
         = event_rows (o_order_id o) (td_events tl)
      /\ assignments_of (o_order_id o) (emitted (run g)) = [a]
      /\ lo courier_range <= s_courier_id a <= hi courier_range
      /\ s_assigned_at a = td_assigned_at tl
      /\ s_pickup_eta a = td_pickup_eta tl
      /\ s_dropoff_eta a = td_dropoff_eta tl
      /\ refund_detail (o_order_id o) (td_delivered_ts tl) (o_total_amount o)
           (refunds_of (o_order_id o) (emitted (run g)))
      /\ rating_detail (o_order_id o) (o_customer_id o) (td_delivered_ts tl)
           (ratings_of (o_order_id o) (emitted (run g))))
  \/ (exists tl (g1 g2 : rng),
         build_order_timeline_canceled (o_order_placed_at o) now g1
         = Ok (tl, g2)
         /\ tc_events tl
            = [ (o_order_placed_at o, "PLACED", "CUSTOMER");
                (tc_canceled_ts tl, "CANCELED", "SYSTEM") ]
         /\ events_of (o_order_id o) (emitted (run g))
            = event_rows (o_order_id o) (tc_events tl)
         /\ assignments_of (o_order_id o) (emitted (run g)) = []
         /\ refunds_of (o_order_id o) (emitted (run g)) = []
         /\ ratings_of (o_order_id o) (emitted (run g)) = []).
Proof.
  intros Ho.
  destruct (run_order_view g o Ho)
    as (b & [_ Hdet] & Hrows & Hit & Hev & Has & Hrf & Hrt).
  detail Hdet. rewrite Hrows in Hrows'. injection Hrows' as <-.
  rewrite Hev, Has, Hrf, Hrt.
  destruct Hlife
    as [(tl & g1 & g2 & a & Hrun & -> & Ha & _ & Hc & Ha1 & Ha2 & Ha3 & Hr & Hx)
       |(tl & g1 & g2 & Hrun & -> & Ha & Hr & Hx)].
  - left. destruct (delivered_shape _ _ _ _ _ Hrun) as (t1 & t2 & t3 & t4 & Hsh).
    exists tl, g1, g2, a, t1, t2, t3, t4.
    split; [exact Hrun|]. split; [exact Hsh|]. split; [exact Hevs|].
    split; [exact Ha|]. split; [exact Hc|]. split; [exact Ha1|].
    split; [exact Ha2|]. split; [exact Ha3|]. split; [exact Hr | exact Hx].
  - right. exists tl, g1, g2. split; [exact Hrun|].
    split; [exact (canceled_shape _ _ _ _ _ Hrun)|]. split; [exact Hevs|].
    split; [exact Ha|]. split; [exact Hr | exact Hx].
Qed.

(** A dependent row of a run belongs to an order row of the run. *)
Lemma dependent_row_order {A} (f : batch -> list A) (idf : A -> Z)
    (g : rng) (x : A) :
  (forall a b, f (batch_app a b) = f a ++ f b) -> f empty_batch = [] ->
  (forall id b, full id b -> Forall (fun y => idf y = id) (f b)) ->
  x ∈ f (emitted (run g)) ->
  exists o, o ∈ orders_rows (emitted (run g)) /\ idf x = o_order_id o.
Proof.
  intros Happ Hnil Hids Hx.
  destruct (run_detail cfg now address_map cust_range outlet_range menu_range
              courier_range aud_id inr_id base_order_id g)
    as (bs & Hem & Hidx & _ & _).
  rewrite Hem in Hx |- *.
  apply (in_bconcat f Happ Hnil) in Hx as (k & b & Hk & Hx).
  pose proof (Hidx k b Hk) as Hfull.
  pose proof (Hids _ _ Hfull) as Hrow. rewrite Forall_forall in Hrow.
  pose proof Hfull as [_ Hdet]. detail Hdet.
  exists o'. split.
  - apply (bconcat_in orders_rows) with (k := k) (b := b);
      [reflexivity|exact Hk|].
    rewrite Hrows'. apply list_elem_of_here.
  - rewrite Hid. apply Hrow, Hx.
Qed.

End RunView.

(** * Orders of a run in detail *)

Section AmountFacts.

Import Money MoneyFacts.
#[local] Open Scope Q_scope.

(** [qround(x, 2)] exceeds [x] by at most half a cent and the epsilon. *)
Lemma qround2_le_near x : qround x 2 <= x + epsilon + (1 # 200).
Proof.
  unfold qround, py_round.
  pose proof (round_half_even_near ((x + epsilon) * inject_Z (Z.pos (scale 2))))
    as [Hlo _].
  set (z := round_half_even ((x + epsilon) * inject_Z (Z.pos (scale 2)))) in *.
  pose proof (scale_mul z (scale 2)) as Hz.
  change (inject_Z (Z.pos (scale 2))) with (100 # 1) in *.
  set (y := z # scale 2) in *. clearbody y. lra.
Qed.

Lemma qround2_ge_near x : x + epsilon - (1 # 200) <= qround x 2.
Proof.
  unfold qround, py_round.
  pose proof (round_half_even_near ((x + epsilon) * inject_Z (Z.pos (scale 2))))
    as [_ Hhi].
  set (z := round_half_even ((x + epsilon) * inject_Z (Z.pos (scale 2)))) in *.
  pose proof (scale_mul z (scale 2)) as Hz.
  change (inject_Z (Z.pos (scale 2))) with (100 # 1) in *.
  set (y := z # scale 2) in *. clearbody y. lra.
Qed.

Lemma on_grid_105 : on_grid 2 (105 # 1).
Proof. exists 10500%Z. reflexivity. Qed.

Lemma on_grid_525 : on_grid 2 (525 # 1).
Proof. exists 52500%Z. reflexivity. Qed.

Lemma on_grid_quarter : on_grid 2 (25 # 100).
Proof. exists 25%Z. reflexivity. Qed.

Lemma item_line_total_bounds (menu_range : id_range) (it : Z * Z * Q * Q) :
  item_ok menu_range it -> 5 # 1 <= snd it /\ snd it <= 105 # 1.
Proof.
  intros (_ & Hq & Hp1 & Hp2 & _ & ->).
  assert (Hq1 : 1 <= inject_Z (snd (fst (fst it)))).
  { change 1 with (inject_Z 1). rewrite <- Zle_Qle. lia. }
  assert (Hq3 : inject_Z (snd (fst (fst it))) <= 3).
  { change 3 with (inject_Z 3). rewrite <- Zle_Qle. lia. }
  split.
  - apply qround2_ge_grid; [apply on_grid_5|]. nra.
  - apply qround2_le_grid; [apply on_grid_105|]. nra.
Qed.

Lemma sum_line_totals_bounds (menu_range : id_range)
    (items : list (Z * Z * Q * Q)) :
  Forall (item_ok menu_range) items ->
  forall start,
    start + (5 # 1) * inject_Z (Z.of_nat (length items))
    <= sum_line_totals items start
    /\ sum_line_totals items start
       <= start + (105 # 1) * inject_Z (Z.of_nat (length items)).
Proof.
  unfold sum_line_totals. induction 1 as [|it items Hit _ IH]; intros start.
  - cbn [fold_left length]. change (inject_Z (Z.of_nat 0)) with 0. lra.
  - cbn [fold_left length]. rewrite Nat2Z.inj_succ, <- Z.add_1_r, inject_Z_plus.
    change (inject_Z 1) with 1.
    destruct (item_line_total_bounds _ _ Hit) as [H5 H105].
    destruct (IH (start + snd it)) as [Hlo Hhi]. lra.
Qed.

End AmountFacts.

Section TimelineWindows.

Context {rng : Type} `{RandomSource rng}.

(** A canceled order placed at least 31 minutes before [now]. *)
Lemma canceled_unclamped_run (placed_at now : Z) (g g' : rng) tl :
  placed_at + Time.minutes 31 <= now ->
  build_order_timeline_canceled placed_at now g = Ok (tl, g') ->
  placed_at + Time.minutes 2 <= tc_canceled_ts tl
  <= placed_at + Time.minutes 30.
Proof.
  unfold build_order_timeline_canceled. intros Hplaced Hrun.
  bind_inv Hrun d1 g1 E1. apply gret_Ok in Hrun as [-> _].
  apply randint_Ok in E1. cbn [tc_canceled_ts].
  unfold latest_allowed, Time.minutes, Time.second in *.
  repeat match goal with
         | |- context [Z.ltb ?a ?b] => destruct (Z.ltb_spec a b)
         | |- context [Z.leb ?a ?b] => destruct (Z.leb_spec a b)
         end; lia.
Qed.

End TimelineWindows.

Lemma Forall_concat_inv {A} (P : A -> Prop) (ls : list (list A)) :
  Forall P (concat ls) -> Forall (Forall P) ls.
Proof.
  induction ls as [|l ls IH]; cbn [concat]; intros Hall; [constructor|].
  apply Forall_app in Hall as [Hl Hls]. constructor; [exact Hl | apply IH, Hls].
Qed.

Section OrderExtras.

Context {rng : Type} `{RandomSource rng}.
Variables (cfg : config) (now : Z).
Variable address_map : gmap Z (list (Z * string * string)).
Variables cust_range outlet_range menu_range courier_range : id_range.
Variables aud_id inr_id : Z.
Variable base_order_id : Z.

#[local] Abbreviation run :=
  (populate_orders_related cfg now address_map cust_range outlet_range
     menu_range courier_range aud_id inr_id base_order_id).

#[local] Abbreviation full :=
  (bundle_full cfg now address_map cust_range outlet_range menu_range
     courier_range aud_id inr_id).

#[local] Abbreviation view :=
  (run_order_view cfg now address_map cust_range outlet_range menu_range
     courier_range aud_id inr_id base_order_id).

#[local] Abbreviation lifecycle_view :=
  (order_lifecycle_view cfg now address_map cust_range outlet_range menu_range
     courier_range aud_id inr_id base_order_id).

Lemma indexed_order_ids (bs : list batch) :
  forall base,
    indexed_by full base bs ->
    o_order_id <$> orders_rows (bconcat bs)
    = seqZ (base + 1) (Z.of_nat (length bs)).
Proof.
  induction bs as [|b bs IH]; intros base Hidx; [reflexivity|].
  change (bconcat (b :: bs)) with (batch_app b (bconcat bs)).
  unfold batch_app at 1. cbn [orders_rows]. rewrite fmap_app.
  pose proof (Hidx 0%nat b eq_refl) as [_ Hdet]. detail Hdet.
  rewrite Hrows'. cbn [fmap list_fmap app]. rewrite Hid.
  rewrite (IH (base + 1)).
  - cbn [length]. rewrite (seqZ_cons (base + 1)) by lia.
    f_equal; [lia|]. f_equal; lia.
  - intros k b' Hk.
    replace (base + 1 + Z.of_nat k + 1) with (base + Z.of_nat (S k) + 1) by lia.
    apply (Hidx (S k) b' Hk).
Qed.

(** X5. The order rows handed to the loader carry the ids
    [base_order_id + 1], [base_order_id + 2], ... in this order, without
    gap or repetition; there are at most [N_ORDERS] of them, and exactly
    [N_ORDERS] when the run does not raise. *)
Theorem order_ids_consecutive (g : rng) :
  exists n : nat,
    o_order_id <$> orders_rows (emitted (run g))
    = seqZ (base_order_id + 1) (Z.of_nat n)
    /\ NoDup (o_order_id <$> orders_rows (emitted (run g)))
    /\ (n <= Z.to_nat (cfg_n_orders cfg))%nat
    /\ (raised (run g) = None -> n = Z.to_nat (cfg_n_orders cfg)).
Proof.
  destruct (run_detail cfg now address_map cust_range outlet_range menu_range
              courier_range aud_id inr_id base_order_id g)
    as (bs & Hem & Hidx & Hle & Hno).
  exists (length bs). rewrite Hem, (indexed_order_ids bs _ Hidx).
  split; [reflexivity|]. split; [apply NoDup_seqZ|].
  split; [exact Hle | exact Hno].
Qed.

Lemma group_batch (grp : list batch) :
  Forall (fun b => exists id, full id b) grp ->
  length (orders_rows (bconcat grp)) = length grp
  /\ self_contained (bconcat grp).
Proof.
  intros Hall. split.
  - apply bconcat_orders_length. eapply Forall_impl; [exact Hall|].
    cbn. intros b [id Hb]. exact (bundle_full_one _ _ _ _ _ _ _ _ _ _ _ Hb).
  - apply self_contained_bconcat. eapply Forall_impl; [exact Hall|].
    cbn. intros b [id Hb].
    exact (bundle_self_contained _ _ _ _ _ _ _ _ _ _ _ Hb).
Qed.

(** X6. Every batch handed to the loader holds at least one order and
    at most [max(1, CHUNK_ROWS)]; every batch but the last holds
    exactly that many, and so does every batch of a run that raises.
    The dependent rows of a batch belong to the orders of the same
    batch. *)
Theorem flushed_batches_chunked (g : rng) :
  Forall (fun b => 1 <= Z.of_nat (length (orders_rows b)) <= full_batch cfg
                   /\ self_contained b) (flushed (run g))
  /\ (forall (k : nat) b,
         flushed (run g) !! k = Some b ->
         (S k < length (flushed (run g)))%nat ->
         Z.of_nat (length (orders_rows b)) = full_batch cfg)
  /\ (raised (run g) <> None ->
      Forall (fun b => Z.of_nat (length (orders_rows b)) = full_batch cfg)
        (flushed (run g))).
Proof.
  destruct (run_groups cfg now address_map cust_range outlet_range menu_range
              courier_range aud_id inr_id base_order_id g)
    as (groups & last & Hfl & Hidx & Hfu & Hla & _ & _ & Hra).
  assert (Hbund : Forall (Forall (fun b => exists id, full id b))
                    (groups ++ last)).
  { apply Forall_concat_inv, Forall_lookup. intros k b Hk.
    eexists. apply (Hidx k b Hk). }
  apply Forall_app in Hbund as [Hbg Hbl].
  assert (Hfull : Forall (fun b => Z.of_nat (length (orders_rows b))
                                   = full_batch cfg) (bconcat <$> groups)).
  { apply Forall_fmap, Forall_forall. intros grp Hgrp. cbn.
    rewrite Forall_forall in Hbg, Hfu.
    destruct (group_batch grp (Hbg grp Hgrp)) as [-> _]. apply Hfu, Hgrp. }
  rewrite Hfl, fmap_app. split; [|split].
  - apply Forall_app. split.
    + apply Forall_fmap, Forall_forall. intros grp Hgrp. cbn.
      rewrite Forall_forall in Hbg, Hfu.
      destruct (group_batch grp (Hbg grp Hgrp)) as [-> Hsc].
      rewrite (Hfu grp Hgrp). unfold full_batch. split; [lia | exact Hsc].
    + destruct Hla as [->|(grp & -> & Hlen)]; [constructor|].
      apply Forall_cons in Hbl as [Hgrp _].
      destruct (group_batch grp Hgrp) as [Hl Hsc].
      cbn [fmap list_fmap]. constructor; [|constructor].
      rewrite Hl. split; [lia | exact Hsc].
  - intros k b Hk Hlt. rewrite length_app, !length_fmap in Hlt.
    rewrite Forall_lookup in Hfull. apply (Hfull k).
    apply lookup_app_Some in Hk as [Hk|[Hge Hk]]; [exact Hk|].
    rewrite length_fmap in Hge.
    destruct Hla as [->|(grp & -> & _)]; cbn in Hlt; lia.
  - intros Hr. rewrite (Hra Hr). cbn [fmap list_fmap]. rewrite app_nil_r.
    exact Hfull.
Qed.

(** X7. The item rows of an order of a run: between one and five,
    each with a menu item of the menu id range, a quantity from 1 to
    3, a unit price from 5 to 35 with two decimals and the line total
    [qround(qty * unit_price, 2)]; the subtotal of the order is
    [qround] of the sum of their line totals. *)
Theorem order_items_match_order (g : rng) (o : order_row) :
  o ∈ orders_rows (emitted (run g)) ->
  (1 <= length (items_of (o_order_id o) (emitted (run g))) <= 5)%nat
  /\ Forall (item_row_ok menu_range)
       (items_of (o_order_id o) (emitted (run g)))
  /\ o_subtotal o
     = Money.qround (line_totals (items_of (o_order_id o) (emitted (run g)))) 2.
Proof.
  intros Ho.
  destruct (view g o Ho) as (b & [_ Hdet] & Hrows & Hit & _).
  detail Hdet. rewrite Hrows in Hrows'. injection Hrows' as <-.
  rewrite Hit, Hitems. unfold line_totals.
  rewrite item_rows_length, item_rows_totals.
  split; [exact Hlen|]. split; [apply item_rows_ok, Hall | exact Hsub].
Qed.

(** X8. The amounts of an order of a run: the subtotal lies between 5
    and 525, the tax between [qround] of 5% and of 12% of the
    subtotal, the delivery fee between 1 and 8, the discount is not
    negative and the total is at least 5; all five have two
    decimals. *)
Theorem order_amounts_in_range (g : rng) (o : order_row) :
  o ∈ orders_rows (emitted (run g)) ->
  ((5 # 1 <= o_subtotal o)%Q /\ (o_subtotal o <= 525 # 1)%Q)
  /\ ((Money.qround (o_subtotal o * (5 # 100)) 2 <= o_tax o)%Q
      /\ (o_tax o <= Money.qround (o_subtotal o * (12 # 100)) 2)%Q)
  /\ ((1 # 1 <= o_delivery_fee o)%Q /\ (o_delivery_fee o <= 8 # 1)%Q)
  /\ (0 <= o_discount o)%Q
  /\ (5 # 1 <= o_total_amount o)%Q
  /\ Forall (Money.on_grid 2)
       [o_subtotal o; o_tax o; o_delivery_fee o; o_discount o;
        o_total_amount o].
Proof.
  intros Ho.
  destruct (view g o Ho) as (b & [Hok Hdet] & Hrows & _).
  detail Hdet. rewrite Hrows in Hrows'. injection Hrows' as <-.
  destruct Hok as (o2 & evs2 & Hrows2 & _ & _ & (Htot & _) & (_ & Hcap) & _).
  rewrite Hrows in Hrows2. injection Hrows2 as <-.
  destruct (sum_line_totals_bounds menu_range items Hall 0%Q) as [Hlo Hhi].
  assert (Hn1 : (1 <= inject_Z (Z.of_nat (length items)))%Q).
  { change 1%Q with (inject_Z 1). rewrite <- Zle_Qle. lia. }
  assert (Hn5 : (inject_Z (Z.of_nat (length items)) <= 5)%Q).
  { change 5%Q with (inject_Z 5). rewrite <- Zle_Qle. lia. }
  assert (Hs5 : (5 # 1 <= o_subtotal o)%Q).
  { rewrite Hsub. apply MoneyFacts.qround2_ge_grid; [apply on_grid_5 | lra]. }
  assert (Hs525 : (o_subtotal o <= 525 # 1)%Q).
  { rewrite Hsub. apply MoneyFacts.qround2_le_grid; [apply on_grid_525 | lra]. }
  assert (Ht : (25 # 100 <= o_tax o)%Q).
  { eapply Qle_trans; [|exact Htax1].
    apply MoneyFacts.qround2_ge_grid; [apply on_grid_quarter | lra]. }
  pose proof (qround2_le_near (o_subtotal o * (20 # 100))) as Hnear.
  assert (He : (Money.epsilon <= 1 # 1000)%Q) by (vm_compute; discriminate).
  split; [split; assumption|]. split; [split; assumption|].
  split; [split; assumption|]. split; [exact Hdis|].
  split.
  - rewrite Htot. apply MoneyFacts.qround2_ge_grid; [apply on_grid_5 | lra].
  - repeat constructor; try assumption.
    + rewrite Hsub. apply MoneyFacts.qround_on_grid.
    + rewrite Htot. apply MoneyFacts.qround_on_grid.
Qed.

(** X9. The references of an order of a run: the customer and the
    outlet lie in their id ranges, the delivery address is one of the
    addresses of that customer in the lookup, the currency is the one
    of the country of that address, no delivery is scheduled, the
    payment method is one of [PAYMENT_METHODS], and the order was
    placed a whole number of seconds after the window start. *)
Theorem order_references_valid (g : rng) (o : order_row) :
  o ∈ orders_rows (emitted (run g)) ->
  lo cust_range <= o_customer_id o <= hi cust_range
  /\ (exists addrs city country,
         address_map !! o_customer_id o = Some addrs
         /\ (o_delivery_address_id o, city, country) ∈ addrs
         /\ o_currency_id o = currency_for_country aud_id inr_id country)
  /\ lo outlet_range <= o_restaurant_id o <= hi outlet_range
  /\ o_scheduled_delivery o = None
  /\ o_payment_method o ∈ PAYMENT_METHODS
  /\ (exists secs,
         0 <= secs
         <= Time.int_total_seconds (end_ts cfg now - start_ts cfg now)
         /\ o_order_placed_at o = start_ts cfg now + Time.seconds secs).
Proof.
  intros Ho.
  destruct (view g o Ho) as (b & [_ Hdet] & Hrows & _).
  detail Hdet. rewrite Hrows in Hrows'. injection Hrows' as <-.
  split; [exact Hcust|].
  split; [exists addrs, city, country; split; [exact Hlook|];
          split; [exact Haddr | exact Hcur]|].
  split; [exact Hout|]. split; [exact Hsched|].
  split; [exact Hpm | exact Hsecs].
Qed.

(** X10. The status events of an order of a run, in the order of
    their rows: PLACED at the placement time, then ACCEPTED,
    PREP_START, READY_FOR_PICKUP, PICKED_UP and DELIVERED, with one
    delivery assignment; or PLACED and CANCELED, with no assignment,
    refund or rating.  No event has notes. *)
Theorem order_events_sequence (g : rng) (o : order_row) :
  o ∈ orders_rows (emitted (run g)) ->
  (exists t1 t2 t3 t4 t5 a,
      events_of (o_order_id o) (emitted (run g))
      = event_rows (o_order_id o)
          [ (o_order_placed_at o, "PLACED", "CUSTOMER");
            (t1, "ACCEPTED", "RESTAURANT"); (t2, "PREP_START", "RESTAURANT");
            (t3, "READY_FOR_PICKUP", "RESTAURANT");
            (t4, "PICKED_UP", "COURIER"); (t5, "DELIVERED", "SYSTEM") ]
      /\ assignments_of (o_order_id o) (emitted (run g)) = [a])
  \/ (exists t1,
         events_of (o_order_id o) (emitted (run g))
         = event_rows (o_order_id o)
             [ (o_order_placed_at o, "PLACED", "CUSTOMER");
               (t1, "CANCELED", "SYSTEM") ]
         /\ assignments_of (o_order_id o) (emitted (run g)) = []
         /\ refunds_of (o_order_id o) (emitted (run g)) = []
         /\ ratings_of (o_order_id o) (emitted (run g)) = []).
Proof.
  intros Ho.
  destruct (lifecycle_view g o Ho)
    as [(tl & g1 & g2 & a & t1 & t2 & t3 & t4 & _ & Hsh & Hev & Has & _)
       |(tl & g1 & g2 & _ & Hsh & Hev & Has & Hrf & Hrt)].
  - left. exists t1, t2, t3, t4, (td_delivered_ts tl), a.
    rewrite Hev, Hsh. split; [reflexivity | exact Has].
  - right. exists (tc_canceled_ts tl). rewrite Hev, Hsh.
    split; [reflexivity|]. split; [exact Has|]. split; [exact Hrf | exact Hrt].
Qed.

(** X11. The delivery assignment of an order of a run.  A delivered
    order has exactly one, with a courier of the courier id range and
    timestamps in the order assigned, pickup estimate, dropoff
    estimate, DELIVERED event, none of them after [now] minus one
    minute; a canceled order has none. *)
Theorem delivery_assignment_of_order (g : rng) (o : order_row) :
  o ∈ orders_rows (emitted (run g)) ->
  (exists a d,
      assignments_of (o_order_id o) (emitted (run g)) = [a]
      /\ lo courier_range <= s_courier_id a <= hi courier_range
      /\ d ∈ events_of (o_order_id o) (emitted (run g))
      /\ e_status d = "DELIVERED"
      /\ s_assigned_at a <= s_pickup_eta a
      /\ s_pickup_eta a <= s_dropoff_eta a
      /\ s_dropoff_eta a <= e_event_ts d
      /\ e_event_ts d <= latest_allowed now)
  \/ (exists c,
         assignments_of (o_order_id o) (emitted (run g)) = []
         /\ c ∈ events_of (o_order_id o) (emitted (run g))
         /\ e_status c = "CANCELED").
Proof.
  intros Ho.
  destruct (lifecycle_view g o Ho)
    as [(tl & g1 & g2 & a & t1 & t2 & t3 & t4 & Hrun & Hsh & Hev & Has & Hc
         & Ha1 & Ha2 & Ha3 & _)
       |(tl & g1 & g2 & _ & Hsh & Hev & Has & _)].
  - left.
    destruct (delivered_assignment_run _ _ _ _ _ Hrun) as (H1 & H2 & H3 & H4).
    exists a, {| e_order_id := o_order_id o; e_event_ts := td_delivered_ts tl;
                 e_status := "DELIVERED"; e_actor := "SYSTEM";
                 e_notes := None |}.
    rewrite Hev, Hsh, Ha1, Ha2, Ha3. cbn [e_status e_event_ts].
    split; [exact Has|]. split; [exact Hc|].
    split; [cbn; do 5 apply list_elem_of_further; apply list_elem_of_here|].
    split; [reflexivity|]. split; [exact H1|]. split; [exact H2|].
    split; [exact H3 | exact H4].
  - right.
    exists {| e_order_id := o_order_id o; e_event_ts := tc_canceled_ts tl;
              e_status := "CANCELED"; e_actor := "SYSTEM"; e_notes := None |}.
    rewrite Hev, Hsh. split; [exact Has|].
    split; [cbn; apply list_elem_of_further, list_elem_of_here | reflexivity].
Qed.

(** X12. The refunds of an order of a run: none, or exactly one, of
    a delivered order, timed from 5 to 180 minutes after the DELIVERED
    event, with a reason of [REFUND_REASONS] and an amount between
    [qround] of 5% and of 80% of the total of the order. *)
Theorem refund_of_order_detail (g : rng) (o : order_row) :
  o ∈ orders_rows (emitted (run g)) ->
  refunds_of (o_order_id o) (emitted (run g)) = []
  \/ exists r d,
       refunds_of (o_order_id o) (emitted (run g)) = [r]
       /\ d ∈ events_of (o_order_id o) (emitted (run g))
       /\ e_status d = "DELIVERED"
       /\ e_event_ts d + Time.minutes 5 <= r_refund_ts r
          <= e_event_ts d + Time.minutes 180
       /\ r_refund_reason r ∈ REFUND_REASONS
       /\ (Money.qround (o_total_amount o * (5 # 100)) 2 <= r_refund_amount r)%Q
       /\ (r_refund_amount r
           <= Money.qround (o_total_amount o * (80 # 100)) 2)%Q.
Proof.
  intros Ho.
  destruct (lifecycle_view g o Ho)
    as [(tl & g1 & g2 & a & t1 & t2 & t3 & t4 & _ & Hsh & Hev & _ & _ & _ & _
         & _ & Hrf & _)
       |(tl & g1 & g2 & _ & _ & _ & _ & Hrf & _)]; [|left; exact Hrf].
  destruct Hrf as [Hrf|(r & Hrf & _ & Hts & Hre & Hlo & Hhi)];
    [left; exact Hrf|].
  right.
  exists r, {| e_order_id := o_order_id o; e_event_ts := td_delivered_ts tl;
               e_status := "DELIVERED"; e_actor := "SYSTEM";
               e_notes := None |}.
  rewrite Hev, Hsh. cbn [e_status e_event_ts].
  split; [exact Hrf|].
  split; [cbn; do 5 apply list_elem_of_further; apply list_elem_of_here|].
  split; [reflexivity|]. split; [exact Hts|]. split; [exact Hre|].
  split; [exact Hlo | exact Hhi].
Qed.

(** X13. The ratings of an order of a run: none, or exactly one, of
    a delivered order, by the customer of the order, with a restaurant
    rating from 1 to 5, a courier rating that is absent or from 1 to
    5, a comment that is absent or the fixed text, created from 2 to
    240 minutes after the DELIVERED event. *)
Theorem rating_of_order_detail (g : rng) (o : order_row) :
  o ∈ orders_rows (emitted (run g)) ->
  ratings_of (o_order_id o) (emitted (run g)) = []
  \/ exists x d,
       ratings_of (o_order_id o) (emitted (run g)) = [x]
       /\ d ∈ events_of (o_order_id o) (emitted (run g))
       /\ e_status d = "DELIVERED"
       /\ g_customer_id x = o_customer_id o
       /\ 1 <= g_restaurant_rating x <= 5
       /\ (g_courier_rating x = None
           \/ exists c, g_courier_rating x = Some c /\ 1 <= c <= 5)
       /\ (g_comment x = None \/ g_comment x = Some "Tasty and fast delivery.")
       /\ e_event_ts d + Time.minutes 2 <= g_created_at x
          <= e_event_ts d + Time.minutes 240.
Proof.
  intros Ho.
  destruct (lifecycle_view g o Ho)
    as [(tl & g1 & g2 & a & t1 & t2 & t3 & t4 & _ & Hsh & Hev & _ & _ & _ & _
         & _ & _ & Hrt)
       |(tl & g1 & g2 & _ & _ & _ & _ & _ & Hrt)]; [|left; exact Hrt].
  destruct Hrt as [Hrt|(x & Hrt & _ & Hcu & Hrr & Hcr & Hco & Hts)];
    [left; exact Hrt|].
  right.
  exists x, {| e_order_id := o_order_id o; e_event_ts := td_delivered_ts tl;
               e_status := "DELIVERED"; e_actor := "SYSTEM";
               e_notes := None |}.
  rewrite Hev, Hsh. cbn [e_status e_event_ts].
  split; [exact Hrt|].
  split; [cbn; do 5 apply list_elem_of_further; apply list_elem_of_here|].
  split; [reflexivity|]. split; [exact Hcu|]. split; [exact Hrr|].
  split; [exact Hcr|]. split; [exact Hco | exact Hts].
Qed.

(** The timestamps of an order of a run whose window ends at least two
    hours before [now]. *)
Lemma order_times (g : rng) (o : order_row) :
  2 <= cfg_safety_buffer_hours cfg ->
  o ∈ orders_rows (emitted (run g)) ->
  o_order_placed_at o <= end_ts cfg now
  /\ strictly_increasing
       (e_event_ts <$> events_of (o_order_id o) (emitted (run g)))
  /\ Forall (fun e =>
               o_order_placed_at o <= e_event_ts e
               <= o_order_placed_at o + Time.minutes 107
               /\ (e_status e = "DELIVERED" ->
                   o_order_placed_at o + Time.minutes 30 <= e_event_ts e)
               /\ (e_status e = "CANCELED" ->
                   o_order_placed_at o + Time.minutes 2 <= e_event_ts e
                   <= o_order_placed_at o + Time.minutes 30))
       (events_of (o_order_id o) (emitted (run g)))
  /\ Forall (fun a =>
               o_order_placed_at o < s_assigned_at a
               /\ s_assigned_at a < s_pickup_eta a
               /\ s_pickup_eta a < s_dropoff_eta a
               /\ s_dropoff_eta a < o_order_placed_at o + Time.minutes 107)
       (assignments_of (o_order_id o) (emitted (run g)))
  /\ Forall (fun r =>
               o_order_placed_at o + Time.minutes 35 <= r_refund_ts r
               <= o_order_placed_at o + Time.minutes 287)
       (refunds_of (o_order_id o) (emitted (run g)))
  /\ Forall (fun x =>
               o_order_placed_at o + Time.minutes 32 <= g_created_at x
               <= o_order_placed_at o + Time.minutes 347)
       (ratings_of (o_order_id o) (emitted (run g))).
Proof.
  intros Hbuf Ho.
  destruct (view g o Ho) as (b & [Hok _] & Hrows & _).
  destruct Hok as (o2 & evs2 & Hrows2 & _ & _ & _ & _ & [_ Hend] & _).
  rewrite Hrows in Hrows2. injection Hrows2 as <-.
  assert (Hplaced : o_order_placed_at o + Time.minutes 120 <= now).
  { unfold end_ts, Time.hours, Time.minutes, Time.second in *. lia. }
  split; [exact Hend|].
  destruct (lifecycle_view g o Ho)
    as [(tl & g1 & g2 & a & t1 & t2 & t3 & t4 & Hrun & _ & Hev & Has & _
         & Ha1 & Ha2 & Ha3 & Hrf & Hrt)
       |(tl & g1 & g2 & Hrun & Hsh & Hev & Has & Hrf & Hrt)].
  - destruct (delivered_unclamped_run (o_order_placed_at o) now g1 g2 tl)
      as (u1 & u2 & u3 & u4 & Hsh & Hinc & Hb);
      [unfold Time.minutes, Time.second in *; lia | exact Hrun |].
    rewrite Hev, Hsh, Has.
    cbn [event_rows fmap list_fmap e_event_ts strictly_increasing] in Hinc |- *.
    unfold Time.minutes, Time.second in *.
    split; [lia|].
    split; [repeat constructor; cbn [e_event_ts e_status];
            try discriminate; lia|].
    split; [repeat constructor; lia|].
    split.
    + destruct Hrf as [->|(r & -> & _ & Hts & _)];
        [apply Forall_nil_2
        |apply Forall_singleton; unfold Time.minutes, Time.second in *; lia].
    + destruct Hrt as [->|(x & -> & _ & _ & _ & _ & _ & Hts)];
        [apply Forall_nil_2
        |apply Forall_singleton; unfold Time.minutes, Time.second in *; lia].
  - pose proof (canceled_unclamped_run (o_order_placed_at o) now g1 g2 tl)
      as Hb.
    rewrite Hev, Hsh, Has, Hrf, Hrt.
    cbn [event_rows fmap list_fmap e_event_ts strictly_increasing].
    unfold Time.minutes, Time.second in *.
    specialize (Hb ltac:(lia) Hrun).
    split; [lia|].
    split; [repeat constructor; cbn [e_event_ts e_status];
            try discriminate; lia|].
    repeat split; constructor.
Qed.

(** X14. When the window of the orders ends at least two hours before
    [now], no timestamp of a run is clamped: the events of every order
    increase strictly in the order of their rows, the DELIVERED event
    follows the placement by 30 to 107 minutes and the CANCELED event
    by 2 to 30 minutes. *)
Theorem order_events_increase (g : rng) (o : order_row) :
  2 <= cfg_safety_buffer_hours cfg ->
  o ∈ orders_rows (emitted (run g)) ->
  strictly_increasing
    (e_event_ts <$> events_of (o_order_id o) (emitted (run g)))
  /\ (forall e, e ∈ events_of (o_order_id o) (emitted (run g)) ->
                e_status e = "DELIVERED" ->
                o_order_placed_at o + Time.minutes 30 <= e_event_ts e
                <= o_order_placed_at o + Time.minutes 107)
  /\ (forall e, e ∈ events_of (o_order_id o) (emitted (run g)) ->
                e_status e = "CANCELED" ->
                o_order_placed_at o + Time.minutes 2 <= e_event_ts e
                <= o_order_placed_at o + Time.minutes 30).
Proof.
  intros Hbuf Ho.
  destruct (order_times g o Hbuf Ho) as (_ & Hinc & Hev & _).
  rewrite Forall_forall in Hev.
  split; [exact Hinc|]. split; intros e He Hst.
  - destruct (Hev e He) as (Hb & Hd & _). specialize (Hd Hst). lia.
  - destruct (Hev e He) as (_ & _ & Hc). exact (Hc Hst).
Qed.

(** X15. When the window of the orders ends at least six hours before
    [now], as with the eight hours of the module, no timestamp handed
    to the loader lies in the future: events and assignments are timed
    at most 107 minutes after the window end, refunds at most 287 and
    ratings at most 347 minutes after it. *)
Theorem no_timestamp_in_future (g : rng) :
  6 <= cfg_safety_buffer_hours cfg ->
  (forall e, e ∈ events_rows (emitted (run g)) ->
             e_event_ts e <= end_ts cfg now + Time.minutes 107 < now)
  /\ (forall a, a ∈ assignments_rows (emitted (run g)) ->
                s_assigned_at a < s_pickup_eta a
                /\ s_pickup_eta a < s_dropoff_eta a
                /\ s_dropoff_eta a <= end_ts cfg now + Time.minutes 107 < now)
  /\ (forall r, r ∈ refunds_rows (emitted (run g)) ->
                r_refund_ts r <= end_ts cfg now + Time.minutes 287 < now)
  /\ (forall x, x ∈ ratings_rows (emitted (run g)) ->
                g_created_at x <= end_ts cfg now + Time.minutes 347 < now).
Proof.
  intros Hbuf.
  assert (Hbuf2 : 2 <= cfg_safety_buffer_hours cfg) by lia.
  assert (Hend : end_ts cfg now + Time.minutes 360 <= now).
  { unfold end_ts, Time.hours, Time.minutes, Time.second. lia. }
  assert (Hids : forall id b, full id b -> _)
    by exact (bundle_rows_ids cfg now address_map cust_range outlet_range
                menu_range courier_range aud_id inr_id).
  split; [|split; [|split]].
  - intros e He.
    destruct (dependent_row_order cfg now address_map cust_range outlet_range
                menu_range courier_range aud_id inr_id base_order_id
                events_rows e_order_id g e)
      as (o & Ho & Hid); [reflexivity|reflexivity| |exact He|].
    { intros id b Hb. apply (Hids id b Hb). }
    destruct (order_times g o Hbuf2 Ho) as (Hpl & _ & Hev & _).
    rewrite Forall_forall in Hev.
    destruct (Hev e) as (Hb & _); [apply list_elem_of_filter; split; assumption|].
    unfold Time.minutes, Time.second in *. lia.
  - intros a Ha.
    destruct (dependent_row_order cfg now address_map cust_range outlet_range
                menu_range courier_range aud_id inr_id base_order_id
                assignments_rows s_order_id g a)
      as (o & Ho & Hid); [reflexivity|reflexivity| |exact Ha|].
    { intros id b Hb. apply (Hids id b Hb). }
    destruct (order_times g o Hbuf2 Ho) as (Hpl & _ & _ & Has & _).
    rewrite Forall_forall in Has.
    destruct (Has a) as (H0 & H1 & H2 & H3);
      [apply list_elem_of_filter; split; assumption|].
    unfold Time.minutes, Time.second in *. lia.
  - intros r Hr.
    destruct (dependent_row_order cfg now address_map cust_range outlet_range
                menu_range courier_range aud_id inr_id base_order_id
                refunds_rows r_order_id g r)
      as (o & Ho & Hid); [reflexivity|reflexivity| |exact Hr|].
    { intros id b Hb. apply (Hids id b Hb). }
    destruct (order_times g o Hbuf2 Ho) as (Hpl & _ & _ & _ & Hrf & _).
    rewrite Forall_forall in Hrf.
    destruct (Hrf r) as (H0 & H1);
      [apply list_elem_of_filter; split; assumption|].
    unfold Time.minutes, Time.second in *. lia.
  - intros x Hx.
    destruct (dependent_row_order cfg now address_map cust_range outlet_range
                menu_range courier_range aud_id inr_id base_order_id
                ratings_rows g_order_id g x)
      as (o & Ho & Hid); [reflexivity|reflexivity| |exact Hx|].
    { intros id b Hb. apply (Hids id b Hb). }
    destruct (order_times g o Hbuf2 Ho) as (Hpl & _ & _ & _ & _ & Hrt).
    rewrite Forall_forall in Hrt.
    destruct (Hrt x) as (H0 & H1);
      [apply list_elem_of_filter; split; assumption|].
    unfold Time.minutes, Time.second in *. lia.
Qed.

End OrderExtras.

(** * The generators of the reference tables *)

Lemma string_app_length (s t : string) :
  String.length (s +:+ t) = (String.length s + String.length t)%nat.
Proof.
  induction s as [|c s IH]; [reflexivity|].
  change (String c s +:+ t) with (String c (s +:+ t)).
  cbn [String.length]. rewrite IH. reflexivity.
Qed.

Lemma string_app_inv_tail (s1 s2 t : string) : s1 +:+ t = s2 +:+ t -> s1 = s2.
Proof.
  revert s2. induction s1 as [|c s1 IH]; intros [|c2 s2] Heq.
  - reflexivity.
  - apply (f_equal String.length) in Heq.
    rewrite !string_app_length in Heq. cbn [String.length] in Heq. lia.
  - apply (f_equal String.length) in Heq.
    rewrite !string_app_length in Heq. cbn [String.length] in Heq. lia.
  - change (String c (s1 +:+ t) = String c2 (s2 +:+ t)) in Heq.
    injection Heq as -> Heq. f_equal. apply IH, Heq.
Qed.

(** [str(k)] of a digit. *)
Lemma digit_string (k : Z) :
  0 <= k <= 9 ->
  exists c, Fmt.d k = String c EmptyString /\ Ascii.is_nat c <> None.
Proof.
  intros Hk.
  assert (Hc : k = 0 \/ k = 1 \/ k = 2 \/ k = 3 \/ k = 4 \/ k = 5 \/ k = 6
               \/ k = 7 \/ k = 8 \/ k = 9) by lia.
  repeat destruct Hc as [->|Hc]; try subst k;
    (eexists; split; [vm_compute; reflexivity | discriminate]).
Qed.

Section LoopRuns.

Context {rng : Type} `{RandomSource rng}.

Lemma randint_draw (a b : Z) (g : rng) :
  a <= b -> exists v g', randint a b g = Ok (v, g') /\ a <= v <= b.
Proof.
  intros Hab. destruct (randint_total a b g Hab) as (v & g' & E).
  exists v, g'. split; [exact E | exact (randint_Ok _ _ _ _ _ E)].
Qed.

Lemma choice_draw {A} (seq : list A) (g : rng) :
  seq <> [] -> exists x g', choice seq g = Ok (x, g') /\ x ∈ seq.
Proof.
  intros Hne. destruct (choice_total seq g Hne) as (x & g' & E).
  exists x, g'. split; [exact E | exact (choice_Ok _ _ _ _ E)].
Qed.

Lemma uniform_draw (a b : Q) (g : rng) :
  (a <= b)%Q ->
  exists v g', uniform a b g = Ok (v, g') /\ (a <= v)%Q /\ (v <= b)%Q.
Proof.
  intros Hab. destruct (uniform_total a b g) as (v & g' & E).
  exists v, g'. split; [exact E|].
  apply uniform_Ok in E as (r & Hr0 & Hr1 & ->). split; nra.
Qed.

(** A loop whose body always yields: the blocks of rows of its
    iterations. *)
Lemma for_yield_blocks {A} (body : Z -> gen (list A))
    (B : Z -> list A -> Prop) :
  (forall i (g : rng), exists xs g', body i g = Ok (xs, g') /\ B i xs) ->
  forall (count : nat) (i : Z) (g : rng),
  exists blocks g',
    for_yield count i body g = Ok (concat blocks, g')
    /\ length blocks = count
    /\ forall (k : nat) xs, blocks !! k = Some xs -> B (i + Z.of_nat k) xs.
Proof.
  intros Hbody. induction count as [|count IH]; intros i g.
  - exists [], g. split; [reflexivity|]. split; [reflexivity|].
    intros k xs Hk. discriminate.
  - cbn [for_yield].
    destruct (Hbody i g) as (xs & g1 & E1 & Hxs).
    rewrite (gbind_run _ _ _ _ _ E1).
    destruct (IH (i + 1) g1) as (blocks & g2 & E2 & Hlen & Hblocks).
    rewrite (gbind_run _ _ _ _ _ E2).
    exists (xs :: blocks), g2. split; [reflexivity|].
    split; [cbn; lia|]. intros [|k] ys Hk; cbn in Hk.
    + injection Hk as <-. replace (i + Z.of_nat 0) with i by lia. exact Hxs.
    + replace (i + Z.of_nat (S k)) with (i + 1 + Z.of_nat k) by lia.
      apply Hblocks, Hk.
Qed.

(** A loop whose body always yields one row. *)
Lemma for_yield_rows {A} (body : Z -> gen (list A)) (Q : Z -> A -> Prop) :
  (forall i (g : rng), exists r g', body i g = Ok ([r], g') /\ Q i r) ->
  forall (count : nat) (i : Z) (g : rng),
  exists rows g',
    for_yield count i body g = Ok (rows, g')
    /\ length rows = count
    /\ forall (k : nat) r, rows !! k = Some r -> Q (i + Z.of_nat k) r.
Proof.
  intros Hbody. induction count as [|count IH]; intros i g.
  - exists [], g. split; [reflexivity|]. split; [reflexivity|].
    intros k xs Hk. discriminate.
  - cbn [for_yield].
    destruct (Hbody i g) as (r & g1 & E1 & Hr).
    rewrite (gbind_run _ _ _ _ _ E1).
    destruct (IH (i + 1) g1) as (rows & g2 & E2 & Hlen & Hrows).
    rewrite (gbind_run _ _ _ _ _ E2).
    exists (r :: rows), g2. split; [reflexivity|].
    split; [cbn; lia|]. intros [|k] y Hk; cbn in Hk.
    + injection Hk as <-. replace (i + Z.of_nat 0) with i by lia. exact Hr.
    + replace (i + Z.of_nat (S k)) with (i + 1 + Z.of_nat k) by lia.
      apply Hrows, Hk.
Qed.

(** Rows named after their position are pairwise different. *)
Lemma NoDup_by_index {A B} (f : A -> B) (name : nat -> B) (rows : list A) :
  (forall i j, name i = name j -> i = j) ->
  (forall k r, rows !! k = Some r -> f r = name k) ->
  NoDup (f <$> rows).
Proof.
  intros Hinj Hname. apply NoDup_alt. intros i j x Hi Hj.
  rewrite list_lookup_fmap in Hi, Hj.
  destruct (rows !! i) as [ri|] eqn:Ei; [|discriminate].
  destruct (rows !! j) as [rj|] eqn:Ej; [|discriminate].
  cbn in Hi, Hj. injection Hi as <-. injection Hj as Hj.
  apply Hinj. rewrite <- (Hname _ _ Ei), <- (Hname _ _ Ej). symmetry. exact Hj.
Qed.

Lemma digits_run (count : nat) (g : rng) :
  exists ds g',
    digits count g = Ok (ds, g')
    /\ String.length ds = count /\ all_digits ds = true.
Proof.
  revert g. induction count as [|count IH]; intros g.
  - exists EmptyString, g. repeat split.
  - cbn [digits].
    destruct (randint_draw 0 9 g ltac:(lia)) as (k & g1 & E1 & Hk).
    rewrite (gbind_run _ _ _ _ _ E1).
    destruct (IH g1) as (rest & g2 & E2 & Hlen & Hall).
    rewrite (gbind_run _ _ _ _ _ E2).
    destruct (digit_string k Hk) as (c & -> & Hc).
    eexists _, _. split; [reflexivity|].
    change (String c EmptyString +:+ rest) with (String c rest).
    cbn [String.length all_digits]. rewrite Hlen.
    split; [reflexivity|]. destruct (Ascii.is_nat c); [exact Hall|congruence].
Qed.

Lemma gen_customers_body_run (base_ts i : Z) (g : rng) :
  exists r g',
    gen_customers_body base_ts i g = Ok ([r], g')
    /\ c_full_name r = "Customer " +:+ Fmt.d (i + 1)
    /\ c_email r = "customer" +:+ Fmt.d (i + 1) +:+ "@example.com"
    /\ phone_ok (c_phone r)
    /\ base_ts <= c_created_at r <= base_ts + Time.days (365 * 2).
Proof.
  unfold gen_customers_body.
  destruct (randint_draw 0 (365 * 2 * 24 * 60) g ltac:(lia))
    as (m & g1 & E1 & Hm).
  rewrite (gbind_run _ _ _ _ _ E1).
  destruct (random_total g1) as (r & g2 & E2).
  rewrite (gbind_run _ _ _ _ _ E2).
  destruct (Money.Qltb r (65 # 100)).
  - destruct (digits_run 10 g2) as (ds & g3 & E3 & Hlen & Hall).
    rewrite (gbind_run (gbind (digits 10) _) _ g2 g3 (Some ("DUMMY-" +:+ ds)))
      by (rewrite (gbind_run _ _ _ _ _ E3); reflexivity).
    eexists _, _. split; [reflexivity|]. cbn [c_full_name c_email c_phone
                                               c_created_at phone_ok].
    split; [reflexivity|]. split; [reflexivity|].
    split; [exists ds; repeat split; assumption|].
    unfold Time.minutes, Time.days, Time.second. lia.
  - eexists _, _. split; [reflexivity|]. cbn [c_full_name c_email c_phone
                                               c_created_at phone_ok].
    split; [reflexivity|]. split; [reflexivity|]. split; [exact I|].
    unfold Time.minutes, Time.days, Time.second. lia.
Qed.

End LoopRuns.

(** X16. [gen_customers] never raises and yields [N_CUSTOMERS] rows;
    the row at position [k] is named [Customer k+1] with the email
    [customer<k+1>@example.com], its phone is absent or [DUMMY-]
    followed by ten digits, and it was created in the two years before
    [now].  No two rows share an email. *)
Theorem customers_generated {rng : Type} `{RandomSource rng}
    (now : Z) (g : rng) :
  exists rows g',
    gen_customers now g = Ok (rows, g')
    /\ Z.of_nat (length rows) = N_CUSTOMERS
    /\ (forall (k : nat) r,
           rows !! k = Some r ->
           c_full_name r = "Customer " +:+ Fmt.d (Z.of_nat k + 1)
           /\ c_email r
              = "customer" +:+ Fmt.d (Z.of_nat k + 1) +:+ "@example.com"
           /\ phone_ok (c_phone r)
           /\ now - Time.days 730 <= c_created_at r <= now)
    /\ NoDup (c_email <$> rows).
Proof.
  unfold gen_customers.
  destruct (for_yield_rows _ _
              (gen_customers_body_run (now - Time.days (365 * 2)))
              (Z.to_nat N_CUSTOMERS) 0 g)
    as (rows & g' & E & Hlen & Hrows).
  exists rows, g'. split; [exact E|]. split; [rewrite Hlen; reflexivity|].
  split.
  - intros k r Hk. destruct (Hrows k r Hk) as (Hn & He & Hp & Hc).
    split; [exact Hn|]. split; [exact He|]. split; [exact Hp|].
    unfold Time.days, Time.second in *. lia.
  - apply (NoDup_by_index c_email
             (fun k => "customer" +:+ Fmt.d (Z.of_nat k + 1)
                       +:+ "@example.com")).
    + intros i j Heq. apply (inj (String.append "customer")) in Heq.
      apply string_app_inv_tail in Heq. apply (inj pretty) in Heq. lia.
    + intros k r Hk. apply (Hrows k r Hk).
Qed.

Section CatalogueRuns.

Context {rng : Type} `{RandomSource rng}.

Lemma gen_brands_body_run (base_ts i : Z) (g : rng) :
  exists r g',
    gen_brands_body base_ts i g = Ok ([r], g')
    /\ br_brand_name r = "Brand " +:+ Fmt.d (i + 1)
    /\ exists dd, 0 <= dd <= 365 * 3
                  /\ br_created_at r = base_ts + Time.days dd.
Proof.
  unfold gen_brands_body.
  destruct (randint_draw 0 (365 * 3) g ltac:(lia)) as (dd & g1 & E1 & Hdd).
  rewrite (gbind_run _ _ _ _ _ E1).
  destruct (random_total g1) as (r & g2 & E2).
  rewrite (gbind_run _ _ _ _ _ E2).
  eexists _, _. split; [reflexivity|]. split; [reflexivity|].
  exists dd. split; [exact Hdd | reflexivity].
Qed.

Lemma on_grid_3_50 : Money.on_grid 2 (35 # 10).
Proof. exists 350%Z. reflexivity. Qed.

Lemma on_grid_32 : Money.on_grid 2 (32 # 1).
Proof. exists 3200%Z. reflexivity. Qed.

Lemma gen_menu_items_body_run (base_ts restaurant_id j : Z) (g : rng) :
  exists r g',
    gen_menu_items_body base_ts restaurant_id j g = Ok ([r], g')
    /\ m_restaurant_id r = restaurant_id
    /\ m_item_name r
       = "Item " +:+ Fmt.d restaurant_id +:+ "-" +:+ Fmt.d (j + 1)
    /\ m_category r ∈ CATEGORIES
    /\ (35 # 10 <= m_price r)%Q /\ (m_price r <= 32 # 1)%Q
    /\ Money.on_grid 2 (m_price r)
    /\ exists dd, 0 <= dd <= 365 * 2
                  /\ m_created_at r = base_ts + Time.days dd.
Proof.
  unfold gen_menu_items_body.
  destruct (choice_draw CATEGORIES g ltac:(discriminate))
    as (category & g1 & E1 & Hcat).
  rewrite (gbind_run _ _ _ _ _ E1).
  destruct (uniform_draw (35 # 10) (32 # 1) g1 ltac:(lra))
    as (p & g2 & E2 & Hp1 & Hp2).
  rewrite (gbind_run _ _ _ _ _ E2).
  destruct (random_total g2) as (r & g3 & E3).
  rewrite (gbind_run _ _ _ _ _ E3).
  destruct (randint_draw 0 (365 * 2) g3 ltac:(lia)) as (dd & g4 & E4 & Hdd).
  rewrite (gbind_run _ _ _ _ _ E4).
  eexists _, _. split; [reflexivity|].
  cbn [m_restaurant_id m_item_name m_category m_price m_created_at].
  split; [reflexivity|]. split; [reflexivity|]. split; [exact Hcat|].
  split; [apply MoneyFacts.qround2_ge_grid; [apply on_grid_3_50 | exact Hp1]|].
  split; [apply MoneyFacts.qround2_le_grid; [apply on_grid_32 | exact Hp2]|].
  split; [apply MoneyFacts.qround_on_grid|].
  exists dd. split; [exact Hdd | reflexivity].
Qed.

Lemma gen_couriers_body_run (base_ts : Z) (cities : list string) (i : Z)
    (g : rng) :
  cities <> [] ->
  exists r g',
    gen_couriers_body base_ts cities i g = Ok ([r], g')
    /\ k_city r ∈ cities /\ k_vehicle r ∈ VEHICLES
    /\ exists dd, 0 <= dd <= 365 * 2
                  /\ k_created_at r = base_ts + Time.days dd.
Proof.
  intros Hne. unfold gen_couriers_body.
  destruct (choice_draw cities g Hne) as (city & g1 & E1 & Hcity).
  rewrite (gbind_run _ _ _ _ _ E1).
  destruct (choice_draw VEHICLES g1 ltac:(discriminate))
    as (vehicle & g2 & E2 & Hveh).
  rewrite (gbind_run _ _ _ _ _ E2).
  destruct (random_total g2) as (r & g3 & E3).
  rewrite (gbind_run _ _ _ _ _ E3).
  destruct (randint_draw 0 (365 * 2) g3 ltac:(lia)) as (dd & g4 & E4 & Hdd).
  rewrite (gbind_run _ _ _ _ _ E4).
  eexists _, _. split; [reflexivity|]. split; [exact Hcity|].
  split; [exact Hveh|]. exists dd. split; [exact Hdd | reflexivity].
Qed.

End CatalogueRuns.

(** The element at position [n] of blocks of [m] rows each. *)
Lemma concat_uniform_lookup {A} (m : nat) (blocks : list (list A)) :
  (0 < m)%nat -> Forall (fun c => length c = m) blocks ->
  forall (n : nat) x,
    concat blocks !! n = Some x ->
    exists c, blocks !! (n / m)%nat = Some c /\ c !! (n mod m)%nat = Some x.
Proof.
  intros Hm. induction 1 as [|c blocks Hc _ IH]; intros n x Hn.
  - discriminate.
  - cbn [concat] in Hn. apply lookup_app_Some in Hn as [Hn|[Hge Hn]].
    + pose proof (lookup_lt_Some _ _ _ Hn) as Hlt. rewrite Hc in Hlt.
      rewrite Nat.div_small, Nat.mod_small by exact Hlt.
      exists c. split; [reflexivity | exact Hn].
    + rewrite Hc in Hge, Hn. destruct (IH _ _ Hn) as (c' & Hc' & Hx).
      replace n with (n - m + 1 * m)%nat by lia.
      rewrite Nat.div_add, Nat.Div0.mod_add by lia.
      exists c'. rewrite Nat.add_1_r. split; [exact Hc' | exact Hx].
Qed.

Lemma concat_uniform_length {A} (m : nat) (blocks : list (list A)) :
  Forall (fun c => length c = m) blocks ->
  length (concat blocks) = (length blocks * m)%nat.
Proof.
  induction 1 as [|c blocks Hc _ IH]; [reflexivity|].
  cbn [concat length]. rewrite length_app, Hc, IH. lia.
Qed.

(** X17. [gen_brands] never raises and yields [N_BRANDS] rows; the
    row at position [k] is named [Brand k+1], so no two rows share a
    name, and it was created a whole number of days, at most three
    years, before [now]. *)
Theorem brands_generated {rng : Type} `{RandomSource rng}
    (now : Z) (g : rng) :
  exists rows g',
    gen_brands now g = Ok (rows, g')
    /\ Z.of_nat (length rows) = N_BRANDS
    /\ (forall (k : nat) r,
           rows !! k = Some r ->
           br_brand_name r = "Brand " +:+ Fmt.d (Z.of_nat k + 1)
           /\ exists dd, 0 <= dd <= 1095
                         /\ br_created_at r = now - Time.days dd)
    /\ NoDup (br_brand_name <$> rows).
Proof.
  unfold gen_brands.
  destruct (for_yield_rows _ _
              (gen_brands_body_run (now - Time.days (365 * 3)))
              (Z.to_nat N_BRANDS) 0 g)
    as (rows & g' & E & Hlen & Hrows).
  exists rows, g'. split; [exact E|]. split; [rewrite Hlen; reflexivity|].
  split.
  - intros k r Hk. destruct (Hrows k r Hk) as (Hn & dd & Hdd & Hc).
    split; [exact Hn|]. exists (1095 - dd). split; [lia|].
    rewrite Hc. unfold Time.days, Time.second. lia.
  - apply (NoDup_by_index br_brand_name
             (fun k => "Brand " +:+ Fmt.d (Z.of_nat k + 1))).
    + intros i j Heq. apply (inj (String.append "Brand ")) in Heq.
      apply (inj pretty) in Heq. lia.
    + intros k r Hk. apply (Hrows k r Hk).
Qed.

(** X18. [gen_menu_items] never raises.  It yields fifty rows for each
    restaurant id from [restaurant_id_start] to [restaurant_id_end], in
    this order, and none when the range is empty: the row at position
    [n] belongs to the restaurant [start + n / 50] and is named after
    it and [n mod 50 + 1]; its category is one of [CATEGORIES], its
    price lies between 3.50 and 32 with two decimals, and it was
    created at most two years before [now]. *)
Theorem menu_items_generated {rng : Type} `{RandomSource rng}
    (now restaurant_id_start restaurant_id_end : Z) (g : rng) :
  exists rows g',
    gen_menu_items now restaurant_id_start restaurant_id_end g
    = Ok (rows, g')
    /\ Z.of_nat (length rows)
       = MENU_ITEMS_PER_OUTLET
         * Z.max 0 (restaurant_id_end + 1 - restaurant_id_start)
    /\ forall (n : nat) r,
         rows !! n = Some r ->
         m_restaurant_id r = restaurant_id_start + Z.of_nat (n / 50)
         /\ restaurant_id_start <= m_restaurant_id r <= restaurant_id_end
         /\ m_item_name r
            = "Item " +:+ Fmt.d (m_restaurant_id r) +:+ "-"
              +:+ Fmt.d (Z.of_nat (n mod 50) + 1)
         /\ m_category r ∈ CATEGORIES
         /\ (35 # 10 <= m_price r)%Q /\ (m_price r <= 32 # 1)%Q
         /\ Money.on_grid 2 (m_price r)
         /\ now - Time.days 730 <= m_created_at r <= now.
Proof.
  unfold gen_menu_items.
  set (base_ts := now - Time.days (365 * 2)).
  set (count := Z.to_nat (restaurant_id_end + 1 - restaurant_id_start)).
  pose proof (for_yield_blocks
              (fun rid => for_yield (Z.to_nat MENU_ITEMS_PER_OUTLET) 0
                            (gen_menu_items_body base_ts rid))
              (fun rid xs =>
                 length xs = 50%nat
                 /\ forall (j : nat) r,
                      xs !! j = Some r ->
                      m_restaurant_id r = rid
                      /\ m_item_name r
                         = "Item " +:+ Fmt.d rid +:+ "-"
                           +:+ Fmt.d (Z.of_nat j + 1)
                      /\ m_category r ∈ CATEGORIES
                      /\ (35 # 10 <= m_price r)%Q /\ (m_price r <= 32 # 1)%Q
                      /\ Money.on_grid 2 (m_price r)
                      /\ base_ts <= m_created_at r
                         <= base_ts + Time.days 730)
              ) as Hloop.
  match type of Hloop with ?P -> _ => assert (Hbody : P) end.
  { intros rid g0.
    destruct (for_yield_rows _ _ (gen_menu_items_body_run base_ts rid)
                (Z.to_nat MENU_ITEMS_PER_OUTLET) 0 g0)
      as (xs & g1 & E & Hlen & Hxs).
    exists xs, g1. split; [exact E|]. split; [exact Hlen|].
    intros j r Hj.
    destruct (Hxs j r Hj) as (Hr & Hn & Hc & Hp1 & Hp2 & Hg & dd & Hdd & Ht).
    split; [exact Hr|]. split; [exact Hn|]. split; [exact Hc|].
    split; [exact Hp1|]. split; [exact Hp2|]. split; [exact Hg|].
    rewrite Ht. unfold Time.days, Time.second. lia. }
  destruct (Hloop Hbody count restaurant_id_start g)
    as (blocks & g' & E & Hlen & Hblocks).
  assert (Hsize : Forall (fun c => length c = 50%nat) blocks).
  { apply Forall_lookup. intros k xs Hk. apply (Hblocks k xs Hk). }
  exists (concat blocks), g'. split; [exact E|].
  split.
  - rewrite (concat_uniform_length 50 blocks Hsize), Hlen.
    unfold count, MENU_ITEMS_PER_OUTLET. lia.
  - intros n r Hn.
    destruct (concat_uniform_lookup 50 blocks ltac:(lia) Hsize n r Hn)
      as (c & Hc & Hr).
    pose proof (lookup_lt_Some _ _ _ Hc) as Hlt. rewrite Hlen in Hlt.
    destruct (Hblocks _ _ Hc) as (_ & Hrows).
    destruct (Hrows _ _ Hr) as (Hrid & Hname & Hcat & Hp1 & Hp2 & Hg & Ht).
    split; [exact Hrid|]. split; [rewrite Hrid; unfold count in Hlt; lia|].
    split; [rewrite Hrid; exact Hname|]. split; [exact Hcat|].
    split; [exact Hp1|]. split; [exact Hp2|]. split; [exact Hg|].
    unfold base_ts, Time.days, Time.second in *. lia.
Qed.

(** X19. [gen_couriers] never raises and yields [N_COURIERS] rows,
    each with one of the ten city names of [AU_CITIES] and
    [IN_CITIES], a vehicle of [VEHICLES] and a creation time at most
    two years before [now]. *)
Theorem couriers_generated {rng : Type} `{RandomSource rng}
    (now : Z) (g : rng) :
  exists rows g',
    gen_couriers now g = Ok (rows, g')
    /\ Z.of_nat (length rows) = N_COURIERS
    /\ forall r, r ∈ rows ->
         (exists c, (c ∈ AU_CITIES \/ c ∈ IN_CITIES) /\ k_city r = fst (fst c))
         /\ k_vehicle r ∈ VEHICLES
         /\ now - Time.days 730 <= k_created_at r <= now.
Proof.
  unfold gen_couriers.
  set (cities := ((fun c : string * string * string => fst (fst c))
                    <$> AU_CITIES)
                 ++ ((fun c : string * string * string => fst (fst c))
                       <$> IN_CITIES)).
  destruct (for_yield_rows _ _
              (fun i g0 => gen_couriers_body_run (now - Time.days (365 * 2))
                             cities i g0 ltac:(discriminate))
              (Z.to_nat N_COURIERS) 0 g)
    as (rows & g' & E & Hlen & Hrows).
  exists rows, g'. split; [exact E|]. split; [rewrite Hlen; reflexivity|].
  intros r Hr. apply list_elem_of_lookup in Hr as [k Hk].
  destruct (Hrows k r Hk) as (Hcity & Hveh & dd & Hdd & Ht).
  split; [|split; [exact Hveh|]].
  - unfold cities in Hcity. apply elem_of_app in Hcity as [Hc|Hc];
      apply list_elem_of_fmap in Hc as (c & Hc & Hin);
      exists c; split; [left; exact Hin|exact Hc|right; exact Hin|exact Hc].
  - rewrite Ht. unfold Time.days, Time.second. lia.
Qed.

(** * Rounding to any number of decimals *)

Section RoundingFacts.

Import Money MoneyFacts.
#[local] Open Scope Q_scope.

Lemma epsilon_scale (nd : nat) :
  (nd <= 11)%nat ->
  0 < epsilon * inject_Z (Z.pos (scale nd))
  /\ epsilon * inject_Z (Z.pos (scale nd)) < 1 # 2.
Proof.
  intros Hnd.
  do 12 (destruct nd as [|nd]; [split; reflexivity|]). lia.
Qed.

Lemma qround_fix (nd : nat) x :
  (nd <= 11)%nat -> on_grid nd x -> qround x nd == x.
Proof.
  intros Hnd [z Hz]. unfold qround, py_round.
  destruct (epsilon_scale nd Hnd) as [Hlo Hhi].
  assert (Hr : round_half_even ((x + epsilon) * inject_Z (Z.pos (scale nd)))
               = z).
  { apply round_half_even_unique;
      rewrite Hz, Qmult_plus_distr_l, scale_mul; lra. }
  rewrite Hr. symmetry. exact Hz.
Qed.



End RoundingFacts.


(** With twelve decimals the epsilon is a whole unit: zero is not
    returned unchanged. *)
Example qround_twelve_decimals :
  ~ (Money.qround 0 12 == 0)%Q.
Proof. vm_compute. discriminate. Qed.

(** * The address lookup *)

Lemma lookup_fold (rows : list (Z * Z * string * string)) :
  forall (m : gmap Z (list (Z * string * string))) (cid : Z),
    fold_left
      (fun m r =>
         let '(address_id, customer_id, city, country) := r in
         <[customer_id :=
             default [] (m !! customer_id) ++ [(address_id, city, country)]]> m)
      rows m !! cid
    = extend_entry (m !! cid) (stored_addresses cid rows).
Proof.
  unfold stored_addresses.
  induction rows as [|[[[a c] city] country] rows IH]; intros m cid.
  - reflexivity.
  - cbn [fold_left]. rewrite IH.
    destruct (decide (c = cid)) as [->|Hne].
    + rewrite filter_cons_True by reflexivity.
      rewrite lookup_insert_eq. cbn [fmap list_fmap default].
      unfold extend_entry at 2. unfold extend_entry.
      destruct (_ <$> filter _ rows) as [|x xs].
      * reflexivity.
      * cbn [default id]. rewrite <- app_assoc. reflexivity.
    + rewrite filter_cons_False by exact Hne.
      rewrite lookup_insert_ne by exact Hne. reflexivity.
Qed.

(** X21. The lookup built from the fetched address rows maps a
    customer to the addresses of that customer, in the order of the
    rows, and has no entry for a customer without rows: an entry is
    never an empty list. *)
Theorem address_lookup_groups (rows : list (Z * Z * string * string))
    (cid : Z) :
  (stored_addresses cid rows = [] -> build_address_lookup rows !! cid = None)
  /\ (stored_addresses cid rows <> [] ->
      build_address_lookup rows !! cid = Some (stored_addresses cid rows))
  /\ build_address_lookup rows !! cid <> Some [].
Proof.
  unfold build_address_lookup. rewrite lookup_fold, lookup_empty.
  destruct (stored_addresses cid rows) as [|x xs].
  - split; [reflexivity|]. split; [congruence | discriminate].
  - split; [discriminate|]. split; [reflexivity | discriminate].
Qed.

Lemma stored_addresses_elem (cid : Z) (rows : list (Z * Z * string * string))
    (a : Z) (city country : string) :
  (a, city, country) ∈ stored_addresses cid rows <->
  (a, cid, city, country) ∈ rows.
Proof.
  unfold stored_addresses. rewrite list_elem_of_fmap. split.
  - intros ([[[a' c'] city'] country'] & Heq & Hin).
    apply list_elem_of_filter in Hin as [Hc Hin]. cbn in Hc. subst c'.
    injection Heq as -> -> ->. exact Hin.
  - intros Hin. exists (a, cid, city, country). split; [reflexivity|].
    apply list_elem_of_filter. split; [reflexivity | exact Hin].
Qed.

(** * The exceptions of a run *)


Section RaiseCauses.

Context {rng : Type} `{RandomSource rng}.






Variables (cfg : config) (now : Z).
Variable address_map : gmap Z (list (Z * string * string)).
Variables cust_range outlet_range menu_range courier_range : id_range.
Variables aud_id inr_id : Z.
Variable base_order_id : Z.

#[local] Abbreviation run :=
  (populate_orders_related cfg now address_map cust_range outlet_range
     menu_range courier_range aud_id inr_id base_order_id).




End RaiseCauses.

(** * Orders on stored addresses *)

Section StoredAddresses.

Context {rng : Type} `{RandomSource rng}.
Variables (cfg : config) (now : Z).
Variable stored : list (Z * Z * string * string).
Variables cust_range outlet_range menu_range courier_range : id_range.
Variables aud_id inr_id : Z.
Variable base_order_id : Z.

#[local] Abbreviation run :=
  (populate_orders_related cfg now (build_address_lookup stored) cust_range
     outlet_range menu_range courier_range aud_id inr_id base_order_id).

(** X23. With the lookup built from the stored address rows, every
    order of a run is delivered to a stored address of its own
    customer and carries the currency of the country of that
    address. *)
Theorem orders_use_stored_addresses (g : rng) (o : order_row) :
  o ∈ orders_rows (emitted (run g)) ->
  exists city country,
    (o_delivery_address_id o, o_customer_id o, city, country) ∈ stored
    /\ o_currency_id o = currency_for_country aud_id inr_id country.
Proof.
  intros Ho.
  destruct (run_order_view cfg now (build_address_lookup stored) cust_range
              outlet_range menu_range courier_range aud_id inr_id
              base_order_id g o Ho) as (b & [_ Hdet] & Hrows & _).
  detail Hdet. rewrite Hrows in Hrows'. injection Hrows' as <-.
  exists city, country. split; [|exact Hcur].
  unfold build_address_lookup in Hlook.
  rewrite lookup_fold, lookup_empty in Hlook. unfold extend_entry in Hlook.
  destruct (stored_addresses (o_customer_id o) stored) as [|x xs] eqn:Hst;
    [discriminate|].
  injection Hlook as <-. cbn [default app] in Haddr. rewrite <- Hst in Haddr.
  apply stored_addresses_elem, Haddr.
Qed.

(** X24. When the window is valid, no id range is empty and every
    customer of the customer range has a stored address, a run on the
    lookup built from the stored addresses does not raise and hands
    [N_ORDERS] order rows to the loader. *)
Theorem run_completes_on_stored_addresses (g : rng) :
  start_ts cfg now < end_ts cfg now ->
  lo cust_range <= hi cust_range ->
  lo outlet_range <= hi outlet_range ->
  lo menu_range <= hi menu_range ->
  lo courier_range <= hi courier_range ->
  (forall c, lo cust_range <= c <= hi cust_range ->
             exists a city country, (a, c, city, country) ∈ stored) ->
  raised (run g) = None
  /\ length (orders_rows (emitted (run g))) = Z.to_nat (cfg_n_orders cfg).
Proof.
  intros Hwin Hc Ho Hm Hk Haddr.
  assert (Hdata : reference_data_ok (build_address_lookup stored) cust_range
                    outlet_range menu_range courier_range).
  { do 4 (split; [assumption|]). intros c Hin.
    destruct (Haddr c Hin) as (a & city & country & Hrow).
    apply stored_addresses_elem in Hrow.
    unfold build_address_lookup. rewrite lookup_fold, lookup_empty.
    unfold extend_entry.
    destruct (stored_addresses c stored) as [|x xs];
      [apply elem_of_nil in Hrow; contradiction|].
    eexists. split; [reflexivity | discriminate]. }
  assert (Hno : raised (run g) = None).
  { unfold populate_orders_related.
    destruct (Z.leb_spec (end_ts cfg now) (start_ts cfg now)); [lia|].
    apply orders_loop_completes; assumption. }
  split; [exact Hno|].
  destruct (run_detail cfg now (build_address_lookup stored) cust_range
              outlet_range menu_range courier_range aud_id inr_id
              base_order_id g) as (bs & Hem & Hidx & _ & Hlen).
  rewrite Hem, bconcat_orders_length; [exact (Hlen Hno)|].
  apply Forall_lookup. intros k b Hb.
  exact (bundle_full_one _ _ _ _ _ _ _ _ _ _ _ (Hidx k b Hb)).
Qed.

End StoredAddresses.

(** * Address rows in detail *)

Lemma elem_of_concat {A} (x : A) (ls : list (list A)) :
  x ∈ concat ls <-> exists (k : nat) l, ls !! k = Some l /\ x ∈ l.
Proof.
  induction ls as [|l ls IH]; cbn [concat].
  - split; [intros Hx; apply elem_of_nil in Hx; contradiction|].
    intros (k & l & Hk & _). discriminate.
  - rewrite elem_of_app, IH. split.
    + intros [Hx|(k & l' & Hk & Hx)].
      * exists 0%nat, l. split; [reflexivity | exact Hx].
      * exists (S k), l'. split; [exact Hk | exact Hx].
    + intros ([|k] & l' & Hk & Hx); cbn in Hk.
      * injection Hk as <-. left. exact Hx.
      * right. exists k, l'. split; [exact Hk | exact Hx].
Qed.

(** The rows of one index among blocks whose rows carry the index of
    their block. *)
Lemma filter_concat_indexed {A} (idf : A -> Z) (blocks : list (list A)) :
  forall base : Z,
    (forall (k : nat) xs, blocks !! k = Some xs ->
                          Forall (fun x => idf x = base + Z.of_nat k) xs) ->
    forall (k : nat) xs,
      blocks !! k = Some xs ->
      filter (fun x => idf x = base + Z.of_nat k) (concat blocks) = xs.
Proof.
  induction blocks as [|b0 blocks IH]; intros base Hids k xs Hk.
  - discriminate.
  - cbn [concat]. rewrite filter_app. destruct k as [|k]; cbn in Hk.
    + injection Hk as ->. rewrite filter_id_all, filter_id_none.
      * apply app_nil_r.
      * apply Forall_forall. intros x Hx.
        apply elem_of_concat in Hx as (j & l & Hj & Hx).
        pose proof (Hids (S j) l Hj) as Hall.
        rewrite Forall_forall in Hall. specialize (Hall x Hx). lia.
      * apply (Hids 0%nat xs eq_refl).
    + rewrite filter_id_none.
      * cbn [app].
        replace (base + Z.of_nat (S k)) with (base + 1 + Z.of_nat k) by lia.
        apply (IH (base + 1)); [|exact Hk].
        intros j l Hj. pose proof (Hids (S j) l Hj) as Hall.
        eapply Forall_impl; [exact Hall|]. cbn. intros x Hx. lia.
      * pose proof (Hids 0%nat b0 eq_refl) as Hall.
        eapply Forall_impl; [exact Hall|]. cbn. intros x Hx. lia.
Qed.

Section GridSix.

Import Money MoneyFacts.
#[local] Open Scope Q_scope.

Lemma on_grid6_10 : on_grid 6 (10 # 1).
Proof. exists 10000000%Z. reflexivity. Qed.

Lemma on_grid6_m10 : on_grid 6 (- (10 # 1)).
Proof. exists (-10000000)%Z. reflexivity. Qed.

Lemma qround6_bounds x :
  - (10 # 1) <= x -> x <= 10 # 1 ->
  - (10 # 1) <= qround x 6 /\ qround x 6 <= 10 # 1.
Proof.
  intros Hlo Hhi. split.
  - rewrite <- (qround_fix 6 (- (10 # 1)) ltac:(lia) on_grid6_m10).
    apply qround_mono, Hlo.
  - rewrite <- (qround_fix 6 (10 # 1) ltac:(lia) on_grid6_10).
    apply qround_mono, Hhi.
Qed.

End GridSix.

Section AddressRuns.

Context {rng : Type} `{RandomSource rng}.

(** One address row in detail. *)
Lemma address_body_run (addr_base_ts customer_id : Z) (is_au : bool)
    (default_idx j : Z) (g : rng) :
  exists row g',
    address_body addr_base_ts customer_id is_au
      (if is_au then "Australia" else "India") default_idx j g
    = Ok ([row], g')
    /\ a_customer_id row = customer_id
    /\ a_country row = (if is_au then "Australia" else "India")
    /\ a_line_1 row
       = "ADDR_" +:+ Fmt.d0 5 customer_id +:+ "_" +:+ Fmt.d0 2 (j + 1)
    /\ address_row_ok (addr_base_ts + Time.days 730) row.
Proof.
  unfold address_body.
  assert (Hcity : (if is_au then AU_CITY_CODES else IN_CITY_CODES) <> []).
  { destruct is_au; apply (codes_nonempty _ 50); lia. }
  assert (Hstate : (if is_au then AU_STATE_CODES else IN_STATE_CODES) <> []).
  { destruct is_au; apply (codes_nonempty _ 10); lia. }
  destruct (choice_draw _ g Hcity) as (city & g1 & E1 & Hc).
  rewrite (gbind_run _ _ _ _ _ E1).
  destruct (choice_draw _ g1 Hstate) as (state & g2 & E2 & Hs).
  rewrite (gbind_run _ _ _ _ _ E2).
  destruct (choice_draw LABELS g2 ltac:(discriminate)) as (label & g3 & E3 & Hl).
  rewrite (gbind_run _ _ _ _ _ E3).
  destruct (random_total g3) as (r2 & g4 & E4).
  rewrite (gbind_run _ _ _ _ _ E4).
  assert (E5 : exists line_2 g5,
             (if Money.Qltb r2 (25 # 100)
              then gbind (randint 1 999)
                     (fun u => gret (Some ("UNIT_" +:+ Fmt.d0 3 u)))
              else gret None) g4 = Ok (line_2, g5)
             /\ (line_2 = None
                 \/ exists u, 1 <= u <= 999
                              /\ line_2 = Some ("UNIT_" +:+ Fmt.d0 3 u))).
  { destruct (Money.Qltb r2 (25 # 100)).
    - destruct (randint_draw 1 999 g4 ltac:(lia)) as (u & g5 & E5 & Hu).
      rewrite (gbind_run _ _ _ _ _ E5). eexists _, _.
      split; [reflexivity|]. right. exists u. split; [exact Hu | reflexivity].
    - eexists _, _. split; [reflexivity|]. left. reflexivity. }
  destruct E5 as (line_2 & g5 & E5 & Hl2). rewrite (gbind_run _ _ _ _ _ E5).
  assert (E6 : exists pc g6,
             (if is_au
              then gbind (randint 1000 9999) (fun n => gret (Fmt.d n))
              else gbind (randint 100000 999999) (fun n => gret (Fmt.d n)))
               g5 = Ok (pc, g6)
             /\ exists n, (if is_au then 1000 <= n <= 9999
                           else 100000 <= n <= 999999)
                          /\ pc = Fmt.d n).
  { destruct is_au.
    - destruct (randint_draw 1000 9999 g5 ltac:(lia)) as (n & g6 & E6 & Hn).
      rewrite (gbind_run _ _ _ _ _ E6). eexists _, _.
      split; [reflexivity|]. exists n. split; [exact Hn | reflexivity].
    - destruct (randint_draw 100000 999999 g5 ltac:(lia))
        as (n & g6 & E6 & Hn).
      rewrite (gbind_run _ _ _ _ _ E6). eexists _, _.
      split; [reflexivity|]. exists n. split; [exact Hn | reflexivity]. }
  destruct E6 as (pc & g6 & E6 & n & Hn & Hpc).
  rewrite (gbind_run _ _ _ _ _ E6).
  destruct (uniform_draw (- (10 # 1)) (10 # 1) g6 ltac:(lra))
    as (lat & g7 & E7 & Hlat1 & Hlat2).
  rewrite (gbind_run _ _ _ _ _ E7).
  destruct (uniform_draw (- (10 # 1)) (10 # 1) g7 ltac:(lra))
    as (lon & g8 & E8 & Hlon1 & Hlon2).
  rewrite (gbind_run _ _ _ _ _ E8).
  destruct (randint_draw 0 (365 * 2 * 24 * 60) g8 ltac:(lia))
    as (m & g9 & E9 & Hm).
  rewrite (gbind_run _ _ _ _ _ E9).
  eexists _, _. split; [reflexivity|].
  unfold address_row_ok.
  cbn [a_customer_id a_country a_line_1 a_city a_state a_postal_code a_label
       a_line_2 a_latitude a_longitude a_created_at].
  split; [reflexivity|]. split; [reflexivity|]. split; [reflexivity|].
  destruct (qround6_bounds lat Hlat1 Hlat2) as [Hla1 Hla2].
  destruct (qround6_bounds lon Hlon1 Hlon2) as [Hlo1 Hlo2].
  split.
  { destruct is_au; [left|right];
      (split; [reflexivity|]; split; [exact Hc|]; split; [exact Hs|];
       exists n; split; [exact Hn | exact Hpc]). }
  split; [exact Hl|]. split; [exact Hl2|].
  split; [exact Hla1|]. split; [exact Hla2|].
  split; [exact Hlo1|]. split; [exact Hlo2|].
  split; [apply MoneyFacts.qround_on_grid|].
  split; [apply MoneyFacts.qround_on_grid|].
  unfold Time.minutes, Time.days, Time.second. lia.
Qed.

(** The rows of one customer in detail. *)
Lemma customer_body_run (addr_base_ts customer_id : Z) (g : rng) :
  exists rows g',
    customer_body addr_base_ts customer_id g = Ok (rows, g')
    /\ Forall (fun a => a_customer_id a = customer_id) rows
    /\ (exists country, Forall (fun a => a_country a = country) rows)
    /\ Forall (address_row_ok (addr_base_ts + Time.days 730)) rows
    /\ forall (j : nat) a,
         rows !! j = Some a ->
         a_line_1 a
         = "ADDR_" +:+ Fmt.d0 5 customer_id +:+ "_"
           +:+ Fmt.d0 2 (Z.of_nat j + 1).
Proof.
  unfold customer_body.
  destruct (random_total g) as (r & g1 & E1).
  rewrite (gbind_run _ _ _ _ _ E1).
  destruct (random_total g1) as (r1 & g2 & E2).
  rewrite (gbind_run _ _ _ _ _ E2).
  set (n_addr := if Money.Qltb r (70 # 100) then 1
                 else if Money.Qltb r (95 # 100) then 2 else 3).
  assert (Hn : 1 <= n_addr <= 3).
  { unfold n_addr. destruct (Money.Qltb r (70 # 100)); [lia|].
    destruct (Money.Qltb r (95 # 100)); lia. }
  destruct (randrange_total n_addr g2 ltac:(lia)) as (idx & g3 & E3).
  rewrite (gbind_run _ _ _ _ _ E3).
  destruct (for_yield_rows _ _
              (fun j g0 => address_body_run addr_base_ts customer_id
                             (Money.Qltb r1 (55 # 100)) idx j g0)
              (Z.to_nat n_addr) 0 g3)
    as (rows & g4 & E4 & Hlen & Hrows).
  exists rows, g4. split; [exact E4|].
  split; [|split; [|split]].
  - apply Forall_lookup. intros j a Hj. apply (Hrows j a Hj).
  - eexists. apply Forall_lookup. intros j a Hj. apply (Hrows j a Hj).
  - apply Forall_lookup. intros j a Hj. apply (Hrows j a Hj).
  - intros j a Hj. destruct (Hrows j a Hj) as (_ & _ & Hline & _).
    rewrite Hline. replace (0 + Z.of_nat j + 1) with (Z.of_nat j + 1) by lia.
    reflexivity.
Qed.

End AddressRuns.

(** X25. [gen_customer_addresses] never raises.  Every row it yields
    is coherent: an Australian row has a city and a state code of the
    Australian pools and a postal code from 1000 to 9999, an Indian
    row those of the Indian pools and a postal code from 100000 to
    999999; the coordinates lie between -10 and 10 with six decimals
    and the row was created in the two years before [now].  All rows
    of one customer share the country, and the [j]-th row of customer
    [c] has the first line [ADDR_<c>_<j>]. *)
Theorem customer_addresses_coherent {rng : Type} `{RandomSource rng}
    (now customer_id_start customer_id_end : Z) (g : rng) :
  exists rows g',
    gen_customer_addresses now customer_id_start customer_id_end g
    = Ok (rows, g')
    /\ (forall a, a ∈ rows -> address_row_ok now a)
    /\ (forall a a', a ∈ rows -> a' ∈ rows ->
                     a_customer_id a = a_customer_id a' ->
                     a_country a = a_country a')
    /\ (forall cid (j : nat) a,
           addresses_of cid rows !! j = Some a ->
           a_line_1 a
           = "ADDR_" +:+ Fmt.d0 5 cid +:+ "_" +:+ Fmt.d0 2 (Z.of_nat j + 1)).
Proof.
  unfold gen_customer_addresses.
  set (base_ts := now - Time.days (365 * 2)).
  destruct (for_yield_blocks _ _ (customer_body_run base_ts)
              (Z.to_nat (customer_id_end + 1 - customer_id_start))
              customer_id_start g)
    as (blocks & g' & E & Hlen & Hblocks).
  exists (concat blocks), g'. split; [exact E|].
  assert (Hnow : base_ts + Time.days 730 = now).
  { unfold base_ts, Time.days, Time.second. lia. }
  assert (Hids : forall (k : nat) xs,
             blocks !! k = Some xs ->
             Forall (fun a => a_customer_id a
                              = customer_id_start + Z.of_nat k) xs).
  { intros k xs Hk. apply (Hblocks k xs Hk). }
  split; [|split].
  - intros a Ha. apply elem_of_concat in Ha as (k & xs & Hk & Ha).
    destruct (Hblocks k xs Hk) as (_ & _ & Hok & _).
    rewrite Forall_forall in Hok. rewrite <- Hnow. apply Hok, Ha.
  - intros a a' Ha Ha' Hsame.
    apply elem_of_concat in Ha as (k & xs & Hk & Ha).
    apply elem_of_concat in Ha' as (k' & xs' & Hk' & Ha').
    pose proof (Hids k xs Hk) as Hid. pose proof (Hids k' xs' Hk') as Hid'.
    rewrite Forall_forall in Hid, Hid'.
    assert (k = k') as <- by (specialize (Hid a Ha); specialize (Hid' a' Ha'); lia).
    assert (xs' = xs) as -> by congruence.
    destruct (Hblocks k xs Hk) as (_ & (country & Hco) & _).
    rewrite Forall_forall in Hco. rewrite (Hco a Ha), (Hco a' Ha').
    reflexivity.
  - intros cid j a Hj.
    assert (Hin : a ∈ addresses_of cid (concat blocks))
      by (eapply list_elem_of_lookup_2, Hj).
    unfold addresses_of in Hin. apply list_elem_of_filter in Hin as [Hcid Hin].
    apply elem_of_concat in Hin as (k & xs & Hk & Hin).
    pose proof (Hids k xs Hk) as Hid. rewrite Forall_forall in Hid.
    assert (Hc : cid = customer_id_start + Z.of_nat k)
      by (rewrite <- Hcid; apply Hid, Hin).
    unfold addresses_of in Hj. rewrite Hc in Hj.
    rewrite (filter_concat_indexed a_customer_id blocks customer_id_start
               Hids k xs Hk) in Hj.
    destruct (Hblocks k xs Hk) as (_ & _ & _ & Hline).
    rewrite (Hline j a Hj), Hc. reflexivity.
Qed.

(** * Outlet rows in detail *)

Section OutletRuns.

Context {rng : Type} `{RandomSource rng}.

Lemma regenerate_name (fuel : nat) (used : gset (Z * string * string * string))
    (brand_id : Z) (city zone : string) :
  forall (name : string) (g g' : rng) name',
    (exists n, 1 <= n <= 50000 /\ name = "Outlet " +:+ Fmt.d n) ->
    regenerate fuel used brand_id city zone name g = Ok (Some name', g') ->
    exists n, 1 <= n <= 50000 /\ name' = "Outlet " +:+ Fmt.d n.
Proof.
  induction fuel as [|fuel IH]; intros name g g' name' Hname Hrun;
    cbn [regenerate] in Hrun.
  - destruct (decide ((brand_id, name, city, zone) ∈ used)); [discriminate|].
    apply gret_Ok in Hrun as [Heq _]. injection Heq as ->. exact Hname.
  - destruct (decide ((brand_id, name, city, zone) ∈ used)).
    + bind_inv Hrun n g1 E1. apply randint_Ok in E1.
      eapply IH; [|exact Hrun]. exists n. split; [exact E1 | reflexivity].
    + apply gret_Ok in Hrun as [Heq _]. injection Heq as ->. exact Hname.
Qed.

Lemma outlet_body_row (fuel : nat) (now brand_id_start brand_id_end : Z)
    (used : gset (Z * string * string * string)) (g g' : rng) row :
  outlet_body fuel (now - Time.days (365 * 3)) brand_id_start brand_id_end
    used g = Ok (Some row, g') ->
  outlet_row_ok now brand_id_start brand_id_end row.
Proof.
  unfold outlet_body. intros Hrun.
  bind_inv Hrun brand_id g1 E1. bind_inv Hrun r g2 E2. bind_inv Hrun c g3 E3.
  destruct c as [[city st] country].
  bind_inv Hrun z g4 E4. bind_inv Hrun n g5 E5. bind_inv Hrun a g6 E6.
  bind_inv Hrun pc g7 E7. bind_inv Hrun r1 g8 E8. bind_inv Hrun dd g9 E9.
  bind_inv Hrun name g10 E10.
  destruct name as [name|]; [|apply gret_Ok in Hrun as [Heq _]; discriminate].
  apply gret_Ok in Hrun as [Heq _]. injection Heq as ->.
  apply randint_Ok in E1, E4, E5, E6, E9. apply choice_Ok in E3.
  apply regenerate_name in E10;
    [|exists n; split; [exact E5 | reflexivity]].
  unfold outlet_row_ok.
  cbn [t_brand_id t_city t_postal_code t_delivery_zone t_outlet_name
       t_address_line1 t_created_at].
  split; [exact E1|]. split.
  { destruct (Money.Qltb r (55 # 100)); apply randint_Ok in E7; [left|right];
      exists (city, st, country), pc;
      (split; [exact E3|]; split; [reflexivity|]; split; [exact E7|reflexivity]). }
  split; [exists z; split; [exact E4 | reflexivity]|].
  split; [exact E10|].
  split; [exists a; split; [exact E6 | reflexivity]|].
  exists (1095 - dd). split; [lia|]. unfold Time.days, Time.second. lia.
Qed.

Lemma outlets_loop_rows (fuel count : nat) (now brand_id_start brand_id_end : Z) :
  forall (used : gset (Z * string * string * string)) (g : rng),
    Forall (outlet_row_ok now brand_id_start brand_id_end)
      (outlets_loop fuel count (now - Time.days (365 * 3)) brand_id_start
         brand_id_end used g).1.
Proof.
  induction count as [|count IH]; intros used g; cbn [outlets_loop].
  - constructor.
  - destruct (outlet_body fuel _ brand_id_start brand_id_end used g)
      as [[[row|] g']|e] eqn:Ebody; [|constructor|constructor].
    apply outlet_body_row in Ebody.
    specialize (IH ({[outlet_key row]} ∪ used) g').
    destruct (outlets_loop fuel count _ brand_id_start brand_id_end _ g')
      as [rows e].
    cbn [fst] in *. constructor; [exact Ebody | exact IH].
Qed.

End OutletRuns.

(** X26. Every row yielded by [gen_outlets], whatever the fuel of the
    retry loops and however the run ends, has a brand of the brand id
    range, a city of the Australian pool with a postal code from 2000
    to 7999 or a city of the Indian pool with a postal code from
    100000 to 999999, a delivery zone [Z1] to [Z25], a name [Outlet n]
    with [n] from 1 to 50000, a street number from 1 to 999, and was
    created a whole number of days, at most three years, before
    [now]. *)
Theorem outlet_rows_valid {rng : Type} `{RandomSource rng}
    (fuel : nat) (now brand_id_start brand_id_end : Z) (g : rng) :
  Forall (outlet_row_ok now brand_id_start brand_id_end)
    (gen_outlets fuel now brand_id_start brand_id_end g).1.
Proof. unfold gen_outlets. apply outlets_loop_rows. Qed.

(** X27. On an empty brand id range [gen_outlets] raises the
    [ValueError] of [randrange] in its first iteration and yields no
    row. *)
Theorem outlets_empty_brand_range {rng : Type} `{RandomSource rng}
    (fuel : nat) (now brand_id_start brand_id_end : Z) (g : rng) :
  brand_id_end < brand_id_start ->
  gen_outlets fuel now brand_id_start brand_id_end g
  = ([], Raised (ValueError empty_range_msg)).
Proof.
  intros Hempty. unfold gen_outlets.
  change (Z.to_nat N_OUTLETS) with (S (Z.to_nat (N_OUTLETS - 1))).
  cbn [outlets_loop]. unfold outlet_body, randint at 1.
  destruct (Z.ltb_spec 0 (brand_id_end + 1 - brand_id_start)); [lia|].
  reflexivity.
Qed.

(** * FX rates *)

Section FxFacts.

Import Money MoneyFacts.
#[local] Open Scope Q_scope.

Lemma qpow_ge_1 (x : Q) (n : nat) : 1 <= x -> 1 <= qpow x n.
Proof.
  intros Hx. induction n as [|n IH]; cbn [qpow]; [lra|]. nra.
Qed.

Lemma qpow_unit (x : Q) (n : nat) :
  0 < x -> x <= 1 -> 0 < qpow x n /\ qpow x n <= 1.
Proof.
  intros Hx0 Hx1. induction n as [|n [IH0 IH1]]; cbn [qpow]; [lra|].
  split; nra.
Qed.

Lemma on_grid6_43 : on_grid 6 (43 # 1).
Proof. exists 43000000%Z. reflexivity. Qed.

Lemma on_grid6_70 : on_grid 6 (70 # 1).
Proof. exists 70000000%Z. reflexivity. Qed.

Lemma on_grid8_14 : on_grid 8 (14 # 1000).
Proof. exists 1400000%Z. reflexivity. Qed.

Lemma on_grid8_24 : on_grid 8 (24 # 1000).
Proof. exists 2400000%Z. reflexivity. Qed.

(** The two rates of a day whose running rate lies between 43 and
    70. *)
Lemma fx_day_rates (rate : Q) :
  43 # 1 <= rate -> rate <= 70 # 1 ->
  (43 # 1 <= qround rate 6 /\ qround rate 6 <= 70 # 1)
  /\ (14 # 1000 <= qround (1 / rate) 8 /\ qround (1 / rate) 8 <= 24 # 1000).
Proof.
  intros Hlo Hhi.
  assert (Hpos : 0 < rate) by lra.
  assert (Hinv1 : / rate <= 1 # 43) by (apply Qle_shift_inv_r; lra).
  assert (Hinv2 : 1 # 70 <= / rate) by (apply Qle_shift_inv_l; lra).
  assert (Hdiv : 1 / rate == / rate) by (unfold Qdiv; ring).
  split; split.
  - rewrite <- (qround_fix 6 (43 # 1) ltac:(lia) on_grid6_43).
    apply qround_mono, Hlo.
  - rewrite <- (qround_fix 6 (70 # 1) ltac:(lia) on_grid6_70).
    apply qround_mono, Hhi.
  - rewrite <- (qround_fix 8 (14 # 1000) ltac:(lia) on_grid8_14).
    apply qround_mono. rewrite Hdiv. lra.
  - rewrite <- (qround_fix 8 (24 # 1000) ltac:(lia) on_grid8_24).
    apply qround_mono. rewrite Hdiv. lra.
Qed.

End FxFacts.

Section FxRuns.

Context {rng : Type} `{RandomSource rng}.

Lemma fx_loop_run (aud_id inr_id start : Z) (count : nat) :
  forall (d : Z) (rate : Q) (rows : list fx_row) (g : rng),
    ((43 # 1) * qpow (1000 # 998) count <= rate)%Q ->
    (rate <= (70 # 1) * qpow (1000 # 1002) count)%Q ->
    exists new g',
      fx_loop aud_id inr_id start count d rate rows g = Ok (rows ++ new, g')
      /\ length new = (2 * count)%nat
      /\ forall k : nat, (k < count)%nat ->
                         fx_day aud_id inr_id start d new k.
Proof.
  induction count as [|count IH]; intros d rate rows g Hlo Hhi.
  - exists [], g. cbn [fx_loop]. rewrite app_nil_r.
    split; [reflexivity|]. split; [reflexivity|]. intros k Hk. lia.
  - cbn [fx_loop].
    destruct (uniform_draw (- (2 # 1000)) (2 # 1000) g ltac:(lra))
      as (u & g1 & E1 & Hu1 & Hu2).
    rewrite (gbind_run _ _ _ _ _ E1).
    cbn [qpow] in Hlo, Hhi.
    pose proof (qpow_ge_1 (1000 # 998) count ltac:(lra)) as Hp.
    destruct (qpow_unit (1000 # 1002) count ltac:(lra) ltac:(lra))
      as [Hq0 Hq1].
    set (P := qpow (1000 # 998) count) in *.
    set (Q' := qpow (1000 # 1002) count) in *.
    assert (Hrate : (43 # 1 <= rate)%Q) by nra.
    assert (Hlo' : ((43 # 1) * P <= rate * (1 + u))%Q) by nra.
    assert (Hhi' : (rate * (1 + u) <= (70 # 1) * Q')%Q) by nra.
    destruct (IH (d + 1) (rate * (1 + u))%Q
                (rows
                 ++ [ {| f_base_currency_id := aud_id;
                         f_quote_currency_id := inr_id;
                         f_rate_ts := start + Time.days d;
                         f_rate := Money.qround (rate * (1 + u)) 6;
                         f_source := "SIMULATED" |} ]
                 ++ [ {| f_base_currency_id := inr_id;
                         f_quote_currency_id := aud_id;
                         f_rate_ts := start + Time.days d;
                         f_rate := Money.qround (1 / (rate * (1 + u))) 8;
                         f_source := "SIMULATED" |} ]) g1 Hlo' Hhi')
      as (new & g' & E & Hlen & Hdays).
    rewrite E. eexists (_ :: _ :: new), g'.
    split; [rewrite <- !app_assoc; reflexivity|].
    split; [cbn [length]; lia|].
    intros [|k] Hk.
    + destruct (fx_day_rates (rate * (1 + u))%Q ltac:(nra) ltac:(nra))
        as [[Ha1 Ha2] [Hb1 Hb2]].
      eexists _, _. split; [reflexivity|]. split; [reflexivity|].
      cbn [f_rate_ts f_base_currency_id f_quote_currency_id f_rate f_source].
      split; [f_equal; f_equal; lia|]. split; [reflexivity|].
      do 4 (split; [reflexivity|]).
      split; [exact Ha1|]. split; [exact Ha2|].
      split; [exact Hb1|]. split; [exact Hb2|].
      split; [apply MoneyFacts.qround_on_grid|].
      split; [apply MoneyFacts.qround_on_grid|]. split; reflexivity.
    + destruct (Hdays k ltac:(lia))
        as (a & b & Ha & Hb & Hts & Hrest).
      exists a, b.
      replace (2 * S k)%nat with (S (S (2 * k))) by lia.
      replace (S (S (2 * k)) + 1)%nat with (S (S (2 * k + 1))) by lia.
      split; [exact Ha|]. split; [exact Hb|].
      split; [rewrite Hts; f_equal; f_equal; lia | exact Hrest].
Qed.

End FxRuns.

(** X28. The FX rows of [insert_currencies_and_fx]: the loop never
    raises and appends two rows for each of the [FX_DAYS] days before
    the current day, at midnight: first the rate from AUD to INR,
    between 43 and 70 with six decimals, then the rate from INR to
    AUD, between 0.014 and 0.024 with eight decimals.  No row is
    timed on the current day or later. *)
Theorem fx_rates_generated {rng : Type} `{RandomSource rng}
    (now aud_id inr_id : Z) (g : rng) :
  exists rows g',
    fx_rows now aud_id inr_id g = Ok (rows, g')
    /\ Z.of_nat (length rows) = 2 * FX_DAYS
    /\ (forall k : nat,
           Z.of_nat k < FX_DAYS ->
           fx_day aud_id inr_id (now - now mod Time.days 1 - Time.days FX_DAYS)
             0 rows k)
    /\ (forall r, r ∈ rows ->
                  f_rate_ts r mod Time.days 1 = 0
                  /\ f_rate_ts r + Time.days 1 <= now).
Proof.
  unfold fx_rows.
  destruct (fx_loop_run aud_id inr_id
              (now - now mod Time.days 1 - Time.days FX_DAYS)
              (Z.to_nat FX_DAYS) 0 (55 # 1) [] g)
    as (new & g' & E & Hlen & Hdays);
    [vm_compute; discriminate | vm_compute; discriminate |].
  cbn [app] in E. exists new, g'. split; [exact E|].
  split; [rewrite Hlen; reflexivity|].
  assert (Hall : forall k : nat,
             Z.of_nat k < FX_DAYS ->
             fx_day aud_id inr_id
               (now - now mod Time.days 1 - Time.days FX_DAYS) 0 new k).
  { intros k Hk. apply Hdays. unfold FX_DAYS in *. lia. }
  split; [exact Hall|].
  intros r Hr. apply list_elem_of_lookup in Hr as [n Hn].
  pose proof (lookup_lt_Some _ _ _ Hn) as Hlt. rewrite Hlen in Hlt.
  assert (Hk : Z.of_nat (n / 2) < FX_DAYS).
  { pose proof (Nat.Div0.div_lt_upper_bound n 2 (Z.to_nat FX_DAYS)
                  ltac:(lia)). unfold FX_DAYS in *. lia. }
  destruct (Hall (n / 2)%nat Hk) as (a & b & Ha & Hb & Hts & Htb & _).
  assert (Hr : f_rate_ts r = f_rate_ts a).
  { pose proof (Nat.div_mod_eq n 2) as Hdiv.
    pose proof (Nat.mod_upper_bound n 2 ltac:(lia)) as Hmod.
    destruct (n mod 2)%nat as [|[|m]] eqn:Em; [| |lia].
    - rewrite Nat.add_0_r in Hdiv. rewrite <- Hdiv in Ha. congruence.
    - rewrite <- Hdiv in Hb. congruence. }
  rewrite Hr, Hts.
  pose proof (Z.mod_pos_bound now (Time.days 1) ltac:(reflexivity)) as Hm.
  pose proof (Z.div_mod now (Time.days 1) ltac:(discriminate)) as Hd.
  assert (Hday : Time.days 1 = 86400000000) by reflexivity.
  unfold FX_DAYS in *. rewrite Hday in *.
  assert (Hdays' : forall z, Time.days z = z * 86400000000)
    by (intros z; unfold Time.days, Time.second; lia).
  rewrite !Hdays'. split; [|lia].
  replace (now - now mod 86400000000 - 120 * 86400000000
           + (0 + Z.of_nat (n / 2)) * 86400000000)
    with ((now / 86400000000 - 120 + Z.of_nat (n / 2)) * 86400000000) by lia.
  apply Z.mod_mul. discriminate.
Qed.

(** * Bulk loading *)

Lemma string_app_nil_r (s : string) : s +:+ EmptyString = s.
Proof.
  induction s as [|c s IH]; [reflexivity|].
  change (String c s +:+ EmptyString) with (String c (s +:+ EmptyString)).
  rewrite IH. reflexivity.
Qed.

Lemma string_app_assoc (s t u : string) : (s +:+ t) +:+ u = s +:+ t +:+ u.
Proof.
  induction s as [|c s IH]; [reflexivity|].
  change (String c ((s +:+ t) +:+ u) = String c (s +:+ t +:+ u)).
  rewrite IH. reflexivity.
Qed.

Lemma string_app_nonempty (s t : string) :
  s <> EmptyString -> s +:+ t <> EmptyString.
Proof. destruct s as [|c s]; [congruence | discriminate]. Qed.

Section CopyFacts.

Variable cell : Type.
Variable null : cell.
Variable writerow : list cell -> string.

#[local] Abbreviation text := (rows_text cell null writerow).

Lemma rows_text_app (a b : list (list (option cell))) :
  text (a ++ b) = text a +:+ text b.
Proof.
  unfold rows_text. induction a as [|r a IH]; [reflexivity|].
  cbn [app foldr]. rewrite IH, string_app_assoc. reflexivity.
Qed.

Lemma rows_text_snoc (a : list (list (option cell))) (r : list (option cell)) :
  text (a ++ [r]) = text a +:+ writerow (default null <$> r).
Proof.
  rewrite rows_text_app. unfold rows_text at 2. cbn [foldr].
  rewrite string_app_nil_r. reflexivity.
Qed.

Lemma rows_text_concat (chunks : list (list (list (option cell)))) :
  foldr String.append EmptyString (text <$> chunks) = text (concat chunks).
Proof.
  induction chunks as [|c chunks IH]; [reflexivity|].
  cbn [fmap list_fmap foldr concat]. rewrite IH, rows_text_app. reflexivity.
Qed.

Hypothesis writerow_nonempty : forall r, writerow r <> EmptyString.

Lemma rows_text_nonempty (a : list (list (option cell))) :
  a <> [] -> text a <> EmptyString.
Proof.
  destruct a as [|r a]; [congruence|]. intros _. unfold rows_text.
  cbn [foldr]. apply string_app_nonempty, writerow_nonempty.
Qed.

(** The writes of the loop: chunks of [max(1, chunk_rows)] rows and a
    shorter last one; [pend] are the rows in the buffer. *)
Lemma copy_loop_chunks (chunk_rows : Z) (rows : list (list (option cell))) :
  forall (pend : list (list (option cell))) (written : list string),
    Z.of_nat (length pend) < Z.max 1 chunk_rows ->
    exists fulls last,
      copy_loop cell null writerow chunk_rows rows (text pend)
        (Z.of_nat (length pend)) written
      = written ++ (text <$> (fulls ++ last))
      /\ concat (fulls ++ last) = pend ++ rows
      /\ Forall (fun c => Z.of_nat (length c) = Z.max 1 chunk_rows) fulls
      /\ (last = []
          \/ exists c, last = [c]
                       /\ 1 <= Z.of_nat (length c) < Z.max 1 chunk_rows).
Proof.
  induction rows as [|row rows IH]; intros pend written Hpend.
  - cbn [copy_loop]. destruct pend as [|r pend].
    + exists [], []. cbn. rewrite app_nil_r. repeat split; [constructor|].
      left. reflexivity.
    + pose proof (rows_text_nonempty (r :: pend) ltac:(discriminate)) as Hne.
      destruct (text (r :: pend)) as [|c s] eqn:Ht; [congruence|].
      exists [], [r :: pend]. cbn [app fmap list_fmap concat].
      rewrite Ht, !app_nil_r. split; [reflexivity|]. split; [reflexivity|].
      split; [constructor|]. right. exists (r :: pend).
      split; [reflexivity|]. cbn [length] in *. lia.
  - cbn [copy_loop]. rewrite <- rows_text_snoc.
    replace (Z.of_nat (length pend) + 1)
      with (Z.of_nat (length (pend ++ [row])))
      by (rewrite length_app; cbn; lia).
    destruct (Z.leb_spec chunk_rows (Z.of_nat (length (pend ++ [row]))))
      as [Hflush|Hkeep].
    + destruct (IH [] (written ++ [text (pend ++ [row])]))
        as (fulls & last & Hrun & Hcat & Hfu & Hla); [cbn; lia|].
      change (text []) with EmptyString in Hrun.
      change (Z.of_nat (length (@nil (list (option cell))))) with 0 in Hrun.
      exists ((pend ++ [row]) :: fulls), last.
      split; [rewrite Hrun, <- app_assoc; reflexivity|].
      split; [cbn [app concat]; rewrite Hcat, <- app_assoc; reflexivity|].
      split; [|exact Hla].
      constructor; [|exact Hfu]. rewrite length_app in *. cbn in *. lia.
    + destruct (IH (pend ++ [row]) written)
        as (fulls & last & Hrun & Hcat & Hfu & Hla); [lia|].
      exists fulls, last. split; [exact Hrun|].
      split; [rewrite Hcat, <- app_assoc; reflexivity|].
      split; [exact Hfu | exact Hla].
Qed.

(** X29. [copy_rows] writes every row once and in order: the texts
    written, put together, are the text of all rows.  It writes in
    chunks of [CHUNK_ROWS] rows, the last chunk being shorter when the
    rows do not fill it, and it writes nothing for no rows. *)
Theorem copy_rows_chunked (rows : list (list (option cell))) :
  exists chunks,
    copy_rows cell null writerow rows = text <$> chunks
    /\ concat chunks = rows
    /\ foldr String.append EmptyString (copy_rows cell null writerow rows)
       = text rows
    /\ Forall (fun c => 1 <= Z.of_nat (length c) <= CHUNK_ROWS) chunks
    /\ (forall (k : nat) c,
           chunks !! k = Some c -> (S k < length chunks)%nat ->
           Z.of_nat (length c) = CHUNK_ROWS).
Proof.
  unfold copy_rows.
  destruct (copy_loop_chunks CHUNK_ROWS rows [] []) as
    (fulls & last & Hrun & Hcat & Hfu & Hla); [cbn; lia|].
  change (text []) with EmptyString in Hrun.
  change (Z.of_nat (length (@nil (list (option cell))))) with 0 in Hrun.
  cbn [app] in Hrun, Hcat.
  change (Z.max 1 CHUNK_ROWS) with CHUNK_ROWS in Hfu, Hla.
  exists (fulls ++ last). split; [exact Hrun|]. split; [exact Hcat|].
  split; [rewrite Hrun, rows_text_concat, Hcat; reflexivity|].
  split.
  - apply Forall_app. split.
    + eapply Forall_impl; [exact Hfu|]. cbn. intros c Hc.
      unfold CHUNK_ROWS in *. lia.
    + destruct Hla as [->|(c & -> & Hc)]; [constructor|].
      constructor; [unfold CHUNK_ROWS in *; lia | constructor].
  - intros k c Hk Hlt. rewrite length_app in Hlt.
    rewrite Forall_lookup in Hfu. apply (Hfu k).
    apply lookup_app_Some in Hk as [Hk|[Hge Hk]]; [exact Hk|].
    destruct Hla as [->|(c' & -> & _)]; cbn in Hlt; lia.
Qed.

End CopyFacts.

(** * Sample runs of the further properties *)

Lemma delivered_timeline_unclamped_witness :
  992224000000000 + Time.minutes 108 <= sample_now
  /\ exists tl g' t1 t2 t3 t4,
       build_order_timeline_delivered 992224000000000 sample_now tape_late
       = Ok (tl, g')
       /\ td_events tl
          = [ (992224000000000, "PLACED", "CUSTOMER");
              (t1, "ACCEPTED", "RESTAURANT"); (t2, "PREP_START", "RESTAURANT");
              (t3, "READY_FOR_PICKUP", "RESTAURANT");
              (t4, "PICKED_UP", "COURIER");
              (td_delivered_ts tl, "DELIVERED", "SYSTEM") ]
       /\ strictly_increasing
            [ 992224000000000; t1; t2; t3; td_assigned_at tl; td_pickup_eta tl;
              t4; td_dropoff_eta tl; td_delivered_ts tl ]
       /\ 992224000000000 + Time.minutes 30 <= td_delivered_ts tl
          <= 992224000000000 + Time.minutes 107.
Proof.
  assert (Hplaced : 992224000000000 + Time.minutes 108 <= sample_now)
    by (vm_compute; discriminate).
  split; [exact Hplaced|].
  exact (delivered_timeline_unclamped 992224000000000 sample_now tape_late
           Hplaced).
Defined.

Lemma order_items_match_order_witness :
  late_order ∈ orders_rows late_rows
  /\ (1 <= length (items_of (o_order_id late_order) late_rows) <= 5)%nat
  /\ Forall (item_row_ok {| lo := 1; hi := 50 |})
       (items_of (o_order_id late_order) late_rows)
  /\ o_subtotal late_order
     = Money.qround
         (line_totals (items_of (o_order_id late_order) late_rows)) 2.
Proof.
  assert (Hin : late_order ∈ orders_rows late_rows) by sample_row.
  split; [exact Hin|].
  exact (order_items_match_order one_order_config sample_now sample_addresses
           {| lo := 1; hi := 1 |} {| lo := 1; hi := 5 |} {| lo := 1; hi := 50 |}
           {| lo := 1; hi := 9 |} 1 2 0 tape_late late_order
           Hin).
Defined.

Lemma order_amounts_in_range_witness :
  late_order ∈ orders_rows late_rows
  /\ ((5 # 1 <= o_subtotal late_order)%Q
      /\ (o_subtotal late_order <= 525 # 1)%Q)
  /\ ((Money.qround (o_subtotal late_order * (5 # 100)) 2
       <= o_tax late_order)%Q
      /\ (o_tax late_order
          <= Money.qround (o_subtotal late_order * (12 # 100)) 2)%Q)
  /\ ((1 # 1 <= o_delivery_fee late_order)%Q
      /\ (o_delivery_fee late_order <= 8 # 1)%Q)
  /\ (0 <= o_discount late_order)%Q
  /\ (5 # 1 <= o_total_amount late_order)%Q
  /\ Forall (Money.on_grid 2)
       [o_subtotal late_order; o_tax late_order; o_delivery_fee late_order;
        o_discount late_order; o_total_amount late_order].
Proof.
  assert (Hin : late_order ∈ orders_rows late_rows) by sample_row.
  split; [exact Hin|].
  exact (order_amounts_in_range one_order_config sample_now sample_addresses
           {| lo := 1; hi := 1 |} {| lo := 1; hi := 5 |} {| lo := 1; hi := 50 |}
           {| lo := 1; hi := 9 |} 1 2 0 tape_late late_order
           Hin).
Defined.

Lemma order_references_valid_witness :
  late_order ∈ orders_rows late_rows
  /\ 1 <= o_customer_id late_order <= 1
  /\ (exists addrs city country,
         sample_addresses !! o_customer_id late_order = Some addrs
         /\ (o_delivery_address_id late_order, city, country) ∈ addrs
         /\ o_currency_id late_order = currency_for_country 1 2 country)
  /\ 1 <= o_restaurant_id late_order <= 5
  /\ o_scheduled_delivery late_order = None
  /\ o_payment_method late_order ∈ PAYMENT_METHODS
  /\ (exists secs,
         0 <= secs
         <= Time.int_total_seconds
              (end_ts one_order_config sample_now
               - start_ts one_order_config sample_now)
         /\ o_order_placed_at late_order
            = start_ts one_order_config sample_now + Time.seconds secs).
Proof.
  assert (Hin : late_order ∈ orders_rows late_rows) by sample_row.
  split; [exact Hin|].
  exact (order_references_valid one_order_config sample_now sample_addresses
           {| lo := 1; hi := 1 |} {| lo := 1; hi := 5 |} {| lo := 1; hi := 50 |}
           {| lo := 1; hi := 9 |} 1 2 0 tape_late late_order
           Hin).
Defined.

Lemma order_events_sequence_witness :
  late_order ∈ orders_rows late_rows
  /\ ((exists t1 t2 t3 t4 t5 a,
          events_of (o_order_id late_order) late_rows
          = event_rows (o_order_id late_order)
              [ (o_order_placed_at late_order, "PLACED", "CUSTOMER");
                (t1, "ACCEPTED", "RESTAURANT");
                (t2, "PREP_START", "RESTAURANT");
                (t3, "READY_FOR_PICKUP", "RESTAURANT");
                (t4, "PICKED_UP", "COURIER"); (t5, "DELIVERED", "SYSTEM") ]
          /\ assignments_of (o_order_id late_order) late_rows = [a])
      \/ (exists t1,
             events_of (o_order_id late_order) late_rows
             = event_rows (o_order_id late_order)
                 [ (o_order_placed_at late_order, "PLACED", "CUSTOMER");
                   (t1, "CANCELED", "SYSTEM") ]
             /\ assignments_of (o_order_id late_order) late_rows = []
             /\ refunds_of (o_order_id late_order) late_rows = []
             /\ ratings_of (o_order_id late_order) late_rows = [])).
Proof.
  assert (Hin : late_order ∈ orders_rows late_rows) by sample_row.
  split; [exact Hin|].
  exact (order_events_sequence one_order_config sample_now sample_addresses
           {| lo := 1; hi := 1 |} {| lo := 1; hi := 5 |} {| lo := 1; hi := 50 |}
           {| lo := 1; hi := 9 |} 1 2 0 tape_late late_order
           Hin).
Defined.

Lemma delivery_assignment_of_order_witness :
  late_order ∈ orders_rows late_rows
  /\ ((exists a d,
          assignments_of (o_order_id late_order) late_rows = [a]
          /\ 1 <= s_courier_id a <= 9
          /\ d ∈ events_of (o_order_id late_order) late_rows
          /\ e_status d = "DELIVERED"
          /\ s_assigned_at a <= s_pickup_eta a
          /\ s_pickup_eta a <= s_dropoff_eta a
          /\ s_dropoff_eta a <= e_event_ts d
          /\ e_event_ts d <= latest_allowed sample_now)
      \/ (exists c,
             assignments_of (o_order_id late_order) late_rows = []
             /\ c ∈ events_of (o_order_id late_order) late_rows
             /\ e_status c = "CANCELED")).
Proof.
  assert (Hin : late_order ∈ orders_rows late_rows) by sample_row.
  split; [exact Hin|].
  exact (delivery_assignment_of_order one_order_config sample_now
           sample_addresses {| lo := 1; hi := 1 |} {| lo := 1; hi := 5 |}
           {| lo := 1; hi := 50 |} {| lo := 1; hi := 9 |} 1 2 0 tape_late
           late_order Hin).
Defined.

Lemma refund_of_order_detail_witness :
  late_order ∈ orders_rows late_rows
  /\ (refunds_of (o_order_id late_order) late_rows = []
      \/ exists r d,
           refunds_of (o_order_id late_order) late_rows = [r]
           /\ d ∈ events_of (o_order_id late_order) late_rows
           /\ e_status d = "DELIVERED"
           /\ e_event_ts d + Time.minutes 5 <= r_refund_ts r
              <= e_event_ts d + Time.minutes 180
           /\ r_refund_reason r ∈ REFUND_REASONS
           /\ (Money.qround (o_total_amount late_order * (5 # 100)) 2
               <= r_refund_amount r)%Q
           /\ (r_refund_amount r
               <= Money.qround (o_total_amount late_order * (80 # 100)) 2)%Q).
Proof.
  assert (Hin : late_order ∈ orders_rows late_rows) by sample_row.
  split; [exact Hin|].
  exact (refund_of_order_detail one_order_config sample_now sample_addresses
           {| lo := 1; hi := 1 |} {| lo := 1; hi := 5 |} {| lo := 1; hi := 50 |}
           {| lo := 1; hi := 9 |} 1 2 0 tape_late late_order
           Hin).
Defined.

Lemma rating_of_order_detail_witness :
  late_order ∈ orders_rows late_rows
  /\ (ratings_of (o_order_id late_order) late_rows = []
      \/ exists x d,
           ratings_of (o_order_id late_order) late_rows = [x]
           /\ d ∈ events_of (o_order_id late_order) late_rows
           /\ e_status d = "DELIVERED"
           /\ g_customer_id x = o_customer_id late_order
           /\ 1 <= g_restaurant_rating x <= 5
           /\ (g_courier_rating x = None
               \/ exists c, g_courier_rating x = Some c /\ 1 <= c <= 5)
           /\ (g_comment x = None
               \/ g_comment x = Some "Tasty and fast delivery.")
           /\ e_event_ts d + Time.minutes 2 <= g_created_at x
              <= e_event_ts d + Time.minutes 240).
Proof.
  assert (Hin : late_order ∈ orders_rows late_rows) by sample_row.
  split; [exact Hin|].
  exact (rating_of_order_detail one_order_config sample_now sample_addresses
           {| lo := 1; hi := 1 |} {| lo := 1; hi := 5 |} {| lo := 1; hi := 50 |}
           {| lo := 1; hi := 9 |} 1 2 0 tape_late late_order
           Hin).
Defined.

Lemma order_events_increase_witness :
  2 <= cfg_safety_buffer_hours one_order_config
  /\ late_order ∈ orders_rows late_rows
  /\ strictly_increasing
       (e_event_ts <$> events_of (o_order_id late_order) late_rows)
  /\ (forall e, e ∈ events_of (o_order_id late_order) late_rows ->
                e_status e = "DELIVERED" ->
                o_order_placed_at late_order + Time.minutes 30 <= e_event_ts e
                <= o_order_placed_at late_order + Time.minutes 107)
  /\ (forall e, e ∈ events_of (o_order_id late_order) late_rows ->
                e_status e = "CANCELED" ->
                o_order_placed_at late_order + Time.minutes 2 <= e_event_ts e
                <= o_order_placed_at late_order + Time.minutes 30).
Proof.
  assert (Hin : late_order ∈ orders_rows late_rows) by sample_row.
  assert (Hbuf : 2 <= cfg_safety_buffer_hours one_order_config)
    by (vm_compute; discriminate).
  split; [exact Hbuf|]. split; [exact Hin|].
  exact (order_events_increase one_order_config sample_now sample_addresses
           {| lo := 1; hi := 1 |} {| lo := 1; hi := 5 |} {| lo := 1; hi := 50 |}
           {| lo := 1; hi := 9 |} 1 2 0 tape_late late_order Hbuf
           Hin).
Defined.

Lemma no_timestamp_in_future_witness :
  6 <= cfg_safety_buffer_hours one_order_config
  /\ (forall e, e ∈ events_rows late_rows ->
                e_event_ts e
                <= end_ts one_order_config sample_now + Time.minutes 107
                < sample_now)
  /\ (forall a, a ∈ assignments_rows late_rows ->
                s_assigned_at a < s_pickup_eta a
                /\ s_pickup_eta a < s_dropoff_eta a
                /\ s_dropoff_eta a
                   <= end_ts one_order_config sample_now + Time.minutes 107
                   < sample_now)
  /\ (forall r, r ∈ refunds_rows late_rows ->
                r_refund_ts r
                <= end_ts one_order_config sample_now + Time.minutes 287
                < sample_now)
  /\ (forall x, x ∈ ratings_rows late_rows ->
                g_created_at x
                <= end_ts one_order_config sample_now + Time.minutes 347
                < sample_now).
Proof.
  assert (Hbuf : 6 <= cfg_safety_buffer_hours one_order_config)
    by (vm_compute; discriminate).
  split; [exact Hbuf|].
  exact (no_timestamp_in_future one_order_config sample_now sample_addresses
           {| lo := 1; hi := 1 |} {| lo := 1; hi := 5 |} {| lo := 1; hi := 50 |}
           {| lo := 1; hi := 9 |} 1 2 0 tape_late Hbuf).
Defined.



Lemma orders_use_stored_addresses_witness :
  late_order ∈ orders_rows (emitted run_on_stored)
  /\ exists city country,
       (o_delivery_address_id late_order, o_customer_id late_order, city,
        country) ∈ sample_stored
       /\ o_currency_id late_order = currency_for_country 1 2 country.
Proof.
  assert (Hin : late_order ∈ orders_rows (emitted run_on_stored))
    by sample_row.
  split; [exact Hin|].
  exact (orders_use_stored_addresses one_order_config sample_now sample_stored
           {| lo := 1; hi := 1 |} {| lo := 1; hi := 5 |} {| lo := 1; hi := 50 |}
           {| lo := 1; hi := 9 |} 1 2 0 tape_late late_order
           Hin).
Defined.

Lemma run_completes_on_stored_addresses_witness :
  start_ts one_order_config sample_now < end_ts one_order_config sample_now
  /\ (forall c, 1 <= c <= 1 ->
                exists a city country, (a, c, city, country) ∈ sample_stored)
  /\ raised run_on_stored = None
  /\ length (orders_rows (emitted run_on_stored))
     = Z.to_nat (cfg_n_orders one_order_config).
Proof.
  assert (Hwin : start_ts one_order_config sample_now
                 < end_ts one_order_config sample_now) by reflexivity.
  assert (Haddr : forall c, 1 <= c <= 1 ->
                    exists a city country,
                      (a, c, city, country) ∈ sample_stored).
  { intros c Hc. assert (c = 1) as -> by lia.
    exists 10, "AU_CITY_001", "Australia". apply list_elem_of_here. }
  split; [exact Hwin|]. split; [exact Haddr|].
  refine (run_completes_on_stored_addresses one_order_config sample_now
            sample_stored {| lo := 1; hi := 1 |} {| lo := 1; hi := 5 |}
            {| lo := 1; hi := 50 |} {| lo := 1; hi := 9 |} 1 2 0 tape_late
            Hwin _ _ _ _ Haddr); cbn; lia.
Defined.

Lemma outlets_empty_brand_range_witness :
  0 < 1
  /\ gen_outlets 5 sample_now 1 0 tape_late
     = ([], Raised (ValueError empty_range_msg)).
Proof.
  assert (Hempty : 0 < 1) by lia.
  split; [exact Hempty|].
  exact (outlets_empty_brand_range 5 sample_now 1 0 tape_late Hempty).
Defined.

Lemma copy_rows_chunked_witness :
  (forall r : list string, String.append "row" (String.concat "," r)
                           <> EmptyString)
  /\ exists chunks,
       copy_rows string "\N" (fun r => "row" +:+ String.concat "," r)
         [[Some "a"; None]; [Some "b"; Some "c"]]
       = rows_text string "\N" (fun r => "row" +:+ String.concat "," r)
           <$> chunks
       /\ concat chunks = [[Some "a"; None]; [Some "b"; Some "c"]]
       /\ foldr String.append EmptyString
            (copy_rows string "\N" (fun r => "row" +:+ String.concat "," r)
               [[Some "a"; None]; [Some "b"; Some "c"]])
          = rows_text string "\N" (fun r => "row" +:+ String.concat "," r)
              [[Some "a"; None]; [Some "b"; Some "c"]]
       /\ Forall (fun c => 1 <= Z.of_nat (length c) <= CHUNK_ROWS) chunks
       /\ (forall (k : nat) c,
              chunks !! k = Some c -> (S k < length chunks)%nat ->
              Z.of_nat (length c) = CHUNK_ROWS).
Proof.
  assert (Hne : forall r : list string,
             String.append "row" (String.concat "," r) <> EmptyString)
    by (intros r; discriminate).
  split; [exact Hne|].
  exact (copy_rows_chunked string "\N"
           (fun r => "row" +:+ String.concat "," r) Hne
           [[Some "a"; None]; [Some "b"; Some "c"]]).
Defined.
